(** * Relation-aware query rewriting and cascading persistence

    A shallow embedding of [packages/rapid-core/src/dataAccess/entityManager.ts]:
    the filter rewriter, the relation expander, cascading create and update,
    and the [EntityManager] façade with its domain events.  The storage
    accessor, raw statement execution and the mapping helpers live outside
    that file; they appear here as an explicit in-memory world and as the
    fields of the [Externals] class.  The HTTP layer above the engine (the
    route builder, the routes of the data manager plugin and the
    [createSession] handler) follows the façade. *)

From Stdlib Require Import String Ascii ZArith List Bool Lia DecimalString.
From stdpp Require Import gmap strings.
Import ListNotations.

Local Open Scope string_scope.
Local Open Scope Z_scope.
Local Open Scope list_scope.

Set Warnings "-register-all".

(** ** Runtime values *)

(** A JavaScript value as the engine meets it: entities, rows, ids and filter
    operands are all [any] in the source.  Objects are association lists in
    insertion order, because [keys(entity)] fixes the order of effects.
    Numbers are integers (ids); an array carries its indexed elements only. *)
Inductive Value : Type :=
| VUndefined
| VNull
| VBool (b : bool)
| VNum (n : Z)
| VStr (s : string)
| VArr (items : list Value)
| VObj (fields : list (string * Value)).

Abbreviation Obj := (list (string * Value)).

Module Js.

(** [!!v] *)
Definition truthy (v : Value) : bool :=
  match v with
  | VUndefined | VNull => false
  | VBool b => b
  | VNum n => negb (n =? 0)
  | VStr s => negb (String.eqb s "")
  | VArr _ | VObj _ => true
  end.

(** lodash [isObject] *)
Definition isObject (v : Value) : bool :=
  match v with VArr _ | VObj _ => true | _ => false end.

(** lodash [isArray] *)
Definition isArray (v : Value) : bool :=
  match v with VArr _ => true | _ => false end.

Definition isNullOrUndefined (v : Value) : bool :=
  match v with VUndefined | VNull => true | _ => false end.

(** The key under which element [i] of an array is found. *)
Definition indexKey (i : nat) : string :=
  NilEmpty.string_of_uint (Nat.to_uint i).

Fixpoint indexed (i : nat) (l : list Value) : Obj :=
  match l with
  | [] => []
  | x :: r => (indexKey i, x) :: indexed (S i) r
  end.

(** Own enumerable properties, in enumeration order. *)
Definition entries (v : Value) : Obj :=
  match v with
  | VObj fs => fs
  | VArr xs => indexed 0 xs
  | _ => []
  end.

(** lodash [keys] *)
Definition keys (v : Value) : list string := map fst (entries v).

Fixpoint lookup (k : string) (fs : Obj) : Value :=
  match fs with
  | [] => VUndefined
  | (k', x) :: r => if String.eqb k' k then x else lookup k r
  end.

(** [v[k]] on a value that is known not to be null or undefined. *)
Definition getProp (v : Value) (k : string) : Value := lookup k (entries v).

(** [o[k] = x] on a plain object: overwrite in place, or append. *)
Fixpoint assign (k : string) (x : Value) (fs : Obj) : Obj :=
  match fs with
  | [] => [(k, x)]
  | (k', y) :: r =>
      if String.eqb k' k then (k, x) :: r else (k', y) :: assign k x r
  end.

(** [Object.assign(target, source)] *)
Definition assignAll (target source : Obj) : Obj :=
  fold_left (fun acc kv => assign (fst kv) (snd kv) acc) source target.

(** An optional string used as a key: [o[undefined]] reads and writes the
    property named "undefined". *)
Definition keyOf (s : option string) : string :=
  match s with Some c => c | None => "undefined" end.

(** [!!s] for an optional string. *)
Definition hasText (s : option string) : bool :=
  match s with Some c => negb (String.eqb c "") | None => false end.

(** Strict structural equality, as storage compares column values. *)
Fixpoint sameValue (a b : Value) {struct a} : bool :=
  match a, b with
  | VUndefined, VUndefined => true
  | VNull, VNull => true
  | VBool x, VBool y => Bool.eqb x y
  | VNum x, VNum y => x =? y
  | VStr x, VStr y => String.eqb x y
  | VArr xs, VArr ys =>
      (fix go (l : list Value) (m : list Value) {struct l} : bool :=
         match l, m with
         | [], [] => true
         | x :: l', y :: m' => sameValue x y && go l' m'
         | _, _ => false
         end) xs ys
  | VObj fs, VObj gs =>
      (fix go (l : Obj) (m : Obj) {struct l} : bool :=
         match l, m with
         | [], [] => true
         | (k, x) :: l', (k', y) :: m' =>
             String.eqb k k' && sameValue x y && go l' m'
         | _, _ => false
         end) fs gs
  | _, _ => false
  end.

Definition decimal (n : Z) : string :=
  NilEmpty.string_of_int (Z.to_int n).

(** [a == b] on the values the expander compares (ids and foreign keys):
    null and undefined are equal to each other, a number equals its decimal
    spelling, scalars of one type compare by value.  Two objects are equal
    only when they are the same reference, which a tree of values cannot
    tell; they compare unequal here. *)
Definition looseEq (a b : Value) : bool :=
  match a, b with
  | (VUndefined | VNull), (VUndefined | VNull) => true
  | VBool x, VBool y => Bool.eqb x y
  | VNum x, VNum y => x =? y
  | VStr x, VStr y => String.eqb x y
  | VNum x, VStr y | VStr y, VNum x => String.eqb (decimal x) y
  | _, _ => false
  end.

Definition member (x : Value) (l : list Value) : bool :=
  existsb (sameValue x) l.

(** lodash [uniq]: first occurrences, in order. *)
Fixpoint uniqAcc (seen : list Value) (l : list Value) : list Value :=
  match l with
  | [] => []
  | x :: r =>
      if member x seen then uniqAcc seen r else x :: uniqAcc (x :: seen) r
  end.

Definition uniq (l : list Value) : list Value := uniqAcc [] l.

(** Nesting depth of a value; bounds the recursion of the cascade. *)
Fixpoint depth (v : Value) : nat :=
  match v with
  | VArr xs => S (fold_right (fun x d => Nat.max (depth x) d) 0%nat xs)
  | VObj fs => S (fold_right (fun kv d => Nat.max (depth (snd kv)) d) 0%nat fs)
  | _ => 0%nat
  end.

End Js.

(** ** Model schema *)

Inductive RelationKind : Type := one | many.

Record RpdDataModelProperty : Type := {
  code : string;
  columnName : option string;
  relation : option RelationKind;
  targetSingularCode : option string;
  targetIdColumnName : option string;
  selfIdColumnName : option string;
  linkTableName : option string;
  linkSchema : option string;
}.

Record RpdDataModel : Type := {
  namespace : string;
  singularCode : string;
  pluralCode : string;
  properties : list RpdDataModelProperty;
}.

(** [model.properties.find((e) => e.code === propertyCode)] *)
Definition findProperty (model : RpdDataModel) (propertyCode : string)
  : option RpdDataModelProperty :=
  List.find (fun e => String.eqb (code e) propertyCode) (properties model).

Definition isMany (p : RpdDataModelProperty) : bool :=
  match relation p with Some many => true | _ => false end.

Definition isOne (p : RpdDataModelProperty) : bool :=
  match relation p with Some one => true | _ => false end.

(** ** Filters and find options *)

(** Modelled from the spec: the declaration of [EntityFilterOptions] is in
    [~/types], which is not part of the sources at hand.  Section 3 of the
    specification gives a node tagged by its operator: a leaf
    [{field, operator, value}], a boolean node [{operator: and|or, filters}]
    and a relational node [{operator: exists|notExists, field, filters}].  A
    missing [filters] array and an empty one are told apart nowhere in the
    engine, so both are the empty list. *)
Inductive LeafOperator : Type :=
| eq | ne | in_ | notIn
| otherOperator (name : string).

Inductive LogicalOperator : Type := and_ | or_.

Inductive ExistenceOperator : Type := exists_ | notExists.

Inductive Filter : Type :=
| Leaf (field : string) (operator : LeafOperator) (value : Value)
| Logical (operator : LogicalOperator) (filters : list Filter)
| Existence (operator : ExistenceOperator) (field : string) (filters : list Filter).

Record FindEntityOrderByOptions : Type := {
  field : string;
  desc : option bool;
}.

(** [selected] is the [properties] of the source's options (the name is the
    model's here).  [properties] absent and [properties: []] behave alike in
    the engine; both are the empty list.  [keepNonPropertyFields] absent is
    [false]. *)
Record FindEntityOptions : Type := {
  filters : list Filter;
  orderBy : option (list FindEntityOrderByOptions);
  pagination : option Value;
  selected : list string;
  keepNonPropertyFields : bool;
}.

(** ** The world outside the engine *)

(** A link table is named by schema and table name, as handed to
    [queryBuilder.quoteTable]. *)
Abbreviation LinkTable := (option string * string)%type.

(** The raw statements the engine sends through
    [server.queryDatabaseObject], by shape rather than by text:
    - [SELECT * FROM t WHERE column = ANY($1::int[])];
    - [INSERT INTO t (self, target) VALUES ($1, $2) ON CONFLICT DO NOTHING];
    - [INSERT INTO t (self, target) SELECT $1, $2 WHERE NOT EXISTS
       (SELECT self, target FROM t WHERE self=$1 AND target=$2)];
    - [DELETE FROM t WHERE column = $1];
    - [DELETE FROM t WHERE self=$1 AND target=$2].
    Identifier quoting and the cast of the ids to integers are left to the
    database. *)
Inductive Statement : Type :=
| SelectWhereAny (table : LinkTable) (column : string) (ids : list Value)
| InsertOnConflictDoNothing (table : LinkTable)
    (selfColumn targetColumn : string) (selfId targetId : Value)
| InsertWhereNotExists (table : LinkTable)
    (selfColumn targetColumn : string) (selfId targetId : Value)
| DeleteWhere (table : LinkTable) (column : string) (id : Value)
| DeleteWherePair (table : LinkTable)
    (selfColumn targetColumn : string) (selfId targetId : Value).

(** Every call that leaves the engine, in the order issued. *)
Inductive Call : Type :=
| CGetDataAccessor (target : option string)
| CFind (collection : string) (options : FindEntityOptions)
| CFindById (collection : string) (id : Value)
| CCreate (collection : string) (row : Obj)
| CUpdateById (collection : string) (id : Value) (row : Obj)
| CDeleteById (collection : string) (id : Value)
| CQuery (statement : Statement).

Definition isWrite (c : Call) : bool :=
  match c with
  | CCreate _ _ | CUpdateById _ _ _ | CDeleteById _ _ => true
  | CQuery (SelectWhereAny _ _ _) => false
  | CQuery _ => true
  | _ => false
  end.

(** Domain events, with the payload [emitEvent] receives and the optional
    originating plugin. *)
Inductive Event : Type :=
| EntityCreate (ns modelSingularCode : string) (after : Value)
    (plugin : option string)
| EntityUpdate (ns modelSingularCode : string) (before after changes : Value)
    (plugin : option string)
| EntityDelete (ns modelSingularCode : string) (before : Value)
    (plugin : option string)
| EntityAddRelations (ns modelSingularCode : string) (entity : Value)
    (property : string) (relations : list Value) (plugin : option string)
| EntityRemoveRelations (ns modelSingularCode : string) (entity : Value)
    (property : string) (relations : list Value) (plugin : option string).

Record World : Type := {
  registry : list RpdDataModel;
  accessors : gmap string RpdDataModel;
  tables : gmap string (list Obj);
  linkTables : gmap LinkTable (list Obj);
  nextId : Z;
  events : list Event;
  journal : list Call;
}.

(** ** Failures *)

Inductive Error : Type :=
| ENoSuchProperty (ns collection propertyCode : string)
| ETargetIdColumnRequired (propertyCode ns collection : string)
| EFilterPropertyNotFound (field ns collection : string)
| EExistenceOnNonRelation (field : string)
| EFiltersRequired
| ESelfIdColumnNotConfigured (propertyCode : string)
| ETargetIdColumnNotConfigured (propertyCode : string)
| ENotAnArray (propertyCode : string)
| ERelatedEntityNotFound (id : Value) (propertyCode : string)
| EIdRequired
| EEntityNotFound (ns collection : string) (id : Value)
| EPropertyNotFound (propertyCode ns collection : string)
| EOnlyManyRelation (operation : string)
| ETypeError (what : string)
| EDataModelNotFound (target : option string)
| EOutOfFuel.

Inductive Outcome (A : Type) : Type :=
| Ok (a : A)
| Err (e : Error).

Arguments Ok {A} a.
Arguments Err {A} e.

(** A computation of the engine: it may fail, and whatever it did to the world
    before failing stays done (no transaction wraps a cascade). *)
Definition M (A : Type) : Type := World -> Outcome A * World.

Definition ret {A} (a : A) : M A := fun w => (Ok a, w).

Definition raise {A} (e : Error) : M A := fun w => (Err e, w).

Definition bind {A B} (c : M A) (k : A -> M B) : M B :=
  fun w =>
    match c w with
    | (Ok a, w') => k a w'
    | (Err e, w') => (Err e, w')
    end.

Definition lift {A} (o : Outcome A) : M A := fun w => (o, w).

Notation "x <- c ;; k" := (bind c (fun x => k))
  (at level 90, c at next level, right associativity).
Notation "c ;;; k" := (bind c (fun _ => k))
  (at level 90, right associativity).

Fixpoint mapM {A B} (f : A -> M B) (l : list A) : M (list B) :=
  match l with
  | [] => ret []
  | x :: r => y <- f x ;; ys <- mapM f r ;; ret (y :: ys)
  end.

(** A loop that threads an accumulator: [for (const x of l) { acc = ... }]. *)
Fixpoint foldM {A B} (f : B -> A -> M B) (acc : B) (l : list A) : M B :=
  match l with
  | [] => ret acc
  | x :: r => acc' <- f acc x ;; foldM f acc' r
  end.

Definition log (c : Call) : M unit :=
  fun w =>
    (Ok tt,
     {| registry := registry w; accessors := accessors w; tables := tables w;
        linkTables := linkTables w; nextId := nextId w; events := events w;
        journal := journal w ++ [c] |}).

(** Property access where the receiver may be null or undefined. *)
Definition readProp (v : Value) (k : string) : Outcome Value :=
  if Js.isNullOrUndefined v then Err (ETypeError "read of a property of null")
  else Ok (Js.getProp v k).

(** [v[k] = x].  Module code runs in strict mode, so a write on a primitive
    fails like a write on null.  A named property written on an array turns
    the value into the object with the same enumerable properties. *)
Definition writeProp (v : Value) (k : string) (x : Value) : Outcome Value :=
  match v with
  | VObj fs => Ok (VObj (Js.assign k x fs))
  | VArr xs => Ok (VObj (Js.assign k x (Js.indexed 0 xs)))
  | _ => Err (ETypeError "write of a property of a primitive")
  end.

(** [v[k].push(x)] *)
Definition pushProp (v : Value) (k : string) (x : Value) : Outcome Value :=
  match Js.getProp v k with
  | VArr xs => writeProp v k (VArr (xs ++ [x]))
  | _ => Err (ETypeError "push on a value that is not an array")
  end.

(** ** Helpers imported by the engine but defined elsewhere *)

(** The engine imports these from modules that are not part of the sources at
    hand; it is verified for every implementation of them.  The last three
    fields are the parts of the storage contract that the in-memory accessor
    below leaves open: what it does with a filter node other than
    [eq]/[ne]/[in]/[notIn]/[and]/[or], how it orders and paginates, and whether
    the constraints of a link table reject a new row. *)
Class Externals : Type := {
  isRelationProperty : RpdDataModelProperty -> bool;
  mapDbRowToEntity : option RpdDataModel -> Value -> bool -> Outcome Value;
  mapEntityToDbRow : RpdDataModel -> Value -> Obj;
  mapPropertyNameToColumnName : RpdDataModel -> string -> string;
  getEntityPartChanges : Value -> Value -> Value;
  accessorOther : Filter -> Obj -> bool;
  accessorArrange :
    option (list FindEntityOrderByOptions) -> option Value -> list Obj -> list Obj;
  uniqueViolation : LinkTable -> list Obj -> Obj -> bool;
}.

(** ** Storage *)

(** Modelled from the spec: the Data Accessor and raw statement execution are
    external collaborators (sections 1 and 6 of the specification):
    [find/findById/create/updateById/deleteById] per model, filtered but
    relation-unaware, over one collection of rows per model; statements
    against link tables go through [queryDatabaseObject].  Comparisons follow
    SQL, the language of the statements the engine writes: a null operand
    equals nothing. *)
Module Storage.

Definition equal (a b : Value) : bool :=
  negb (Js.isNullOrUndefined a) && negb (Js.isNullOrUndefined b)
  && Js.sameValue a b.

Definition among (x : Value) (l : list Value) : bool := existsb (equal x) l.

Definition rowsOf (w : World) (collection : string) : list Obj :=
  default [] (tables w !! collection).

Definition linksOf (w : World) (t : LinkTable) : list Obj :=
  default [] (linkTables w !! t).

Definition setRows (collection : string) (rows : list Obj) : M unit :=
  fun w =>
    (Ok tt,
     {| registry := registry w; accessors := accessors w;
        tables := <[collection := rows]> (tables w);
        linkTables := linkTables w; nextId := nextId w; events := events w;
        journal := journal w |}).

Definition setLinks (t : LinkTable) (rows : list Obj) : M unit :=
  fun w =>
    (Ok tt,
     {| registry := registry w; accessors := accessors w; tables := tables w;
        linkTables := <[t := rows]> (linkTables w);
        nextId := nextId w; events := events w; journal := journal w |}).

Definition freshId : M Value :=
  fun w =>
    (Ok (VNum (nextId w)),
     {| registry := registry w; accessors := accessors w; tables := tables w;
        linkTables := linkTables w; nextId := nextId w + 1;
        events := events w; journal := journal w |}).

Definition hasId (id : Value) (r : Obj) : bool := equal (Js.lookup "id" r) id.

Definition pairIs (selfColumn targetColumn : string) (selfId targetId : Value)
  (r : Obj) : bool :=
  equal (Js.lookup selfColumn r) selfId
  && equal (Js.lookup targetColumn r) targetId.

Definition project (columns : list string) (r : Obj) : Obj :=
  match columns with
  | [] => r
  | _ => List.filter (fun kv => existsb (String.eqb (fst kv)) columns) r
  end.

Section WithExternals.
Context `{Externals}.

Fixpoint holds (r : Obj) (f : Filter) {struct f} : bool :=
  match f with
  | Leaf field eq v => equal (Js.lookup field r) v
  | Leaf field ne v =>
      negb (Js.isNullOrUndefined (Js.lookup field r))
      && negb (Js.isNullOrUndefined v)
      && negb (Js.sameValue (Js.lookup field r) v)
  | Leaf field in_ (VArr vs) => among (Js.lookup field r) vs
  | Leaf field notIn (VArr vs) =>
      negb (Js.isNullOrUndefined (Js.lookup field r))
      && negb (among (Js.lookup field r) vs)
  | Logical and_ fs =>
      (fix all (l : list Filter) : bool :=
         match l with [] => true | x :: l' => holds r x && all l' end) fs
  | Logical or_ fs =>
      (fix any (l : list Filter) : bool :=
         match l with [] => false | x :: l' => holds r x || any l' end) fs
  | _ => accessorOther f r
  end.

Definition matching (fs : list Filter) (rows : list Obj) : list Obj :=
  List.filter (fun r => forallb (holds r) fs) rows.

Definition select (options : FindEntityOptions) (rows : list Obj) : list Obj :=
  let found := matching (filters options) rows in
  let arranged :=
    match orderBy options, pagination options with
    | None, None => found
    | ob, pg => accessorArrange ob pg found
    end in
  map (project (selected options)) arranged.

(** Rows a statement returns. *)
Definition answer (s : Statement) (rows : list Obj) : list Obj :=
  match s with
  | SelectWhereAny _ column ids =>
      List.filter (fun r => among (Js.lookup column r) ids) rows
  | _ => []
  end.

(** Rows a statement leaves in its table. *)
Definition effect (s : Statement) (t : LinkTable) (rows : list Obj) : list Obj :=
  match s with
  | SelectWhereAny _ _ _ => rows
  | InsertOnConflictDoNothing _ selfColumn targetColumn selfId targetId =>
      let row := Js.assign targetColumn targetId [(selfColumn, selfId)] in
      if uniqueViolation t rows row then rows else rows ++ [row]
  | InsertWhereNotExists _ selfColumn targetColumn selfId targetId =>
      let row := Js.assign targetColumn targetId [(selfColumn, selfId)] in
      if existsb (pairIs selfColumn targetColumn selfId targetId) rows
      then rows else rows ++ [row]
  | DeleteWhere _ column id =>
      List.filter (fun r => negb (equal (Js.lookup column r) id)) rows
  | DeleteWherePair _ selfColumn targetColumn selfId targetId =>
      List.filter
        (fun r => negb (pairIs selfColumn targetColumn selfId targetId r))
        rows
  end.

End WithExternals.

End Storage.

Definition tableOf (s : Statement) : LinkTable :=
  match s with
  | SelectWhereAny t _ _ | InsertOnConflictDoNothing t _ _ _ _
  | InsertWhereNotExists t _ _ _ _ | DeleteWhere t _ _
  | DeleteWherePair t _ _ _ _ => t
  end.

Definition isSelect (s : Statement) : bool :=
  match s with SelectWhereAny _ _ _ => true | _ => false end.

(** ** The server contract *)

Module Server.
Section WithExternals.
Context `{Externals}.

(** [server.getModel({singularCode})]: the registered model, if any. *)
Definition getModel (target : option string) : M (option RpdDataModel) :=
  fun w =>
    (Ok (match target with
         | Some c =>
             List.find (fun m => String.eqb (singularCode m) c) (registry w)
         | None => None
         end), w).

(** [server.getDataAccessor({singularCode})].  An accessor stands for the
    model it serves; asking for one the server cannot provide fails. *)
Definition getDataAccessor (target : option string) : M RpdDataModel :=
  log (CGetDataAccessor target) ;;;
  fun w =>
    match target with
    | Some c =>
        match accessors w !! c with
        | Some m => (Ok m, w)
        | None => (Err (EDataModelNotFound target), w)
        end
    | None => (Err (EDataModelNotFound target), w)
    end.

(** [server.queryDatabaseObject(command, params)] *)
Definition queryDatabaseObject (s : Statement) : M (list Obj) :=
  log (CQuery s) ;;;
  fun w =>
    let rows := Storage.linksOf w (tableOf s) in
    if isSelect s then (Ok (Storage.answer s rows), w)
    else
      match Storage.setLinks (tableOf s) (Storage.effect s (tableOf s) rows) w with
      | (_, w') => (Ok (Storage.answer s rows), w')
      end.

(** [server.emitEvent(name, payload, plugin)] *)
Definition emitEvent (e : Event) : M unit :=
  fun w =>
    (Ok tt,
     {| registry := registry w; accessors := accessors w; tables := tables w;
        linkTables := linkTables w; nextId := nextId w;
        events := events w ++ [e]; journal := journal w |}).

End WithExternals.
End Server.

(** ** The data accessor contract *)

Module DataAccessor.
Section WithExternals.
Context `{Externals}.

Definition getModel (dataAccessor : RpdDataModel) : RpdDataModel := dataAccessor.

Definition collection (dataAccessor : RpdDataModel) : string :=
  singularCode dataAccessor.

Definition find (dataAccessor : RpdDataModel) (options : FindEntityOptions)
  : M (list Obj) :=
  log (CFind (collection dataAccessor) options) ;;;
  fun w => (Ok (Storage.select options (Storage.rowsOf w (collection dataAccessor))), w).

Definition findById (dataAccessor : RpdDataModel) (id : Value) : M Value :=
  log (CFindById (collection dataAccessor) id) ;;;
  fun w =>
    (Ok (match List.find (Storage.hasId id)
                 (Storage.rowsOf w (collection dataAccessor)) with
         | Some r => VObj r
         | None => VUndefined
         end), w).

Definition create (dataAccessor : RpdDataModel) (row : Obj) : M Obj :=
  log (CCreate (collection dataAccessor) row) ;;;
  stored <- (if Js.isNullOrUndefined (Js.lookup "id" row)
             then id <- Storage.freshId ;; ret (Js.assign "id" id row)
             else ret row) ;;
  (fun w =>
     Storage.setRows (collection dataAccessor)
       (Storage.rowsOf w (collection dataAccessor) ++ [stored]) w) ;;;
  ret stored.

Definition updateById (dataAccessor : RpdDataModel) (id : Value) (row : Obj)
  : M Value :=
  log (CUpdateById (collection dataAccessor) id row) ;;;
  fun w =>
    let rows := Storage.rowsOf w (collection dataAccessor) in
    let rows' :=
      map (fun r => if Storage.hasId id r then Js.assignAll r row else r) rows in
    match Storage.setRows (collection dataAccessor) rows' w with
    | (_, w') =>
        (Ok (match List.find (Storage.hasId id) rows with
             | Some r => VObj (Js.assignAll r row)
             | None => VUndefined
             end), w')
    end.

Definition deleteById (dataAccessor : RpdDataModel) (id : Value) : M unit :=
  log (CDeleteById (collection dataAccessor) id) ;;;
  fun w =>
    Storage.setRows (collection dataAccessor)
      (List.filter (fun r => negb (Storage.hasId id r))
         (Storage.rowsOf w (collection dataAccessor))) w.

End WithExternals.
End DataAccessor.

(** ** The engine *)

Section Engine.
Context `{Externals}.

Definition convertToDataAccessOrderBy (model : RpdDataModel)
  (orderByList : option (list FindEntityOrderByOptions))
  : option (list FindEntityOrderByOptions) :=
  match orderByList with
  | None => None
  | Some l =>
      Some (map (fun ob =>
                   {| field := mapPropertyNameToColumnName model (field ob);
                      desc := Some (match desc ob with Some b => b | None => false end) |})
                l)
  end.

(** *** Filter rewriter *)

Definition plainFind (fs : list Filter) (columns : list string) : FindEntityOptions :=
  {| filters := fs; orderBy := None; pagination := None;
     selected := columns; keepNonPropertyFields := false |}.

Definition containment (operator : ExistenceOperator) : LeafOperator :=
  match operator with exists_ => in_ | notExists => notIn end.

(** The single leaf [{field: "id", operator: eq|in}] that lets the rewriter
    skip the subquery, if the nested filters are of that form. *)
Definition relatedEntityIdFilter (relatedEntityFilters : list Filter)
  : option (LeafOperator * Value) :=
  match relatedEntityFilters with
  | [Leaf field operator value] =>
      match operator with
      | eq | in_ => if String.eqb field "id" then Some (operator, value) else None
      | _ => None
      end
  | _ => None
  end.

Definition replacedOperator (operator : ExistenceOperator) (inner : LeafOperator)
  : LeafOperator :=
  match operator with
  | exists_ => inner
  | notExists => match inner with eq => ne | _ => notIn end
  end.

(** One-relation, filtering by the id of the related entity. *)
Definition replaceByTargetId (relationProperty : RpdDataModelProperty)
  (operator : ExistenceOperator) (inner : LeafOperator) (value : Value) : Filter :=
  Leaf (Js.keyOf (targetIdColumnName relationProperty))
       (replacedOperator operator inner) value.

(** One-relation, general case: ask the target collection. *)
Definition replaceBySubquery (relationProperty : RpdDataModelProperty)
  (operator : ExistenceOperator) (relatedEntityFilters : list Filter) : M Filter :=
  dataAccessor <- Server.getDataAccessor (targetSingularCode relationProperty) ;;
  entities <- DataAccessor.find dataAccessor (plainFind relatedEntityFilters ["id"]) ;;
  let entityIds := map (Js.lookup "id") entities in
  ret (Leaf (Js.keyOf (targetIdColumnName relationProperty))
            (containment operator) (VArr entityIds)).

(** Many-relation without link table. *)
Definition replaceBySelfIds (relationProperty : RpdDataModelProperty)
  (operator : ExistenceOperator) (relatedEntityFilters : list Filter) : M Filter :=
  if negb (Js.hasText (selfIdColumnName relationProperty))
  then raise (ESelfIdColumnNotConfigured (code relationProperty))
  else
    let selfColumn := Js.keyOf (selfIdColumnName relationProperty) in
    targetEntityDataAccessor <-
      Server.getDataAccessor (targetSingularCode relationProperty) ;;
    targetEntities <-
      DataAccessor.find targetEntityDataAccessor
        (plainFind relatedEntityFilters [selfColumn]) ;;
    let selfEntityIds := map (Js.lookup selfColumn) targetEntities in
    ret (Leaf "id" (containment operator) (VArr selfEntityIds)).

Definition linkTableOf (p : RpdDataModelProperty) : LinkTable :=
  (linkSchema p, Js.keyOf (linkTableName p)).

(** Many-relation with link table. *)
Definition replaceByLinks (relationProperty : RpdDataModelProperty)
  (operator : ExistenceOperator) (relatedEntityFilters : list Filter) : M Filter :=
  if negb (Js.hasText (selfIdColumnName relationProperty))
  then raise (ESelfIdColumnNotConfigured (code relationProperty))
  else if negb (Js.hasText (targetIdColumnName relationProperty))
  then raise (ETargetIdColumnNotConfigured (code relationProperty))
  else
    targetEntityDataAccessor <-
      Server.getDataAccessor (targetSingularCode relationProperty) ;;
    targetEntities <-
      DataAccessor.find targetEntityDataAccessor
        (plainFind relatedEntityFilters ["id"]) ;;
    let targetEntityIds := map (Js.lookup "id") targetEntities in
    links <-
      Server.queryDatabaseObject
        (SelectWhereAny (linkTableOf relationProperty)
           (Js.keyOf (targetIdColumnName relationProperty)) targetEntityIds) ;;
    let selfEntityIds :=
      map (Js.lookup (Js.keyOf (selfIdColumnName relationProperty))) links in
    ret (Leaf "id" (containment operator) (VArr selfEntityIds)).

Definition replaceExistence (model : RpdDataModel) (operator : ExistenceOperator)
  (field : string) (relatedEntityFilters : list Filter) : M Filter :=
  match findProperty model field with
  | None => raise (EFilterPropertyNotFound field (namespace model) (singularCode model))
  | Some relationProperty =>
      if negb (isRelationProperty relationProperty)
      then raise (EExistenceOnNonRelation field)
      else
        match relatedEntityFilters with
        | [] => raise EFiltersRequired
        | _ =>
            if isOne relationProperty then
              match relatedEntityIdFilter relatedEntityFilters with
              | Some (inner, value) =>
                  ret (replaceByTargetId relationProperty operator inner value)
              | None =>
                  replaceBySubquery relationProperty operator relatedEntityFilters
              end
            else if negb (Js.hasText (linkTableName relationProperty)) then
              replaceBySelfIds relationProperty operator relatedEntityFilters
            else
              replaceByLinks relationProperty operator relatedEntityFilters
        end
  end.

(** One turn of the loop of [replaceFiltersWithFiltersOperator]: the filter
    pushed onto [replacedFilters] for one input filter.  For a boolean node
    the source overwrites [filter.filters] of the input object and pushes
    that object; the engine does not read the input list again, so the node
    is rebuilt here.  The nested filters of a relational node go to the
    target's accessor as they are. *)
Fixpoint replaceFilter (model : RpdDataModel) (f : Filter) {struct f} : M Filter :=
  match f with
  | Logical operator fs =>
      fs' <-
        (fix each (l : list Filter) : M (list Filter) :=
           match l with
           | [] => ret []
           | x :: r => y <- replaceFilter model x ;; ys <- each r ;; ret (y :: ys)
           end) fs ;;
      ret (Logical operator fs')
  | Existence operator field relatedEntityFilters =>
      replaceExistence model operator field relatedEntityFilters
  | Leaf _ _ _ => ret f
  end.

Definition replaceFiltersWithFiltersOperator (model : RpdDataModel)
  (fs : list Filter) : M (list Filter) :=
  mapM (replaceFilter model) fs.

(** *** Relation expander *)

Definition findIn (test : Obj -> bool) (rows : list Obj) : Value :=
  match List.find test rows with
  | Some r => VObj r
  | None => VUndefined
  end.

Definition findManyRelationLinksViaLinkTable (targetModel : RpdDataModel)
  (relationProperty : RpdDataModelProperty) (entityIds : list Value)
  : M (list Obj) :=
  links <-
    Server.queryDatabaseObject
      (SelectWhereAny (linkTableOf relationProperty)
         (Js.keyOf (selfIdColumnName relationProperty)) entityIds) ;;
  let targetColumn := Js.keyOf (targetIdColumnName relationProperty) in
  let targetEntityIds := map (Js.lookup targetColumn) links in
  dataAccessor <- Server.getDataAccessor (Some (singularCode targetModel)) ;;
  targetEntities <-
    DataAccessor.find dataAccessor
      (plainFind [Leaf "id" in_ (VArr targetEntityIds)] []) ;;
  ret (map (fun link =>
              Js.assign "targetEntity"
                (findIn (fun e => Js.looseEq (Js.lookup "id" e)
                                             (Js.lookup targetColumn link))
                        targetEntities)
                link)
           links).

Definition findManyRelatedEntitiesViaIdPropertyCode (model : RpdDataModel)
  (relationProperty : RpdDataModelProperty) (entityIds : list Value)
  : M (list Obj) :=
  dataAccessor <- Server.getDataAccessor (targetSingularCode relationProperty) ;;
  DataAccessor.find dataAccessor
    (plainFind [Leaf (Js.keyOf (selfIdColumnName relationProperty)) in_
                     (VArr entityIds)] []).

Definition findOneRelatedEntitiesViaIdPropertyCode (model : RpdDataModel)
  (relationProperty : RpdDataModelProperty) (targetEntityIds : list Value)
  : M (list Obj) :=
  dataAccessor <- Server.getDataAccessor (targetSingularCode relationProperty) ;;
  DataAccessor.find dataAccessor
    (plainFind [Leaf "id" in_ (VArr targetEntityIds)] []).

(** Attach the link-table relation to one base row. *)
Definition attachLinked (targetModel : RpdDataModel)
  (relationProperty : RpdDataModelProperty) (relationLinks : list Obj)
  (entity : Obj) : M Obj :=
  let selfColumn := Js.keyOf (selfIdColumnName relationProperty) in
  related <-
    mapM (fun link =>
            lift (mapDbRowToEntity (Some targetModel)
                    (Js.lookup "targetEntity" link) false))
         (List.filter
            (fun link => Js.looseEq (Js.lookup selfColumn link) (Js.lookup "id" entity))
            relationLinks) ;;
  ret (Js.assign (code relationProperty) (VArr related) entity).

(** Attach a relation stored in a foreign-key column to one base row. *)
Definition attachRelated (targetModel : option RpdDataModel)
  (relationProperty : RpdDataModelProperty) (relatedEntities : list Obj)
  (entity : Obj) : M Obj :=
  if isMany relationProperty then
    let selfColumn := Js.keyOf (selfIdColumnName relationProperty) in
    related <-
      mapM (fun item => lift (mapDbRowToEntity targetModel (VObj item) false))
           (List.filter
              (fun relatedEntity =>
                 Js.looseEq (Js.lookup selfColumn relatedEntity) (Js.lookup "id" entity))
              relatedEntities) ;;
    ret (Js.assign (code relationProperty) (VArr related) entity)
  else
    let targetColumn := Js.keyOf (targetIdColumnName relationProperty) in
    related <-
      lift (mapDbRowToEntity targetModel
              (findIn (fun relatedEntity =>
                         Js.looseEq (Js.lookup "id" relatedEntity)
                                    (Js.lookup targetColumn entity))
                      relatedEntities)
              false) ;;
    ret (Js.assign (code relationProperty) related entity).

(** One turn of the loop over [relationPropertiesToSelect]: the base rows
    after the relation has been expanded on them. *)
Definition expandRelation (model : RpdDataModel) (entityIds : list Value)
  (entities : list Obj) (relationProperty : RpdDataModelProperty) : M (list Obj) :=
  if Js.hasText (linkTableName relationProperty) then
    targetModel <- Server.getModel (targetSingularCode relationProperty) ;;
    match targetModel with
    | None => ret entities
    | Some targetModel =>
        if isMany relationProperty then
          relationLinks <-
            findManyRelationLinksViaLinkTable targetModel relationProperty entityIds ;;
          mapM (attachLinked targetModel relationProperty relationLinks) entities
        else ret entities
    end
  else
    relatedEntities <-
      (if isMany relationProperty then
         findManyRelatedEntitiesViaIdPropertyCode model relationProperty entityIds
       else
         let targetEntityIds :=
           Js.uniq
             (List.filter (fun v => negb (Js.isNullOrUndefined v))
                (map (Js.lookup (Js.keyOf (targetIdColumnName relationProperty)))
                     entities)) in
         findOneRelatedEntitiesViaIdPropertyCode model relationProperty
           targetEntityIds) ;;
    targetModel <- Server.getModel (targetSingularCode relationProperty) ;;
    mapM (attachRelated targetModel relationProperty relatedEntities) entities.

(** The loop over [options.properties]: columns to select and relation
    properties to expand. *)
Definition selectProperty (model : RpdDataModel)
  (acc : list string * list RpdDataModelProperty) (propertyCode : string)
  : M (list string * list RpdDataModelProperty) :=
  let '(fieldsToSelect, relationPropertiesToSelect) := acc in
  match findProperty model propertyCode with
  | None => raise (ENoSuchProperty (namespace model) (singularCode model) propertyCode)
  | Some property =>
      if isRelationProperty property then
        if isOne property && negb (Js.hasText (linkTableName property)) then
          if negb (Js.hasText (targetIdColumnName property))
          then raise (ETargetIdColumnRequired propertyCode (namespace model)
                        (singularCode model))
          else ret (fieldsToSelect ++ [Js.keyOf (targetIdColumnName property)],
                    relationPropertiesToSelect ++ [property])
        else ret (fieldsToSelect, relationPropertiesToSelect ++ [property])
      else
        ret (fieldsToSelect ++
               [if Js.hasText (columnName property)
                then Js.keyOf (columnName property) else code property],
             relationPropertiesToSelect)
  end.

Definition findEntities (dataAccessor : RpdDataModel) (options : FindEntityOptions)
  : M (list Value) :=
  let model := DataAccessor.getModel dataAccessor in
  chosen <- foldM (selectProperty model) ([], []) (selected options) ;;
  let '(fieldsToSelect, relationPropertiesToSelect) := chosen in
  processedFilters <- replaceFiltersWithFiltersOperator model (filters options) ;;
  entities <-
    DataAccessor.find dataAccessor
      {| filters := processedFilters;
         orderBy := convertToDataAccessOrderBy model (orderBy options);
         pagination := pagination options;
         selected := fieldsToSelect;
         keepNonPropertyFields := false |} ;;
  match entities with
  | [] => ret []
  | _ =>
      let entityIds := map (Js.lookup "id") entities in
      entities <-
        foldM (expandRelation model entityIds) entities relationPropertiesToSelect ;;
      mapM (fun item =>
              lift (mapDbRowToEntity (Some model) (VObj item)
                      (keepNonPropertyFields options)))
           entities
  end.

(** lodash [first] *)
Definition first (l : list Value) : Value :=
  match l with x :: _ => x | [] => VUndefined end.

Definition findEntity (dataAccessor : RpdDataModel) (options : FindEntityOptions)
  : M Value :=
  entities <- findEntities dataAccessor options ;;
  ret (first entities).

Definition findById (dataAccessor : RpdDataModel) (id : Value)
  (keepNonPropertyFields : bool) : M Value :=
  findEntity dataAccessor
    {| filters := [Leaf "id" eq id]; orderBy := None; pagination := None;
       selected := []; keepNonPropertyFields := keepNonPropertyFields |}.

End Engine.

(** ** Cascading persistence *)

Section Cascade.
Context `{Externals}.

(** The relation properties named by the keys of an entity, one-relations
    and many-relations apart, each in key order; unknown keys are skipped. *)
Definition relationPropertiesOf (model : RpdDataModel) (entity : Value)
  : list RpdDataModelProperty :=
  flat_map
    (fun propertyCode =>
       match findProperty model propertyCode with
       | Some property => if isRelationProperty property then [property] else []
       | None => []
       end)
    (Js.keys entity).

Definition oneRelationProperties (model : RpdDataModel) (entity : Value) :=
  List.filter (fun p => negb (isMany p)) (relationPropertiesOf model entity).

Definition manyRelationProperties (model : RpdDataModel) (entity : Value) :=
  List.filter isMany (relationPropertiesOf model entity).

Definition insertLink (property : RpdDataModelProperty) (selfId targetId : Value)
  : Statement :=
  InsertOnConflictDoNothing (linkTableOf property)
    (Js.keyOf (selfIdColumnName property)) (Js.keyOf (targetIdColumnName property))
    selfId targetId.

Section Steps.
(** The recursive call, at whatever depth remains. *)
Variable create : RpdDataModel -> Value -> M Value.

(** [createEntity], one turn of "save one-relation properties". *)
Definition createOneRelation (entity : Value) (row : Obj)
  (property : RpdDataModelProperty) : M Obj :=
  let fieldValue := Js.getProp entity (code property) in
  let targetColumn := Js.keyOf (targetIdColumnName property) in
  if Js.isObject fieldValue then
    if negb (Js.truthy (Js.getProp fieldValue "id")) then
      targetDataAccessor <- Server.getDataAccessor (targetSingularCode property) ;;
      let targetEntity := fieldValue in
      newTargetEntity <- create targetDataAccessor targetEntity ;;
      newId <- lift (readProp newTargetEntity "id") ;;
      ret (Js.assign targetColumn newId row)
    else ret (Js.assign targetColumn (Js.getProp fieldValue "id") row)
  else ret (Js.assign targetColumn fieldValue row).

(** [createEntity], one turn of the loop over [relatedEntitiesToBeSaved]:
    the related entity pushed onto [newEntity[property.code]].  The write of
    the owner id into an embedded element happens in place in the source; the
    recursive create sees it, as here, and so would a later reader of the
    caller's input, of which the engine has none. *)
Definition createRelated (newEntity : Value) (property : RpdDataModelProperty)
  (targetDataAccessor : RpdDataModel) (relatedEntityToBeSaved : Value) : M Value :=
  let selfColumn := Js.keyOf (selfIdColumnName property) in
  if Js.isObject relatedEntityToBeSaved then
    let relatedEntityId := Js.getProp relatedEntityToBeSaved "id" in
    if negb (Js.truthy relatedEntityId) then
      targetEntity <-
        (if negb (Js.hasText (linkTableName property))
         then lift (writeProp relatedEntityToBeSaved selfColumn
                      (Js.getProp newEntity "id"))
         else ret relatedEntityToBeSaved) ;;
      newTargetEntity <- create targetDataAccessor targetEntity ;;
      (if Js.hasText (linkTableName property) then
         newId <- lift (readProp newTargetEntity "id") ;;
         Server.queryDatabaseObject
           (insertLink property (Js.getProp newEntity "id") newId)
       else ret []) ;;;
      ret newTargetEntity
    else
      targetEntity <- DataAccessor.findById targetDataAccessor relatedEntityId ;;
      if negb (Js.truthy targetEntity)
      then raise (ERelatedEntityNotFound relatedEntityId (code property))
      else if Js.hasText (linkTableName property) then
        Server.queryDatabaseObject
          (insertLink property (Js.getProp newEntity "id") relatedEntityId) ;;;
        ret targetEntity
      else
        DataAccessor.updateById targetDataAccessor (Js.getProp targetEntity "id")
          [(selfColumn, Js.getProp newEntity "id")] ;;;
        lift (writeProp targetEntity selfColumn (Js.getProp newEntity "id"))
  else
    let relatedEntityId := relatedEntityToBeSaved in
    targetEntity <- DataAccessor.findById targetDataAccessor relatedEntityId ;;
    if negb (Js.truthy targetEntity)
    then raise (ERelatedEntityNotFound relatedEntityId (code property))
    else if Js.hasText (linkTableName property) then
      Server.queryDatabaseObject
        (insertLink property (Js.getProp newEntity "id") relatedEntityId) ;;;
      ret targetEntity
    else
      DataAccessor.updateById targetDataAccessor (Js.getProp targetEntity "id")
        [(selfColumn, Js.getProp newEntity "id")] ;;;
      lift (writeProp targetEntity selfColumn (Js.getProp newEntity "id")).

(** [createEntity], one turn of "save many-relation properties". *)
Definition createManyRelation (entity : Value) (newEntity : Value)
  (property : RpdDataModelProperty) : M Value :=
  newEntity <- lift (writeProp newEntity (code property) (VArr [])) ;;
  targetDataAccessor <- Server.getDataAccessor (targetSingularCode property) ;;
  match Js.getProp entity (code property) with
  | VArr relatedEntitiesToBeSaved =>
      foldM (fun newEntity relatedEntityToBeSaved =>
               related <-
                 createRelated newEntity property targetDataAccessor
                   relatedEntityToBeSaved ;;
               lift (pushProp newEntity (code property) related))
            newEntity relatedEntitiesToBeSaved
  | _ => raise (ENotAnArray (code property))
  end.

Definition createEntityBody (dataAccessor : RpdDataModel) (entity : Value)
  : M Value :=
  let model := DataAccessor.getModel dataAccessor in
  let oneRelationPropertiesToCreate := oneRelationProperties model entity in
  let manyRelationPropertiesToCreate := manyRelationProperties model entity in
  let row := mapEntityToDbRow model entity in
  row <- foldM (createOneRelation entity) row oneRelationPropertiesToCreate ;;
  newRow <- DataAccessor.create dataAccessor row ;;
  newEntity <- lift (mapDbRowToEntity (Some model) (VObj newRow) false) ;;
  foldM (createManyRelation entity) newEntity manyRelationPropertiesToCreate.

(** [updateEntityById], one turn of the loop over
    [relatedEntitiesToBeSaved]: the related entity pushed onto
    [relatedEntities]. *)
Definition updateRelated (id : Value) (property : RpdDataModelProperty)
  (targetDataAccessor : RpdDataModel) (relatedEntityToBeSaved : Value) : M Value :=
  let selfColumn := Js.keyOf (selfIdColumnName property) in
  if Js.isObject relatedEntityToBeSaved then
    let relatedEntityId := Js.getProp relatedEntityToBeSaved "id" in
    if negb (Js.truthy relatedEntityId) then
      targetEntity <-
        (if negb (Js.hasText (linkTableName property))
         then lift (writeProp relatedEntityToBeSaved selfColumn id)
         else ret relatedEntityToBeSaved) ;;
      newTargetEntity <- create targetDataAccessor targetEntity ;;
      (if Js.hasText (linkTableName property) then
         newId <- lift (readProp newTargetEntity "id") ;;
         Server.queryDatabaseObject (insertLink property id newId)
       else ret []) ;;;
      ret newTargetEntity
    else
      targetEntity <- DataAccessor.findById targetDataAccessor relatedEntityId ;;
      if negb (Js.truthy targetEntity)
      then raise (ERelatedEntityNotFound relatedEntityId (code property))
      else if Js.hasText (linkTableName property) then
        Server.queryDatabaseObject (insertLink property id relatedEntityId) ;;;
        ret targetEntity
      else
        DataAccessor.updateById targetDataAccessor (Js.getProp targetEntity "id")
          [(selfColumn, id)] ;;;
        lift (writeProp targetEntity selfColumn id)
  else
    let relatedEntityId := relatedEntityToBeSaved in
    targetEntity <- DataAccessor.findById targetDataAccessor relatedEntityId ;;
    if negb (Js.truthy targetEntity)
    then raise (ERelatedEntityNotFound relatedEntityId (code property))
    else if Js.hasText (linkTableName property) then
      Server.queryDatabaseObject (insertLink property id relatedEntityId) ;;;
      ret targetEntity
    else
      DataAccessor.updateById targetDataAccessor (Js.getProp targetEntity "id")
        [(selfColumn, id)] ;;;
      lift (writeProp targetEntity selfColumn id).

(** [updateEntityById], the loop over [relatedEntitiesToBeSaved]. *)
Definition updateRelatedAll (id : Value) (property : RpdDataModelProperty)
  (targetDataAccessor : RpdDataModel) (relatedEntitiesToBeSaved : list Value)
  : M (list Value) :=
  foldM (fun relatedEntities relatedEntityToBeSaved =>
           related <-
             updateRelated id property targetDataAccessor relatedEntityToBeSaved ;;
           ret (relatedEntities ++ [related]))
        [] relatedEntitiesToBeSaved.

Definition clearLinks (id : Value) (property : RpdDataModelProperty) : Statement :=
  DeleteWhere (linkTableOf property) (Js.keyOf (selfIdColumnName property)) id.

(** [updateEntityById], one turn of "save many-relation properties". *)
Definition updateManyRelation (id : Value) (changes : Value)
  (updatedEntity : Obj) (property : RpdDataModelProperty) : M Obj :=
  targetDataAccessor <- Server.getDataAccessor (targetSingularCode property) ;;
  match Js.getProp changes (code property) with
  | VArr relatedEntitiesToBeSaved =>
      (if Js.hasText (linkTableName property)
       then Server.queryDatabaseObject (clearLinks id property)
       else ret []) ;;;
      relatedEntities <-
        updateRelatedAll id property targetDataAccessor relatedEntitiesToBeSaved ;;
      ret (Js.assign (code property) (VArr relatedEntities) updatedEntity)
  | _ => raise (ENotAnArray (code property))
  end.

End Steps.

(** [updateEntityById], one turn of the loop that resolves one-relation
    properties into foreign-key columns. *)
Definition updateOneRelation (changes : Value) (row : Obj)
  (property : RpdDataModelProperty) : Obj :=
  let fieldValue := Js.getProp changes (code property) in
  if Js.isObject fieldValue
  then Js.assign (Js.keyOf (targetIdColumnName property)) (Js.getProp fieldValue "id") row
  else Js.assign (Js.keyOf (targetIdColumnName property)) fieldValue row.

(** [createEntity].  The recursion follows the nesting of the entity; [fuel]
    bounds its depth. *)
Fixpoint createEntity (fuel : nat) (dataAccessor : RpdDataModel) (entity : Value)
  {struct fuel} : M Value :=
  match fuel with
  | O => raise EOutOfFuel
  | S fuel' => createEntityBody (createEntity fuel') dataAccessor entity
  end.

(** [updateEntityById].  In the source the loop over the new elements
    writes the owner id into the embedded elements of [changes] in place,
    and a cascading create does the same to what is embedded below them,
    before the event is emitted with that same object.  Values are not
    shared here: the [changes] of the event is the diff as the helper
    returned it, its [before] and [after] are those of the source, and no
    statement below speaks of the [changes] of the event. *)
Definition updateEntityById (fuel : nat) (dataAccessor : RpdDataModel)
  (id : Value) (entityToSave : Value) (plugin : option string) : M Value :=
  let model := DataAccessor.getModel dataAccessor in
  if negb (Js.truthy id) then raise EIdRequired
  else
    entity <- findById dataAccessor id false ;;
    if negb (Js.truthy entity)
    then raise (EEntityNotFound (namespace model) (singularCode model) id)
    else
      let changes := getEntityPartChanges entity entityToSave in
      if negb (Js.truthy changes) then ret entity
      else
        let oneRelationPropertiesToUpdate := oneRelationProperties model changes in
        let manyRelationPropertiesToUpdate := manyRelationProperties model changes in
        let row :=
          fold_left (updateOneRelation changes) oneRelationPropertiesToUpdate
            (mapEntityToDbRow model changes) in
        updatedRow <-
          (match row with
           | [] => ret (VObj row)
           | _ => DataAccessor.updateById dataAccessor id row
           end) ;;
        let updatedEntity :=
          Js.assignAll (Js.assignAll [] (Js.entries entity)) (Js.entries updatedRow) in
        updatedEntity <-
          foldM (updateManyRelation (createEntity fuel) id changes)
                updatedEntity manyRelationPropertiesToUpdate ;;
        Server.emitEvent
          (EntityUpdate (namespace model) (singularCode model)
             entity (VObj updatedEntity) changes plugin) ;;;
        ret (VObj updatedEntity).

End Cascade.

(** ** The façade *)

(** The methods of the class, the private [#server] and [#dataAccessor]
    being the world and the accessor passed along.  [count] hands its options
    to the accessor and is left out. *)
Module EntityManager.
Section WithExternals.
Context `{Externals}.

Definition getModel (dataAccessor : RpdDataModel) : RpdDataModel :=
  DataAccessor.getModel dataAccessor.

Definition createEntity (fuel : nat) (dataAccessor : RpdDataModel)
  (entity : Value) (plugin : option string) : M Value :=
  let model := DataAccessor.getModel dataAccessor in
  newEntity <- createEntity fuel dataAccessor entity ;;
  Server.emitEvent
    (EntityCreate (namespace model) (singularCode model) newEntity plugin) ;;;
  ret newEntity.

Definition deleteById (dataAccessor : RpdDataModel) (id : Value)
  (plugin : option string) : M unit :=
  let model := DataAccessor.getModel dataAccessor in
  entity <- findById dataAccessor id true ;;
  if negb (Js.truthy entity) then ret tt
  else
    DataAccessor.deleteById dataAccessor id ;;;
    Server.emitEvent
      (EntityDelete (namespace model) (singularCode model) entity plugin).

Definition addRelations (dataAccessor : RpdDataModel) (id : Value)
  (property : string) (relations : list Value) (plugin : option string)
  : M unit :=
  let model := DataAccessor.getModel dataAccessor in
  entity <- findById dataAccessor id false ;;
  if negb (Js.truthy entity)
  then raise (EEntityNotFound (namespace model) (singularCode model) id)
  else
    match findProperty model property with
    | None =>
        raise (EPropertyNotFound property (namespace model) (singularCode model))
    | Some relationProperty =>
        if negb (isRelationProperty relationProperty && isMany relationProperty)
        then raise (EOnlyManyRelation "addRelations")
        else
          (if Js.hasText (linkTableName relationProperty) then
             foldM (fun (_ : unit) relation =>
                      relationId <- lift (readProp relation "id") ;;
                      Server.queryDatabaseObject
                        (InsertWhereNotExists (linkTableOf relationProperty)
                           (Js.keyOf (selfIdColumnName relationProperty))
                           (Js.keyOf (targetIdColumnName relationProperty))
                           id relationId) ;;;
                      ret tt)
                   tt relations
           else ret tt) ;;;
          Server.emitEvent
            (EntityAddRelations (namespace model) (singularCode model)
               entity property relations plugin)
    end.

Definition removeRelations (dataAccessor : RpdDataModel) (id : Value)
  (property : string) (relations : list Value) (plugin : option string)
  : M unit :=
  let model := DataAccessor.getModel dataAccessor in
  entity <- findById dataAccessor id false ;;
  if negb (Js.truthy entity)
  then raise (EEntityNotFound (namespace model) (singularCode model) id)
  else
    match findProperty model property with
    | None =>
        raise (EPropertyNotFound property (namespace model) (singularCode model))
    | Some relationProperty =>
        if negb (isRelationProperty relationProperty && isMany relationProperty)
        then raise (EOnlyManyRelation "removeRelations")
        else
          (if Js.hasText (linkTableName relationProperty) then
             foldM (fun (_ : unit) relation =>
                      relationId <- lift (readProp relation "id") ;;
                      Server.queryDatabaseObject
                        (DeleteWherePair (linkTableOf relationProperty)
                           (Js.keyOf (selfIdColumnName relationProperty))
                           (Js.keyOf (targetIdColumnName relationProperty))
                           id relationId) ;;;
                      ret tt)
                   tt relations
           else ret tt) ;;;
          Server.emitEvent
            (EntityRemoveRelations (namespace model) (singularCode model)
               entity property relations plugin)
    end.

End WithExternals.
End EntityManager.

(** ** The HTTP layer

    [buildRoutes] (the route builder), the routes the data manager plugin
    configures, and the [createSession] handler of the auth manager.  The
    router, the query-string parser, the token signer and the handler
    registry are outside the sources at hand and are parameters. *)

Module Text.

(** [s.endsWith(suffix)] *)
Definition endsWith (s suffix : string) : bool :=
  (String.length suffix <=? String.length s)%nat
  && String.eqb
       (String.substring (String.length s - String.length suffix)
          (String.length suffix) s)
       suffix.

(** [s.startsWith(prefix)] *)
Definition startsWith (s prefix : string) : bool := String.prefix prefix s.

(** [s.substring(start)] *)
Definition from (start : nat) (s : string) : string :=
  String.substring start (String.length s - start) s.

(** ["" + v]: the string a value is converted to. *)
Fixpoint toString (v : Value) : string :=
  match v with
  | VUndefined => "undefined"
  | VNull => "null"
  | VBool b => if b then "true" else "false"
  | VNum n => Js.decimal n
  | VStr s => s
  | VArr xs =>
      (fix join (l : list Value) : string :=
         match l with
         | [] => ""
         | x :: r =>
             (if Js.isNullOrUndefined x then "" else toString x)
             +:+ match r with [] => "" | _ => "," +:+ join r end
         end) xs
  | VObj _ => "[object Object]"
  end.

(** The own enumerable properties [Object.assign] copies from a source: a
    string source gives its characters by index (bytes here, UTF-16 code
    units in the source; the same for ASCII). *)
Definition sourceEntries (v : Value) : Obj :=
  match v with
  | VStr s => Js.indexed 0 (map (fun c => VStr (String c "")) (list_ascii_of_string s))
  | _ => Js.entries v
  end.

(** [k in o], for an own property. *)
Definition has (k : string) (o : Obj) : bool := existsb (String.eqb k) (map fst o).

(** The value the last binding of [k] gives. *)
Definition latest (k : string) (o : Obj) : Value := Js.lookup k (rev o).

End Text.

Module Http.

(** A cookie as handed to [setCookie]. *)
Record Cookie : Type := { name : string; value : string; path : string }.

(** The part of [HttpHandlerContext] a handler reads and writes: the merged
    input, the output and status it sets, and the response headers as far as
    cookies go.  [server] is the world; [next] and [applicationConfig] are
    used by no code at hand. *)
Record HttpHandlerContext : Type := {
  input : Obj;
  output : Value;
  status : Value;
  cookies : list Cookie;
}.

(** A handler either runs to its end or throws an [Error] of its own;
    failures of the storage below it travel on as [Err]. *)
Inductive Reply (A : Type) : Type :=
| Done (a : A)
| Thrown (message : string).

Arguments Done {A} a.
Arguments Thrown {A} message.

Definition HttpHandler : Type :=
  HttpHandlerContext -> Value -> M (Reply HttpHandlerContext).

(** [request.body()], by its [type]: form data already read, or any other
    body by its awaited [value]. *)
Inductive Body : Type :=
| FormData (formDataBody : Value)
| OtherBody (value : Value).

(** The request as the route function reads it: [request.method],
    [request.url.search], the path parameters [routerContext.params], and
    the body, [None] when [request.hasBody] is false. *)
Record Request : Type := {
  method : string;
  search : string;
  params : Obj;
  body : option Body;
}.

(** What the route handler leaves on [routerContext]: the status it
    assigned, if it did; the output handed to [routerContext.json], if it
    was; the cookies on the response headers. *)
Record Response : Type := {
  assignedStatus : option Value;
  json : option Value;
  setCookies : list Cookie;
}.

End Http.

Module RouteHandler.
Record RpdRouteHandler : Type := { code : string; config : Value }.
End RouteHandler.

Module Route.
Record RpdRoute : Type := {
  namespace : string;
  name : string;
  code : string;
  type : string;
  method : string;
  endpoint : string;
  handlers : list RouteHandler.RpdRouteHandler;
}.
End Route.

(** *** The data manager plugin: one set of routes per model *)

Module DataManager.

Module RouteConfig.
Record t : Type := {
  code : string;
  method : string;
  endpoint : string;
  handlerCode : string;
}.
End RouteConfig.

Definition routeConfigs : list RouteConfig.t :=
  [ {| RouteConfig.code := "createBatch"; RouteConfig.method := "POST";
       RouteConfig.endpoint := "/operations/create_batch";
       RouteConfig.handlerCode := "createCollectionEntitiesBatch" |};
    {| RouteConfig.code := "find"; RouteConfig.method := "POST";
       RouteConfig.endpoint := "/operations/find";
       RouteConfig.handlerCode := "findCollectionEntities" |};
    {| RouteConfig.code := "count"; RouteConfig.method := "POST";
       RouteConfig.endpoint := "/operations/count";
       RouteConfig.handlerCode := "countCollectionEntities" |};
    {| RouteConfig.code := "addRelations"; RouteConfig.method := "POST";
       RouteConfig.endpoint := "/operations/add_relations";
       RouteConfig.handlerCode := "addEntityRelations" |};
    {| RouteConfig.code := "removeRelations"; RouteConfig.method := "POST";
       RouteConfig.endpoint := "/operations/remove_relations";
       RouteConfig.handlerCode := "removeEntityRelations" |};
    {| RouteConfig.code := "getById"; RouteConfig.method := "GET";
       RouteConfig.endpoint := "/:id";
       RouteConfig.handlerCode := "findCollectionEntityById" |};
    {| RouteConfig.code := "create"; RouteConfig.method := "POST";
       RouteConfig.endpoint := "";
       RouteConfig.handlerCode := "createCollectionEntity" |};
    {| RouteConfig.code := "updateById"; RouteConfig.method := "PATCH";
       RouteConfig.endpoint := "/:id";
       RouteConfig.handlerCode := "updateCollectionEntityById" |};
    {| RouteConfig.code := "deleteById"; RouteConfig.method := "DELETE";
       RouteConfig.endpoint := "/:id";
       RouteConfig.handlerCode := "deleteCollectionEntityById" |} ].

(** The route pushed for one model and one route config. *)
Definition routeOf (model : RpdDataModel) (routeConfig : RouteConfig.t)
  : Route.RpdRoute :=
  {| Route.namespace := namespace model;
     Route.name :=
       namespace model +:+ "." +:+ singularCode model +:+ "."
       +:+ RouteConfig.code routeConfig;
     Route.code :=
       namespace model +:+ "." +:+ singularCode model +:+ "."
       +:+ RouteConfig.code routeConfig;
     Route.type := "RESTful";
     Route.method := RouteConfig.method routeConfig;
     Route.endpoint :=
       "/" +:+ namespace model +:+ "/" +:+ pluralCode model
       +:+ RouteConfig.endpoint routeConfig;
     Route.handlers :=
       [ {| RouteHandler.code := RouteConfig.handlerCode routeConfig;
            RouteHandler.config :=
              VObj [("namespace", VStr (namespace model));
                    ("singularCode", VStr (singularCode model))] |} ] |}.

(** [configureRoutes]: the routes handed to
    [server.appendApplicationConfig]. *)
Definition configureRoutes (models : list RpdDataModel) : list Route.RpdRoute :=
  flat_map (fun model => map (routeOf model) routeConfigs) models.

End DataManager.

(** *** The route builder *)

Section RoutesBuilder.

(** [qs.parse] *)
Variable parseQuery : string -> Obj.

(** [server.getHttpHandlerByCode] *)
Variable getHttpHandlerByCode : string -> option Http.HttpHandler.

(** The base URL the route paths start with; [server.config.baseUrl] may be
    missing. *)
Definition baseUrlOf (baseUrl : option string) : string :=
  match baseUrl with
  | Some b =>
      if negb (String.eqb b "") then
        if Text.endsWith b "/"
        then String.substring 0 (String.length b - 1) b
        else b
      else ""
  | None => ""
  end.

(** The router, from [koa-tree-router], is outside the sources at hand.
    [Router] is what [new Router()] gives and what registering a route turns
    it into.  [routerMember name] is [router[name]] when that is a function:
    applied to the route path and to the function registered, which stands
    here as the route config it closes over, it gives the router with the
    route added, or throws. *)
Variable Router : Type.
Variable routerMember :
  string -> option (Router -> string -> Route.RpdRoute -> Http.Reply Router).

(** How [buildRoutes] ends: with the router; or at the first route whose
    method names no function of the router, the call [router[method](...)]
    being a [TypeError]; or at the first route the router refuses. *)
Inductive Built : Type :=
| Registered (router : Router)
| NotAFunction (method : string)
| Refused (message : string).

(** The loop over [applicationConfig.routes], the base URL already
    trimmed. *)
Fixpoint registerRoutes (baseUrl : string) (router : Router)
  (routes : list Route.RpdRoute) : Built :=
  match routes with
  | [] => Registered router
  | routeConfig :: rest =>
      if negb (String.eqb (Route.type routeConfig) "RESTful")
      then registerRoutes baseUrl router rest
      else
        let routePath := baseUrl +:+ Route.endpoint routeConfig in
        match routerMember (Route.method routeConfig) with
        | None => NotAFunction (Route.method routeConfig)
        | Some register =>
            match register router routePath routeConfig with
            | Http.Done router' => registerRoutes baseUrl router' rest
            | Http.Thrown message => Refused message
            end
        end
  end.

(** [buildRoutes], [router] being the new router it starts from. *)
Definition buildRoutes (router : Router) (baseUrl : option string)
  (routes : list Route.RpdRoute) : Built :=
  registerRoutes (baseUrlOf baseUrl) router routes.

Definition queryOf (search : string) : Obj :=
  parseQuery
    (if negb (String.eqb search "") && Text.startsWith search "?"
     then Text.from 1 search else search).

Definition carriesBody (requestMethod : string) : bool :=
  String.eqb requestMethod "POST" || String.eqb requestMethod "PUT"
  || String.eqb requestMethod "PATCH".

(** What the body adds to the input, when it is read. *)
Definition bodyEntries (request : Http.Request) : Obj :=
  if carriesBody (Http.method request) then
    match Http.body request with
    | Some (Http.FormData formDataBody) => [("formData", formDataBody)]
    | Some (Http.OtherBody value) => Text.sourceEntries value
    | None => []
    end
  else [].

(** The [input] of the handler context. *)
Definition inputOf (request : Http.Request) : Obj :=
  Js.assignAll
    (Js.assignAll (Js.assignAll [] (Http.params request))
       (queryOf (Http.search request)))
    (bodyEntries request).

(** The loop over [routeConfig.handlers]. *)
Fixpoint runHandlers (handlerContext : Http.HttpHandlerContext)
  (handlers : list RouteHandler.RpdRouteHandler)
  : M (Http.Reply Http.HttpHandlerContext) :=
  match handlers with
  | [] => ret (Http.Done handlerContext)
  | handlerConfig :: rest =>
      match getHttpHandlerByCode (RouteHandler.code handlerConfig) with
      | None =>
          ret (Http.Thrown ("Unknown handler: " +:+ RouteHandler.code handlerConfig))
      | Some handler =>
          result <- handler handlerContext (RouteHandler.config handlerConfig) ;;
          match result with
          | Http.Done handlerContext' => runHandlers handlerContext' rest
          | Http.Thrown message => ret (Http.Thrown message)
          end
      end
  end.

(** The function registered for one route, on one request; [headers] are
    the cookies on the response when it is called. *)
Definition serve (routeConfig : Route.RpdRoute) (request : Http.Request)
  (headers : list Http.Cookie) : M (Http.Reply Http.Response) :=
  let handlerContext :=
    {| Http.input := inputOf request; Http.output := VUndefined;
       Http.status := VUndefined; Http.cookies := headers |} in
  result <- runHandlers handlerContext (Route.handlers routeConfig) ;;
  match result with
  | Http.Done handlerContext =>
      ret (Http.Done
             {| Http.assignedStatus :=
                  if Js.truthy (Http.status handlerContext)
                  then Some (Http.status handlerContext) else None;
                Http.json :=
                  if negb (Js.isNullOrUndefined (Http.output handlerContext))
                  then Some (Http.output handlerContext) else None;
                Http.setCookies := Http.cookies handlerContext |})
  | Http.Thrown message => ret (Http.Thrown message)
  end.

End RoutesBuilder.

(** *** Session creation *)

Module CreateSession.
Section WithExternals.
Context `{Externals}.

(** [createJWT], which may throw. *)
Variable createJWT : Obj -> Http.Reply string.

(** [setCookie] on the response headers, which may throw. *)
Variable setCookie : list Http.Cookie -> Http.Cookie -> Http.Reply (list Http.Cookie).

(** [new Date], at the time of the call. *)
Variable now : Value.

(** [server.config.sessionCookieName] *)
Variable sessionCookieName : string.

(** Modelled from the spec: [findOne(FindOptions) -> row | null] of the Data
    Accessor contract is the first row [find] answers, and is journaled as
    that find. *)
Definition findOne (dataAccessor : RpdDataModel) (options : FindEntityOptions)
  : M (option Obj) :=
  rows <- DataAccessor.find dataAccessor options ;;
  ret (head rows).

Definition claimsOf (user : Obj) : Obj :=
  [("iss", VStr "authManager");
   ("sub", VStr "userAccessToken");
   ("aud", VStr (Text.toString (Js.lookup "id" user)));
   ("iat", now);
   ("act", Js.lookup "login" user)].

Definition handler (ctx : Http.HttpHandlerContext)
  : M (Http.Reply Http.HttpHandlerContext) :=
  let account := Js.lookup "account" (Http.input ctx) in
  userDataAccessor <- Server.getDataAccessor (Some "oc_user") ;;
  user <-
    findOne userDataAccessor
      {| filters := [Leaf "login" eq account]; orderBy := None;
         pagination := None; selected := []; keepNonPropertyFields := false |} ;;
  match user with
  | None => ret (Http.Thrown "Wrong account or password.")
  | Some user =>
      match createJWT (claimsOf user) with
      | Http.Thrown message => ret (Http.Thrown message)
      | Http.Done token =>
          match setCookie (Http.cookies ctx)
                  {| Http.name := sessionCookieName; Http.value := token;
                     Http.path := "/" |} with
          | Http.Thrown message => ret (Http.Thrown message)
          | Http.Done headers =>
              ret (Http.Done
                     {| Http.input := Http.input ctx;
                        Http.output := VObj [("token", VStr token)];
                        Http.status := Http.status ctx;
                        Http.cookies := headers |})
          end
      end
  end.

End WithExternals.
End CreateSession.

(** ** A sample application

    A blog: posts with an author (owning one), comments (many, by foreign key
    on the comment) and tags (many, through a link table).  The helpers are the
    plainest ones that fit the engine's use of them; column names coincide with
    property codes.  The statements below that run the engine on concrete data
    use this application. *)
Module Blog.

Definition scalar (c : string) : RpdDataModelProperty :=
  {| code := c; columnName := None; relation := None; targetSingularCode := None;
     targetIdColumnName := None; selfIdColumnName := None;
     linkTableName := None; linkSchema := None |}.

Definition author : RpdDataModelProperty :=
  {| code := "author"; columnName := None; relation := Some one;
     targetSingularCode := Some "user"; targetIdColumnName := Some "author_id";
     selfIdColumnName := None; linkTableName := None; linkSchema := None |}.

Definition comments : RpdDataModelProperty :=
  {| code := "comments"; columnName := None; relation := Some many;
     targetSingularCode := Some "comment"; targetIdColumnName := None;
     selfIdColumnName := Some "post_id"; linkTableName := None;
     linkSchema := None |}.

Definition tags : RpdDataModelProperty :=
  {| code := "tags"; columnName := None; relation := Some many;
     targetSingularCode := Some "tag"; targetIdColumnName := Some "tag_id";
     selfIdColumnName := Some "post_id"; linkTableName := Some "post_tags";
     linkSchema := Some "public" |}.

Definition post : RpdDataModel :=
  {| namespace := "blog"; singularCode := "post"; pluralCode := "posts";
     properties := [scalar "id"; scalar "title"; author; comments; tags] |}.

Definition user : RpdDataModel :=
  {| namespace := "blog"; singularCode := "user"; pluralCode := "users";
     properties := [scalar "id"; scalar "name"] |}.

Definition comment : RpdDataModel :=
  {| namespace := "blog"; singularCode := "comment"; pluralCode := "comments";
     properties := [scalar "id"; scalar "body"; scalar "post_id"] |}.

Definition tag : RpdDataModel :=
  {| namespace := "blog"; singularCode := "tag"; pluralCode := "tags";
     properties := [scalar "id"; scalar "label"] |}.

Definition postTags : LinkTable := (Some "public", "post_tags").

Definition isRelation (p : RpdDataModelProperty) : bool :=
  match relation p with Some _ => true | None => false end.

Definition rowToEntity (_ : option RpdDataModel) (row : Value) (_ : bool)
  : Outcome Value :=
  if Js.isNullOrUndefined row then Ok VNull else Ok row.

Definition entityToRow (model : RpdDataModel) (entity : Value) : Obj :=
  List.filter
    (fun kv =>
       match findProperty model (fst kv) with
       | Some p => negb (isRelation p)
       | None => false
       end)
    (Js.entries entity).

Definition partChanges (before after : Value) : Value :=
  match List.filter
          (fun kv => negb (Js.sameValue (Js.getProp before (fst kv)) (snd kv)))
          (Js.entries after) with
  | [] => VNull
  | changed => VObj changed
  end.

Definition helpers : Externals :=
  {| isRelationProperty := isRelation;
     mapDbRowToEntity := rowToEntity;
     mapEntityToDbRow := entityToRow;
     mapPropertyNameToColumnName := fun _ name => name;
     getEntityPartChanges := partChanges;
     accessorOther := fun _ _ => false;
     accessorArrange := fun _ _ rows => rows;
     uniqueViolation :=
       fun _ rows row => existsb (fun r => Js.sameValue (VObj r) (VObj row)) rows |}.

Definition world (posts users commentRows tagRows links : list Obj) (next : Z)
  : World :=
  {| registry := [post; user; comment; tag];
     accessors :=
       <["post" := post]> (<["user" := user]>
         (<["comment" := comment]> (<["tag" := tag]> ∅)));
     tables :=
       <["post" := posts]> (<["user" := users]>
         (<["comment" := commentRows]> (<["tag" := tagRows]> ∅)));
     linkTables := <[postTags := links]> ∅;
     nextId := next;
     events := [];
     journal := [] |}.

Definition firstPost : Obj :=
  [("id", VNum 1); ("title", VStr "t"); ("author_id", VNum 5)].

Definition ann : Obj := [("id", VNum 5); ("name", VStr "ann")].

Definition tagX : Obj := [("id", VNum 3); ("label", VStr "x")].

(** One post by ann, one tag, no comment and no link row yet. *)
Definition sample : World := world [firstPost] [ann] [] [tagX] [] 10.

(** A post whose author id refers to no user. *)
Definition dangling : World :=
  world [[("id", VNum 1); ("author_id", VNum 7)]] [] [] [] [] 2.

(** Two relation properties whose target model the server does not know:
    one through a link table, one through a foreign key. *)
Definition reviewers : RpdDataModelProperty :=
  {| code := "reviewers"; columnName := None; relation := Some many;
     targetSingularCode := Some "reviewer"; targetIdColumnName := Some "reviewer_id";
     selfIdColumnName := Some "post_id"; linkTableName := Some "post_reviewers";
     linkSchema := None |}.

Definition drafts : RpdDataModelProperty :=
  {| code := "drafts"; columnName := None; relation := Some many;
     targetSingularCode := Some "draft"; targetIdColumnName := None;
     selfIdColumnName := Some "post_id"; linkTableName := None;
     linkSchema := None |}.

Definition commentA : Obj :=
  [("id", VNum 20); ("body", VStr "first"); ("post_id", VNum 1)].

Definition commentB : Obj :=
  [("id", VNum 21); ("body", VStr "second"); ("post_id", VNull)].

(** The post with one comment of its own, one unattached comment and one
    tag linked to it. *)
Definition discussed : World :=
  world [firstPost] [ann] [commentA; commentB] [tagX]
        [[("post_id", VNum 1); ("tag_id", VNum 3)]] 30.

Definition byAnn : list Filter :=
  [Logical and_ [Existence exists_ "author" [Leaf "name" eq (VStr "ann")];
                 Leaf "title" eq (VStr "t")]].

End Blog.


(** ** A sample site

    One collection of accounts, a signer that spells the audience into the
    token, and a handler registry that knows [createSession] only; a model
    with two relation properties that lack a column name. *)
Module Site.

Definition account : RpdDataModel :=
  {| namespace := "auth"; singularCode := "oc_user"; pluralCode := "oc_users";
     properties := [Blog.scalar "id"; Blog.scalar "login"] |}.

Definition alice : Obj := [("id", VNum 7); ("login", VStr "alice")].

Definition world : World :=
  {| registry := [account];
     accessors := <["oc_user" := account]> ∅;
     tables := <["oc_user" := [alice]]> ∅;
     linkTables := ∅;
     nextId := 8;
     events := [];
     journal := [] |}.

Definition sign (claims : Obj) : Http.Reply string :=
  Http.Done ("jwt:" +:+ Text.toString (Js.lookup "aud" claims)).

Definition setCookie (headers : list Http.Cookie) (cookie : Http.Cookie)
  : Http.Reply (list Http.Cookie) :=
  Http.Done (headers ++ [cookie]).

Definition createSession : Http.HttpHandler :=
  fun ctx _ => @CreateSession.handler Blog.helpers sign setCookie (VNum 0) "sid" ctx.

Definition signInRoute : Route.RpdRoute :=
  {| Route.namespace := "auth"; Route.name := "auth.signin";
     Route.code := "auth.signin"; Route.type := "RESTful";
     Route.method := "POST"; Route.endpoint := "/signin";
     Route.handlers :=
       [{| RouteHandler.code := "createSession"; RouteHandler.config := VNull |};
        {| RouteHandler.code := "audit"; RouteHandler.config := VNull |};
        {| RouteHandler.code := "createSession"; RouteHandler.config := VNull |}] |}.

Definition signInRequest : Http.Request :=
  {| Http.method := "POST"; Http.search := "?account=bob"; Http.params := [];
     Http.body := Some (Http.OtherBody (VObj [("account", VStr "alice")])) |}.

(** A parser that knows one query string. *)
Definition parse (search : string) : Obj :=
  if String.eqb search "account=bob" then [("account", VStr "bob")] else [].

Definition handlerByCode (c : string) : option Http.HttpHandler :=
  if String.eqb c "createSession" then Some createSession else None.

Definition signIn (login password : string) : Http.HttpHandlerContext :=
  {| Http.input := [("account", VStr login); ("password", VStr password)];
     Http.output := VUndefined; Http.status := VUndefined; Http.cookies := [] |}.

(** A many-relation by foreign key without [selfIdColumnName], and one by
    link table without [targetIdColumnName]. *)
Definition orphans : RpdDataModelProperty :=
  {| code := "orphans"; columnName := None; relation := Some many;
     targetSingularCode := Some "comment"; targetIdColumnName := None;
     selfIdColumnName := None; linkTableName := None; linkSchema := None |}.

Definition labels : RpdDataModelProperty :=
  {| code := "labels"; columnName := None; relation := Some many;
     targetSingularCode := Some "tag"; targetIdColumnName := None;
     selfIdColumnName := Some "shelf_id"; linkTableName := Some "shelf_labels";
     linkSchema := None |}.

Definition shelf : RpdDataModel :=
  {| namespace := "blog"; singularCode := "shelf"; pluralCode := "shelves";
     properties := [Blog.scalar "id"; orphans; labels] |}.

End Site.

(** ** A sample press

    Articles with two relation properties whose target model is not
    registered with the server: reviewers, through a link table, and
    drafts, by a foreign key on the draft.  The server has an accessor for
    drafts all the same. *)
Module Press.

Definition article : RpdDataModel :=
  {| namespace := "press"; singularCode := "article"; pluralCode := "articles";
     properties :=
       [Blog.scalar "id"; Blog.scalar "title"; Blog.reviewers; Blog.drafts] |}.

Definition draft : RpdDataModel :=
  {| namespace := "press"; singularCode := "draft"; pluralCode := "drafts";
     properties := [Blog.scalar "id"; Blog.scalar "text"; Blog.scalar "post_id"] |}.

Definition lead : Obj := [("id", VNum 1); ("title", VStr "lead")].

Definition sketch : Obj :=
  [("id", VNum 40); ("text", VStr "sketch"); ("post_id", VNum 1)].

Definition world : World :=
  {| registry := [article];
     accessors := <["article" := article]> (<["draft" := draft]> ∅);
     tables := <["article" := [lead]]> (<["draft" := [sketch]]> ∅);
     linkTables := ∅;
     nextId := 50;
     events := [];
     journal := [] |}.

(** The same, the server having no accessor for drafts. *)
Definition unserved : World :=
  {| registry := [article];
     accessors := <["article" := article]> ∅;
     tables := <["article" := [lead]]> ∅;
     linkTables := ∅;
     nextId := 50;
     events := [];
     journal := [] |}.

Definition asking (codes : list string) : FindEntityOptions :=
  {| filters := []; orderBy := None; pagination := None; selected := codes;
     keepNonPropertyFields := false |}.

End Press.

(** ** A sample outline

    Nodes that form a tree: the children of a node are the nodes whose
    [parent_id] is its id. *)
Module Outline.

Definition children : RpdDataModelProperty :=
  {| code := "children"; columnName := None; relation := Some many;
     targetSingularCode := Some "node"; targetIdColumnName := None;
     selfIdColumnName := Some "parent_id"; linkTableName := None;
     linkSchema := None |}.

Definition node : RpdDataModel :=
  {| namespace := "doc"; singularCode := "node"; pluralCode := "nodes";
     properties :=
       [Blog.scalar "id"; Blog.scalar "name"; Blog.scalar "parent_id"; children] |}.

Definition root : Obj := [("id", VNum 1); ("name", VStr "root")].

Definition leaf : Obj :=
  [("id", VNum 2); ("name", VStr "leaf"); ("parent_id", VNum 1)].

(** A root with one child. *)
Definition world : World :=
  {| registry := [node];
     accessors := <["node" := node]> ∅;
     tables := <["node" := [root; leaf]]> ∅;
     linkTables := ∅;
     nextId := 10;
     events := [];
     journal := [] |}.

End Outline.

(** ** Two sample routers

    A router is the list of the routes added to it.  One has the functions
    [POST], [GET], [PATCH] and [DELETE]; the other has the same functions
    under their lower-case names.  Both accept every path. *)
Module Routing.

Definition Router : Type := list (string * string * Route.RpdRoute).

Definition record (router : Router) (method routePath : string)
  (routeConfig : Route.RpdRoute) : Router :=
  router ++ [(method, routePath, routeConfig)].

Definition having (names : list string) (name : string)
  : option (Router -> string -> Route.RpdRoute -> Http.Reply Router) :=
  if existsb (String.eqb name) names
  then Some (fun router routePath routeConfig =>
               Http.Done (record router name routePath routeConfig))
  else None.

Definition upperCase := having ["POST"; "GET"; "PATCH"; "DELETE"].

Definition lowerCase := having ["post"; "get"; "patch"; "delete"].

Definition page : Route.RpdRoute :=
  {| Route.namespace := "site"; Route.name := "home"; Route.code := "home";
     Route.type := "page"; Route.method := "GET"; Route.endpoint := "/";
     Route.handlers := [] |}.

End Routing.

(** * Vocabulary of the statements *)

(** A filter tree the Data Accessor can take: no relational node anywhere. *)
Fixpoint relationFree (f : Filter) : bool :=
  match f with
  | Leaf _ _ _ => true
  | Logical _ fs =>
      (fix all (l : list Filter) : bool :=
         match l with [] => true | x :: r => relationFree x && all r end) fs
  | Existence _ _ _ => false
  end.

Definition isContainment (operator : LeafOperator) : bool :=
  match operator with eq | ne | in_ | notIn => true | otherOperator _ => false end.

(** [Replaced f f']: [f'] is [f] with every relational node, at any depth
    below boolean nodes, turned into a leaf with a containment operator, and
    everything else as it was. *)
Inductive Replaced : Filter -> Filter -> Prop :=
| ReplacedLeaf field operator value :
    Replaced (Leaf field operator value) (Leaf field operator value)
| ReplacedLogical operator fs fs' :
    ReplacedAll fs fs' -> Replaced (Logical operator fs) (Logical operator fs')
| ReplacedExistence operator field fs column operator' value :
    isContainment operator' = true ->
    Replaced (Existence operator field fs) (Leaf column operator' value)
with ReplacedAll : list Filter -> list Filter -> Prop :=
| ReplacedNil : ReplacedAll [] []
| ReplacedCons f f' fs fs' :
    Replaced f f' -> ReplacedAll fs fs' -> ReplacedAll (f :: fs) (f' :: fs').

(** What a computation returns, when it returns. *)
Definition returns {A} (c : M A) (Q : A -> Prop) : Prop :=
  forall w a w', c w = (Ok a, w') -> Q a.

(** A relation between the world before and the world after that a
    computation maintains, whether it succeeds or fails. *)
Definition keeps {A} (R : World -> World -> Prop) (c : M A) : Prop :=
  forall w, R w (snd (c w)).

(** [refines c c']: wherever [c] does not run out of fuel, [c'] does what
    [c] does. *)
Definition refines {A} (c c' : M A) : Prop :=
  forall w, fst (c w) <> Err EOutOfFuel -> c' w = c w.

(** [fuelled P c]: [c] never runs out of fuel, and what it returns
    satisfies [P]. *)
Definition fuelled {A} (P : A -> Prop) (c : M A) : Prop :=
  forall w,
    match fst (c w) with
    | Ok a => P a
    | Err e => e <> EOutOfFuel
    end.

(** An entity whose id is a scalar. *)
Definition flatId (v : Value) : Prop := Js.depth (Js.getProp v "id") = 0%nat.

Definition logged (c : Call) (w : World) : World := snd (log c w).

Definition withLinks (t : LinkTable) (rows : list Obj) (w : World) : World :=
  snd (Storage.setLinks t rows w).

Definition withRows (collection : string) (rows : list Obj) (w : World) : World :=
  snd (Storage.setRows collection rows w).

Definition withEvent (e : Event) (w : World) : World := snd (Server.emitEvent e w).

(** ** Induction on values and on filter trees *)

Section ValueInduction.
Variable P : Value -> Prop.
Hypothesis P_undefined : P VUndefined.
Hypothesis P_null : P VNull.
Hypothesis P_bool : forall b, P (VBool b).
Hypothesis P_num : forall n, P (VNum n).
Hypothesis P_str : forall s, P (VStr s).
Hypothesis P_arr : forall xs, Forall P xs -> P (VArr xs).
Hypothesis P_obj : forall fs, Forall (fun kv => P (snd kv)) fs -> P (VObj fs).

Fixpoint Value_nested_ind (v : Value) : P v :=
  match v with
  | VUndefined => P_undefined
  | VNull => P_null
  | VBool b => P_bool b
  | VNum n => P_num n
  | VStr s => P_str s
  | VArr xs =>
      P_arr xs
        ((fix items (l : list Value) : Forall P l :=
            match l with
            | [] => List.Forall_nil P
            | x :: r => @List.Forall_cons _ P x r (Value_nested_ind x) (items r)
            end) xs)
  | VObj fs =>
      P_obj fs
        ((fix fields (l : Obj) : Forall (fun kv => P (snd kv)) l :=
            match l with
            | [] => List.Forall_nil _
            | kv :: r =>
                @List.Forall_cons _ (fun kv => P (snd kv)) kv r
                  (Value_nested_ind (snd kv)) (fields r)
            end) fs)
  end.
End ValueInduction.

Section FilterInduction.
Variable P : Filter -> Prop.
Hypothesis P_leaf : forall field operator value, P (Leaf field operator value).
Hypothesis P_logical : forall operator fs, Forall P fs -> P (Logical operator fs).
Hypothesis P_existence :
  forall operator field fs, Forall P fs -> P (Existence operator field fs).

Fixpoint Filter_nested_ind (f : Filter) : P f :=
  let children :=
    fix children (l : list Filter) : Forall P l :=
      match l with
      | [] => List.Forall_nil P
      | x :: r => @List.Forall_cons _ P x r (Filter_nested_ind x) (children r)
      end in
  match f with
  | Leaf field operator value => P_leaf field operator value
  | Logical operator fs => P_logical operator fs (children fs)
  | Existence operator field fs => P_existence operator field fs (children fs)
  end.
End FilterInduction.

Fixpoint mapOutcome {A B} (f : A -> Outcome B) (l : list A) : Outcome (list B) :=
  match l with
  | [] => Ok []
  | x :: r =>
      match f x with
      | Ok y => match mapOutcome f r with Ok ys => Ok (y :: ys) | Err e => Err e end
      | Err e => Err e
      end
  end.

Section Vocabulary.
Context `{Externals}.

Definition Rewritten (f' : Filter) (f : Filter) : Prop :=
  relationFree f' = true /\ Replaced f f'.

(** The find [findById] sends to the accessor. *)
Definition byId (id : Value) : FindEntityOptions :=
  {| filters := [Leaf "id" eq id]; orderBy := None; pagination := None;
     selected := []; keepNonPropertyFields := false |}.

(** What [findById] answers over the rows of the collection. *)
Definition loaded (dataAccessor : RpdDataModel) (id : Value) (keep : bool)
  (rows : list Obj) : Outcome Value :=
  match List.filter (Storage.hasId id) rows with
  | [] => Ok VUndefined
  | found =>
      match mapOutcome
              (fun r => mapDbRowToEntity (Some dataAccessor) (VObj r) keep) found with
      | Ok entities => Ok (first entities)
      | Err e => Err e
      end
  end.

(** The statements [addRelations] and [removeRelations] send for one
    relation. *)
Definition guardedInsert (p : RpdDataModelProperty) (id relationId : Value) :=
  InsertWhereNotExists (linkTableOf p) (Js.keyOf (selfIdColumnName p))
    (Js.keyOf (targetIdColumnName p)) id relationId.

Definition deletePair (p : RpdDataModelProperty) (id relationId : Value) :=
  DeleteWherePair (linkTableOf p) (Js.keyOf (selfIdColumnName p))
    (Js.keyOf (targetIdColumnName p)) id relationId.

(** A computation that leaves the world alone. *)
Definition silent {A} (c : M A) : Prop := keeps (fun w w' => w' = w) c.

Definition sameEvents (w w' : World) : Prop := events w' = events w.

(** A related element given by reference: a bare id, or an object that
    carries one. *)
Definition isReference (x : Value) : bool :=
  negb (Js.isObject x) || Js.truthy (Js.getProp x "id").

Definition pointsAt (column : string) (id : Value) (r : Obj) : bool :=
  Storage.equal (Js.lookup column r) id.

(** The id a related element given by reference names. *)
Definition referenceId (x : Value) : Value :=
  if Js.isObject x then Js.getProp x "id" else x.

(** Every row that pointed at the owner still does, collection by
    collection: the rows there were, position by position, and after them
    the rows that were added. *)
Definition keptPointing (column : string) (id : Value) (w w' : World) : Prop :=
  forall c, exists kept added,
    Storage.rowsOf w' c = kept ++ added
    /\ Forall2 (fun r r' => pointsAt column id r = true -> pointsAt column id r' = true)
         (Storage.rowsOf w c) kept.

End Vocabulary.

Section Saving.
Context `{Externals}.
Variable create : RpdDataModel -> Value -> M Value.
Variable id : Value.
Variable p : RpdDataModelProperty.
Variable targetAccessor : RpdDataModel.

(** Modelled from the spec: step 4 of the cascading create (section 4.3),
    which step 5 of the cascading update (section 4.4) refers to, for one
    element of a many-relation of the owner [id].  An embedded object
    without id is created (for a relation kept in a foreign key, with the
    owner id in its [selfIdColumnName]); an object with an id or a bare id
    is looked up by id.  Then, link table: the link row (owner id, target
    id) is inserted; foreign key: the [selfIdColumnName] of the row looked
    up is updated to the owner id.  [SavedOne w x related w'] says that the
    element [x] was saved so from the world [w], giving the related entity
    [related] and the world [w']. *)
Inductive SavedOne : World -> Value -> Value -> World -> Prop :=
| SavedCreatedAndLinked w x created w1 rows w2 :
    Js.hasText (linkTableName p) = true ->
    isReference x = false ->
    create targetAccessor x w = (Ok created, w1) ->
    Js.isNullOrUndefined created = false ->
    Server.queryDatabaseObject (insertLink p id (Js.getProp created "id")) w1
    = (Ok rows, w2) ->
    SavedOne w x created w2
| SavedCreatedOwned w x owned created w1 :
    Js.hasText (linkTableName p) = false ->
    isReference x = false ->
    writeProp x (Js.keyOf (selfIdColumnName p)) id = Ok owned ->
    create targetAccessor owned w = (Ok created, w1) ->
    SavedOne w x created w1
| SavedFoundAndLinked w x found w1 rows w2 :
    Js.hasText (linkTableName p) = true ->
    isReference x = true ->
    DataAccessor.findById targetAccessor (referenceId x) w = (Ok found, w1) ->
    Js.truthy found = true ->
    Server.queryDatabaseObject (insertLink p id (referenceId x)) w1 = (Ok rows, w2) ->
    SavedOne w x found w2
| SavedFoundAndOwned w x found w1 updated w2 owned :
    Js.hasText (linkTableName p) = false ->
    isReference x = true ->
    DataAccessor.findById targetAccessor (referenceId x) w = (Ok found, w1) ->
    Js.truthy found = true ->
    DataAccessor.updateById targetAccessor (Js.getProp found "id")
      [(Js.keyOf (selfIdColumnName p), id)] w1
    = (Ok updated, w2) ->
    writeProp found (Js.keyOf (selfIdColumnName p)) id = Ok owned ->
    SavedOne w x owned w2.

(** The elements saved one after the other, in order. *)
Inductive SavedAll : World -> list Value -> list Value -> World -> Prop :=
| SavedNone w : SavedAll w [] [] w
| SavedNext w x related w1 xs relatedEntities w2 :
    SavedOne w x related w1 ->
    SavedAll w1 xs relatedEntities w2 ->
    SavedAll w (x :: xs) (related :: relatedEntities) w2.

End Saving.

(** The target model of a relation property is not registered with the
    server. *)
Definition unregistered (w : World) (p : RpdDataModelProperty) : Prop :=
  fst (Server.getModel (targetSingularCode p) w) = Ok None.

(** The filter of the find that fetches the related rows of a relation kept
    in a foreign-key column, for the base rows [found]. *)
Definition relatedFetch (p : RpdDataModelProperty) (found : list Obj) : Filter :=
  if isMany p
  then Leaf (Js.keyOf (selfIdColumnName p)) in_ (VArr (map (Js.lookup "id") found))
  else
    Leaf "id" in_
      (VArr (Js.uniq
               (List.filter (fun v => negb (Js.isNullOrUndefined v))
                  (map (Js.lookup (Js.keyOf (targetIdColumnName p))) found)))).


(** ** Vocabulary of the further properties *)

(** Calls that change nothing in storage. *)
Definition reads (calls : list Call) : bool :=
  forallb (fun c => negb (isWrite c)) calls.

(** The world after is the world before, except that the journal gained
    calls, none of which writes. *)
Definition readOnly (w w' : World) : Prop :=
  registry w' = registry w /\ accessors w' = accessors w
  /\ tables w' = tables w /\ linkTables w' = linkTables w
  /\ nextId w' = nextId w /\ events w' = events w
  /\ exists calls, journal w' = journal w ++ calls /\ reads calls = true.

(** Relational nodes the rewriter meets: those below boolean nodes only,
    the nested filters of a relational node being handed on as they are. *)
Fixpoint existenceNodes (f : Filter) : nat :=
  match f with
  | Leaf _ _ _ => 0%nat
  | Logical _ fs =>
      (fix sum (l : list Filter) : nat :=
         match l with [] => 0%nat | x :: r => (existenceNodes x + sum r)%nat end) fs
  | Existence _ _ _ => 1%nat
  end.

Definition existenceNodesOf (fs : list Filter) : nat :=
  fold_right (fun f n => (existenceNodes f + n)%nat) 0%nat fs.

(** [within n c]: [c] issues at most [n] calls, whatever the world. *)
Definition within {A} (n : nat) (c : M A) : Prop :=
  forall w, exists calls,
    journal (snd (c w)) = journal w ++ calls /\ (length calls <= n)%nat.

(** What an [exists]/[notExists] filter asks of a base row, [related] saying
    that an entity related to the row through the column value [x] satisfies
    the nested filters.  A row whose column is null is related to nothing
    and, as in SQL, not selected by the negation either. *)
Definition selectedBy (operator : ExistenceOperator) (x : Value) (related : Prop)
  : Prop :=
  match operator with
  | exists_ => related
  | notExists => Js.isNullOrUndefined x = false /\ ~ related
  end.

(** Two rows that agree on every key but [key]. *)
Definition agreeExcept (key : string) (e e' : Obj) : Prop :=
  forall k, k <> key -> Js.lookup k e' = Js.lookup k e.

(** The two ways the loop over [options.properties] fails. *)
Definition selectionError (model : RpdDataModel) (codes : list string) (e : Error)
  : Prop :=
  (exists c,
      In c codes /\ findProperty model c = None
      /\ e = ENoSuchProperty (namespace model) (singularCode model) c)
  \/ (exists c p,
         In c codes /\ findProperty model c = Some p
         /\ Js.hasText (targetIdColumnName p) = false
         /\ e = ETargetIdColumnRequired c (namespace model) (singularCode model)).

(** Nothing is taken away: every collection has at least the rows it had,
    and every link table starts with the rows it had. *)
Definition grows (w w' : World) : Prop :=
  (forall c, (length (Storage.rowsOf w c) <= length (Storage.rowsOf w' c))%nat)
  /\ (forall t, exists added, Storage.linksOf w' t = Storage.linksOf w t ++ added).

(** A route [buildRoutes] hands to the router. *)
Definition isRESTful (routeConfig : Route.RpdRoute) : bool :=
  String.eqb (Route.type routeConfig) "RESTful".

(** * Properties *)

(** ** The monad *)

Lemma bind_ok {A B} (c : M A) (k : A -> M B) w a w' :
  c w = (Ok a, w') -> bind c k w = k a w'.
Proof. intros E. unfold bind. rewrite E. reflexivity. Qed.

Lemma bind_err {A B} (c : M A) (k : A -> M B) w e w' :
  c w = (Err e, w') -> bind c k w = (Err e, w').
Proof. intros E. unfold bind. rewrite E. reflexivity. Qed.

Lemma bind_inv {A B} (c : M A) (k : A -> M B) w b w' :
  bind c k w = (Ok b, w') ->
  exists a w1, c w = (Ok a, w1) /\ k a w1 = (Ok b, w').
Proof.
  unfold bind. destruct (c w) as [[a | e] w1]; intros E.
  - exists a, w1. split; [reflexivity | exact E].
  - discriminate E.
Qed.

Lemma bind_assoc {A B C} (c : M A) (k : A -> M B) (h : B -> M C) w :
  bind (bind c k) h w = bind c (fun a => bind (k a) h) w.
Proof. unfold bind. destruct (c w) as [[a | e] w1]; reflexivity. Qed.

Lemma returns_ret {A} (a : A) (Q : A -> Prop) : Q a -> returns (ret a) Q.
Proof. intros q w b w' E. injection E as <- _. exact q. Qed.

Lemma returns_raise {A} e (Q : A -> Prop) : returns (raise e) Q.
Proof. intros w b w' E. discriminate E. Qed.

Lemma returns_bind {A B} (c : M A) (k : A -> M B) (Q : B -> Prop) :
  (forall a, returns (k a) Q) -> returns (bind c k) Q.
Proof.
  intros Hk w b w' E. apply bind_inv in E as (a & w1 & _ & E).
  exact (Hk a w1 b w' E).
Qed.

Lemma returns_bind_with {A B} (c : M A) (k : A -> M B) (P : A -> Prop)
  (Q : B -> Prop) :
  returns c P -> (forall a, P a -> returns (k a) Q) -> returns (bind c k) Q.
Proof.
  intros Hc Hk w b w' E. apply bind_inv in E as (a & w1 & Ea & E).
  exact (Hk a (Hc _ _ _ Ea) w1 b w' E).
Qed.

Section Keeping.
Variable R : World -> World -> Prop.
Hypothesis R_refl : forall w, R w w.
Hypothesis R_trans : forall a b c, R a b -> R b c -> R a c.

Lemma keeps_ret {A} (a : A) : keeps R (ret a).
Proof. intros w. apply R_refl. Qed.

Lemma keeps_raise {A} e : keeps R (@raise A e).
Proof. intros w. apply R_refl. Qed.

Lemma keeps_lift {A} (o : Outcome A) : keeps R (lift o).
Proof. intros w. apply R_refl. Qed.

Lemma keeps_bind {A B} (c : M A) (k : A -> M B) :
  keeps R c -> (forall a, keeps R (k a)) -> keeps R (bind c k).
Proof.
  intros Hc Hk w. unfold bind. specialize (Hc w).
  destruct (c w) as [[a | e] w1]; simpl in *.
  - eapply R_trans; [exact Hc | apply Hk].
  - exact Hc.
Qed.

Lemma keeps_mapM {A B} (f : A -> M B) (l : list A) :
  (forall x, keeps R (f x)) -> keeps R (mapM f l).
Proof.
  intros Hf. induction l as [| x r IH]; simpl.
  - apply keeps_ret.
  - apply keeps_bind; [apply Hf | intros y].
    apply keeps_bind; [exact IH | intros ys]. apply keeps_ret.
Qed.

Lemma keeps_foldM {A B} (f : B -> A -> M B) (l : list A) :
  (forall acc x, keeps R (f acc x)) -> forall acc, keeps R (foldM f acc l).
Proof.
  intros Hf. induction l as [| x r IH]; intros acc; simpl.
  - apply keeps_ret.
  - apply keeps_bind; [apply Hf | intros acc']. apply IH.
Qed.

Lemma keeps_getModel target : keeps R (Server.getModel target).
Proof. intros w. apply R_refl. Qed.

End Keeping.


(** ** Filter rewriter *)

Section Rewriter.
Context `{Externals}.

Lemma containment_isContainment operator :
  isContainment (containment operator) = true.
Proof. destruct operator; reflexivity. Qed.

Lemma relatedEntityIdFilter_inv fs inner value :
  relatedEntityIdFilter fs = Some (inner, value) ->
  fs = [Leaf "id" inner value] /\ (inner = eq \/ inner = in_).
Proof.
  destruct fs as [| [field operator v | |] [|]]; simpl; try discriminate.
  destruct operator; try discriminate;
    destruct (String.eqb_spec field "id"); try discriminate;
    intros E; injection E as <- <-; subst field; auto.
Qed.

Lemma replaceBySubquery_rewritten p operator field fs :
  returns (replaceBySubquery p operator fs)
          (fun f' => Rewritten f' (Existence operator field fs)).
Proof.
  unfold replaceBySubquery.
  apply returns_bind; intros da. apply returns_bind; intros entities.
  apply returns_ret. split; [reflexivity |].
  constructor. apply containment_isContainment.
Qed.

Lemma replaceBySelfIds_rewritten p operator field fs :
  returns (replaceBySelfIds p operator fs)
          (fun f' => Rewritten f' (Existence operator field fs)).
Proof.
  unfold replaceBySelfIds.
  destruct (negb (Js.hasText (selfIdColumnName p))); [apply returns_raise |].
  apply returns_bind; intros da. apply returns_bind; intros entities.
  apply returns_ret. split; [reflexivity |].
  constructor. apply containment_isContainment.
Qed.

Lemma replaceByLinks_rewritten p operator field fs :
  returns (replaceByLinks p operator fs)
          (fun f' => Rewritten f' (Existence operator field fs)).
Proof.
  unfold replaceByLinks.
  destruct (negb (Js.hasText (selfIdColumnName p))); [apply returns_raise |].
  destruct (negb (Js.hasText (targetIdColumnName p))); [apply returns_raise |].
  apply returns_bind; intros da. apply returns_bind; intros entities.
  apply returns_bind; intros links.
  apply returns_ret. split; [reflexivity |].
  constructor. apply containment_isContainment.
Qed.

Lemma replaceExistence_rewritten model operator field fs :
  returns (replaceExistence model operator field fs)
          (fun f' => Rewritten f' (Existence operator field fs)).
Proof.
  unfold replaceExistence.
  destruct (findProperty model field) as [p |]; [| apply returns_raise].
  destruct (negb (isRelationProperty p)); [apply returns_raise |].
  destruct fs as [| f0 fs0]; [apply returns_raise |].
  destruct (isOne p).
  - destruct (relatedEntityIdFilter (f0 :: fs0)) as [[inner value] |] eqn:E.
    + apply relatedEntityIdFilter_inv in E as [_ Hinner].
      apply returns_ret. split; [reflexivity |].
      constructor. destruct operator, Hinner as [-> | ->]; reflexivity.
    + apply replaceBySubquery_rewritten.
  - destruct (negb (Js.hasText (linkTableName p))).
    + apply replaceBySelfIds_rewritten.
    + apply replaceByLinks_rewritten.
Qed.

Lemma replaceFilter_rewritten model f :
  returns (replaceFilter model f) (fun f' => Rewritten f' f).
Proof.
  induction f as [field operator value | operator fs IH | operator field fs _]
    using Filter_nested_ind.
  - apply returns_ret. split; [reflexivity | constructor].
  - simpl.
    eapply returns_bind_with with
      (P := fun fs' => forallb relationFree fs' = true /\ ReplacedAll fs fs').
    + induction IH as [| x r Hx _ IHr].
      * apply returns_ret. split; [reflexivity | constructor].
      * eapply returns_bind_with; [exact Hx | intros y [Hy Ry]].
        eapply returns_bind_with; [exact IHr | intros ys [Hys Rys]].
        apply returns_ret. split.
        -- simpl. rewrite Hy, Hys. reflexivity.
        -- constructor; assumption.
    + intros fs' [Hfree Hrep]. apply returns_ret. split.
      * simpl. clear Hrep. induction fs' as [| y ys IHys]; [reflexivity |].
        simpl in Hfree. apply andb_prop in Hfree as [Hy Hys].
        rewrite Hy. simpl. exact (IHys Hys).
      * constructor. exact Hrep.
  - simpl. apply replaceExistence_rewritten.
Qed.

(** C1.  Whenever the rewriter returns, for any model, any input filter
    list and any state of the world, no filter of the returned list
    contains a relational ([exists]/[notExists]) node at any depth, and the
    returned list is the input list with each such node replaced by a leaf
    whose operator is a containment operator ([eq], [ne], [in], [notIn]),
    boolean nodes and other leaves being kept. *)
Theorem rewriter_output_is_relation_free model fs w fs' w' :
  replaceFiltersWithFiltersOperator model fs w = (Ok fs', w') ->
  forallb relationFree fs' = true /\ ReplacedAll fs fs'.
Proof.
  unfold replaceFiltersWithFiltersOperator.
  revert w fs' w'.
  change (returns (mapM (replaceFilter model) fs)
            (fun fs' => forallb relationFree fs' = true /\ ReplacedAll fs fs')).
  induction fs as [| x r IH]; simpl.
  - apply returns_ret. split; [reflexivity | constructor].
  - eapply returns_bind_with; [apply replaceFilter_rewritten | intros y [Hy Ry]].
    eapply returns_bind_with; [exact IH | intros ys [Hys Rys]].
    apply returns_ret. split.
    + simpl. rewrite Hy, Hys. reflexivity.
    + constructor; assumption.
Qed.

Lemma shortcut_rewrite model operator field relationProperty inner value w :
  findProperty model field = Some relationProperty ->
  isRelationProperty relationProperty = true ->
  relation relationProperty = Some one ->
  inner = eq \/ inner = in_ ->
  replaceFiltersWithFiltersOperator model
    [Existence operator field [Leaf "id" inner value]] w
  = (Ok [replaceByTargetId relationProperty operator inner value], w).
Proof.
  intros Hfind Hrel Hone Hinner.
  unfold replaceFiltersWithFiltersOperator. simpl.
  unfold replaceExistence. rewrite Hfind, Hrel. simpl.
  unfold isOne. rewrite Hone.
  destruct Hinner as [-> | ->], operator; reflexivity.
Qed.

(** C6.  An [exists]/[notExists] filter on a one-relation property whose
    nested filters are exactly one leaf [{field: "id", operator: eq|in}] is
    rewritten to a single leaf on the property's [targetIdColumnName] with
    the same value; the operator is the nested one for [exists] and
    [eq -> ne], [in -> notIn] for [notExists].  The world is left as it was:
    no accessor is requested and nothing is queried. *)
Theorem id_filter_on_one_relation_skips_subquery
  model operator field relationProperty inner value w :
  findProperty model field = Some relationProperty ->
  isRelationProperty relationProperty = true ->
  relation relationProperty = Some one ->
  inner = eq \/ inner = in_ ->
  replaceFiltersWithFiltersOperator model
    [Existence operator field [Leaf "id" inner value]] w
  = (Ok [Leaf (Js.keyOf (targetIdColumnName relationProperty))
           (match operator, inner with
            | exists_, _ => inner
            | notExists, eq => ne
            | notExists, _ => notIn
            end)
           value],
     w).
Proof.
  intros Hfind Hrel Hone Hinner.
  rewrite (shortcut_rewrite model operator field relationProperty inner value w)
    by assumption.
  destruct Hinner as [-> | ->], operator; reflexivity.
Qed.

End Rewriter.

(** ** Values and storage comparisons *)

Lemma sameValue_eq a b : Js.sameValue a b = true -> a = b.
Proof.
  revert b. induction a as [| | x | x | x | xs IH | fs IH] using Value_nested_ind;
    intros [| | y | y | y | ys | gs]; simpl; try discriminate; try reflexivity.
  - intros E. apply Bool.eqb_prop in E. congruence.
  - intros E. apply Z.eqb_eq in E. congruence.
  - intros E. apply String.eqb_eq in E. congruence.
  - intros E. f_equal. revert ys E.
    induction IH as [| x r Hx _ IHr]; intros [| y ys]; try discriminate.
    + reflexivity.
    + intros E. apply andb_prop in E as [E1 E2].
      f_equal; [apply Hx, E1 | apply IHr, E2].
  - intros E. f_equal. revert gs E.
    induction IH as [| [k x] r Hx _ IHr]; intros [| [k' y] gs]; try discriminate.
    + reflexivity.
    + intros E. apply andb_prop in E as [E12 E3].
      apply andb_prop in E12 as [E1 E2].
      apply String.eqb_eq in E1. simpl in Hx.
      f_equal; [f_equal; [exact E1 | apply Hx, E2] | apply IHr, E3].
Qed.

Lemma sameValue_refl a : Js.sameValue a a = true.
Proof.
  induction a as [| | x | x | x | xs IH | fs IH] using Value_nested_ind;
    simpl; try reflexivity.
  - destruct x; reflexivity.
  - apply Z.eqb_refl.
  - apply String.eqb_refl.
  - induction IH as [| x r Hx _ IHr]; [reflexivity |].
    rewrite Hx. exact IHr.
  - induction IH as [| [k x] r Hx _ IHr]; [reflexivity |].
    simpl in Hx. rewrite String.eqb_refl, Hx. exact IHr.
Qed.

Lemma equal_inv a b :
  Storage.equal a b = true ->
  a = b /\ Js.isNullOrUndefined a = false.
Proof.
  unfold Storage.equal. intros E.
  apply andb_prop in E as [E12 E3]. apply andb_prop in E12 as [E1 _].
  split; [apply sameValue_eq, E3 | apply negb_true_iff, E1].
Qed.

Lemma equal_refl a : Js.isNullOrUndefined a = false -> Storage.equal a a = true.
Proof. intros E. unfold Storage.equal. rewrite E, sameValue_refl. reflexivity. Qed.

Lemma among_spec x l :
  Storage.among x l = true <-> In x l /\ Js.isNullOrUndefined x = false.
Proof.
  unfold Storage.among. rewrite existsb_exists. split.
  - intros (y & Hin & E). apply equal_inv in E as [-> E]. auto.
  - intros [Hin E]. exists x. split; [exact Hin | apply equal_refl, E].
Qed.

Lemma lookup_project_in column columns r :
  In column columns ->
  Js.lookup column (Storage.project columns r) = Js.lookup column r.
Proof.
  intros Hin. unfold Storage.project.
  destruct columns as [| c cs]; [reflexivity |].
  induction r as [| [k x] r IH]; [reflexivity |].
  cbn [List.filter fst]. destruct (existsb (String.eqb k) (c :: cs)) eqn:E.
  - cbn [Js.lookup]. rewrite IH. reflexivity.
  - cbn [Js.lookup]. destruct (String.eqb_spec k column) as [-> | _]; [| exact IH].
    exfalso. apply Bool.not_true_iff_false in E. apply E.
    apply existsb_exists. exists column. split; [exact Hin | apply String.eqb_refl].
Qed.

(** ** The id shortcut against the subquery *)

Section Shortcut.
Context `{Externals}.

Lemma getDataAccessor_found target targetModel w :
  accessors w !! target = Some targetModel ->
  Server.getDataAccessor (Some target) w
  = (Ok targetModel, logged (CGetDataAccessor (Some target)) w).
Proof.
  intros E. unfold Server.getDataAccessor, bind, log, logged. simpl.
  rewrite E. reflexivity.
Qed.

Lemma find_unfold dataAccessor options w :
  DataAccessor.find dataAccessor options w
  = (Ok (Storage.select options
           (Storage.rowsOf w (DataAccessor.collection dataAccessor))),
     logged (CFind (DataAccessor.collection dataAccessor) options) w).
Proof. reflexivity. Qed.

Lemma select_plain fs rows :
  Storage.select (plainFind fs []) rows = Storage.matching fs rows.
Proof. unfold Storage.select. simpl. apply map_id. Qed.

(** C2, as amended.  Take a one-relation [exists] filter whose single nested
    filter is [{field: "id", operator: "eq", value: v}], a world in which the
    target collection is served and in which every base row whose
    [targetIdColumnName] column holds [v] refers to a row that exists in
    the target collection.  Then the filter the rewriter returns (a direct
    leaf on [targetIdColumnName]) and the filter of the general subquery
    path (target ids collected, then [in] on [targetIdColumnName]) select
    the same base rows. *)
Theorem id_shortcut_agrees_with_subquery_when_references_resolve
  model field relationProperty target targetModel v w :
  findProperty model field = Some relationProperty ->
  isRelationProperty relationProperty = true ->
  relation relationProperty = Some one ->
  targetSingularCode relationProperty = Some target ->
  accessors w !! target = Some targetModel ->
  (forall r,
      In r (Storage.rowsOf w (DataAccessor.collection model)) ->
      Storage.equal
        (Js.lookup (Js.keyOf (targetIdColumnName relationProperty)) r) v = true ->
      exists t,
        In t (Storage.rowsOf w (DataAccessor.collection targetModel))
        /\ Storage.equal (Js.lookup "id" t) v = true) ->
  exists optimized general w',
    replaceFiltersWithFiltersOperator model
      [Existence exists_ field [Leaf "id" eq v]] w = (Ok [optimized], w)
    /\ replaceBySubquery relationProperty exists_ [Leaf "id" eq v] w
       = (Ok general, w')
    /\ fst (DataAccessor.find model (plainFind [optimized] []) w)
       = fst (DataAccessor.find model (plainFind [general] []) w').
Proof.
  intros Hfind Hrel Hone Htarget Hacc Hrefs.
  eexists _, _, _. split; [| split].
  - apply (shortcut_rewrite model exists_ field relationProperty eq v w); auto.
  - unfold replaceBySubquery. rewrite Htarget.
    erewrite bind_ok by (apply getDataAccessor_found; exact Hacc).
    erewrite bind_ok by apply find_unfold.
    reflexivity.
  - rewrite !find_unfold. cbn [fst]. f_equal.
    rewrite !select_plain.
    change (Storage.rowsOf (logged _ (logged _ w)) (DataAccessor.collection model))
      with (Storage.rowsOf w (DataAccessor.collection model)).
    change (Storage.rowsOf (logged _ w) (DataAccessor.collection targetModel))
      with (Storage.rowsOf w (DataAccessor.collection targetModel)).
    unfold Storage.matching at 1 2. apply filter_ext_in. intros r Hr.
    cbn [forallb Storage.holds containment replaceByTargetId replacedOperator].
    f_equal.
    set (x := Js.lookup (Js.keyOf (targetIdColumnName relationProperty)) r).
    apply Bool.eq_true_iff_eq. rewrite among_spec. split.
    + intros E. destruct (equal_inv _ _ E) as [Exv Hx]. split; [| exact Hx].
      destruct (Hrefs r Hr E) as (t & Ht & Et).
      apply in_map_iff.
      exists (Storage.project ["id"] t). split.
      * rewrite lookup_project_in by (left; reflexivity).
        apply equal_inv in Et as [-> _]. symmetry. exact Exv.
      * unfold Storage.select.
        cbn [filters orderBy pagination selected plainFind].
        apply in_map. unfold Storage.matching. apply filter_In.
        split; [exact Ht |]. cbn [forallb Storage.holds]. rewrite Et. reflexivity.
    + intros [Hin Hx]. apply in_map_iff in Hin as (t' & Eid & Hin).
      unfold Storage.select in Hin.
      cbn [filters orderBy pagination selected plainFind] in Hin.
      apply in_map_iff in Hin as (t & <- & Hin).
      rewrite lookup_project_in in Eid by (left; reflexivity).
      unfold Storage.matching in Hin. apply filter_In in Hin as [_ Et].
      cbn [forallb Storage.holds] in Et. rewrite andb_true_r in Et.
      apply equal_inv in Et as [Et _].
      rewrite <- Eid, Et. apply equal_refl.
      rewrite <- Et, Eid. exact Hx.
Qed.

End Shortcut.

(** ** Loading an entity by id *)

Section Loading.
Context `{Externals}.

Lemma mapM_lift {A B} (f : A -> Outcome B) (l : list A) w :
  mapM (fun x => lift (f x)) l w = (mapOutcome f l, w).
Proof.
  induction l as [| x r IH]; [reflexivity |].
  simpl. unfold bind at 1. unfold lift at 1.
  destruct (f x) as [y | e]; [| reflexivity].
  unfold bind. rewrite IH. destruct (mapOutcome f r); reflexivity.
Qed.

Lemma matching_by_id id rows :
  Storage.matching [Leaf "id" eq id] rows = List.filter (Storage.hasId id) rows.
Proof.
  unfold Storage.matching. apply filter_ext. intros r.
  cbn [forallb Storage.holds]. apply andb_true_r.
Qed.

Lemma findById_unfold dataAccessor id keep w :
  findById dataAccessor id keep w
  = (loaded dataAccessor id keep
       (Storage.rowsOf w (DataAccessor.collection dataAccessor)),
     logged (CFind (DataAccessor.collection dataAccessor) (byId id)) w).
Proof.
  unfold findById, findEntity, findEntities, loaded.
  cbn [selected filters orderBy pagination keepNonPropertyFields foldM
       replaceFiltersWithFiltersOperator mapM replaceFilter
       convertToDataAccessOrderBy DataAccessor.getModel].
  unfold bind at 1. unfold ret at 1.
  unfold bind at 1. unfold bind at 1. unfold ret at 1.
  unfold bind at 1. unfold ret at 1 2.
  unfold bind at 1. unfold bind at 1. rewrite find_unfold.
  fold (byId id). unfold Storage.select.
  cbn [filters orderBy pagination selected byId Storage.project].
  rewrite map_id, matching_by_id.
  change (Storage.rowsOf (logged _ w) (DataAccessor.collection dataAccessor))
    with (Storage.rowsOf w (DataAccessor.collection dataAccessor)).
  destruct (List.filter (Storage.hasId id)
              (Storage.rowsOf w (DataAccessor.collection dataAccessor)))
    as [| r rest]; [reflexivity |].
  cbn [foldM]. unfold bind at 1. unfold ret at 1.
  rewrite mapM_lift.
  destruct (mapOutcome _ (r :: rest)); reflexivity.
Qed.

Lemma loaded_absent dataAccessor id keep rows :
  forallb (fun r => negb (Storage.hasId id r)) rows = true ->
  loaded dataAccessor id keep rows = Ok VUndefined.
Proof.
  intros Hnone. unfold loaded.
  replace (List.filter (Storage.hasId id) rows) with (@nil Obj); [reflexivity |].
  symmetry. induction rows as [| r rows IH]; [reflexivity |].
  simpl in *. apply andb_prop in Hnone as [Hr Hrows].
  apply negb_true_iff in Hr. rewrite Hr. exact (IH Hrows).
Qed.

End Loading.

(** ** Update with nothing to change, delete *)

Section UpdateDelete.
Context `{Externals}.

(** C7.  When the diff between the loaded current entity and the supplied
    partial entity is empty (the diff helper reports nothing), the update
    returns the loaded entity and the world is the one the load left: rows,
    link tables and events are as before, and the journal gained the single
    find that loaded the entity (no [updateById], no statement, no other
    call). *)
Theorem update_without_changes_writes_nothing
  fuel dataAccessor id entityToSave plugin entity w w1 :
  Js.truthy id = true ->
  findById dataAccessor id false w = (Ok entity, w1) ->
  Js.truthy entity = true ->
  Js.truthy (getEntityPartChanges entity entityToSave) = false ->
  updateEntityById fuel dataAccessor id entityToSave plugin w = (Ok entity, w1)
  /\ tables w1 = tables w
  /\ linkTables w1 = linkTables w
  /\ events w1 = events w
  /\ journal w1
     = journal w ++ [CFind (DataAccessor.collection dataAccessor) (byId id)].
Proof.
  intros Hid Hload Hentity Hsame. split.
  - unfold updateEntityById. rewrite Hid. cbn [negb].
    erewrite bind_ok by exact Hload.
    rewrite Hentity, Hsame. reflexivity.
  - rewrite findById_unfold in Hload. injection Hload as _ <-.
    repeat split; reflexivity.
Qed.

(** C8.  [deleteById] with an id that no row of the collection carries
    returns without error; the world is the one the lookup left, so nothing
    was deleted and no event was emitted.  [deleteById] with an id that some
    row carries, the rows of that id being mapped to entities of which the
    first is [before], removes every row of that id from the collection and
    emits exactly one event, [entity.delete], whose [before] is that entity:
    the stored row mapped with its non-property fields kept. *)
Theorem deleteById_absent_and_present dataAccessor id plugin w :
  let rows := Storage.rowsOf w (DataAccessor.collection dataAccessor) in
  let lookedUp := logged (CFind (DataAccessor.collection dataAccessor) (byId id)) w in
  (forallb (fun r => negb (Storage.hasId id r)) rows = true ->
   EntityManager.deleteById dataAccessor id plugin w = (Ok tt, lookedUp)
   /\ tables lookedUp = tables w
   /\ events lookedUp = events w
   /\ List.filter isWrite (journal lookedUp) = List.filter isWrite (journal w))
  /\
  (forall r rest before others,
      List.filter (Storage.hasId id) rows = r :: rest ->
      mapDbRowToEntity (Some dataAccessor) (VObj r) true = Ok before ->
      mapOutcome (fun r => mapDbRowToEntity (Some dataAccessor) (VObj r) true) rest
      = Ok others ->
      Js.truthy before = true ->
      exists w',
        EntityManager.deleteById dataAccessor id plugin w = (Ok tt, w')
        /\ Storage.rowsOf w' (DataAccessor.collection dataAccessor)
           = List.filter (fun r => negb (Storage.hasId id r)) rows
        /\ events w'
           = events w ++ [EntityDelete (namespace dataAccessor)
                            (singularCode dataAccessor) before plugin]
        /\ journal w'
           = journal w ++ [CFind (DataAccessor.collection dataAccessor) (byId id);
                           CDeleteById (DataAccessor.collection dataAccessor) id]).
Proof.
  intros rows lookedUp. split.
  - intros Hnone. split.
    + unfold EntityManager.deleteById. unfold bind at 1.
      rewrite findById_unfold. fold rows.
      rewrite (loaded_absent _ _ _ _ Hnone). reflexivity.
    + repeat split; try reflexivity.
      unfold lookedUp, logged, log. cbn [snd journal].
      rewrite List.filter_app. cbn [List.filter isWrite]. apply app_nil_r.
  - intros r rest before others Hfound Hbefore Hothers Htruthy.
    eexists. split; [| repeat split].
    + unfold EntityManager.deleteById.
      rewrite (bind_ok _ _ _ before lookedUp).
      * rewrite Htruthy. cbn [negb]. reflexivity.
      * rewrite findById_unfold. fold rows lookedUp. f_equal.
        unfold loaded. rewrite Hfound. cbn [mapOutcome].
        rewrite Hbefore, Hothers. reflexivity.
    + unfold Storage.rowsOf at 1. cbn. rewrite lookup_insert_eq. reflexivity.
    + reflexivity.
    + cbn. rewrite <- app_assoc. reflexivity.
Qed.

End UpdateDelete.

(** ** Editing link rows *)

Section WorldUpdates.

Lemma linkTables_logged c w : linkTables (logged c w) = linkTables w.
Proof. reflexivity. Qed.

Lemma linkTables_withEvent e w : linkTables (withEvent e w) = linkTables w.
Proof. reflexivity. Qed.

Lemma linkTables_withLinks t rows w :
  linkTables (withLinks t rows w) = <[t := rows]> (linkTables w).
Proof. reflexivity. Qed.

Lemma linksOf_logged c w t : Storage.linksOf (logged c w) t = Storage.linksOf w t.
Proof. reflexivity. Qed.

Lemma linksOf_withEvent e w t : Storage.linksOf (withEvent e w) t = Storage.linksOf w t.
Proof. reflexivity. Qed.

Lemma linksOf_withLinks t rows w : Storage.linksOf (withLinks t rows w) t = rows.
Proof. unfold Storage.linksOf. cbn. rewrite lookup_insert_eq. reflexivity. Qed.

Lemma linksOf_withLinks_other t t' rows w :
  t <> t' -> Storage.linksOf (withLinks t rows w) t' = Storage.linksOf w t'.
Proof.
  intros Hne. unfold Storage.linksOf. cbn.
  rewrite lookup_insert_ne by exact Hne. reflexivity.
Qed.

Lemma rowsOf_logged c w t : Storage.rowsOf (logged c w) t = Storage.rowsOf w t.
Proof. reflexivity. Qed.

Lemma rowsOf_withEvent e w t : Storage.rowsOf (withEvent e w) t = Storage.rowsOf w t.
Proof. reflexivity. Qed.

Lemma rowsOf_withLinks t rows w c :
  Storage.rowsOf (withLinks t rows w) c = Storage.rowsOf w c.
Proof. reflexivity. Qed.

Lemma rowsOf_withRows c rows w : Storage.rowsOf (withRows c rows w) c = rows.
Proof. unfold Storage.rowsOf. cbn. rewrite lookup_insert_eq. reflexivity. Qed.

Lemma rowsOf_withRows_other c c' rows w :
  c <> c' -> Storage.rowsOf (withRows c rows w) c' = Storage.rowsOf w c'.
Proof.
  intros Hne. unfold Storage.rowsOf. cbn.
  rewrite lookup_insert_ne by exact Hne. reflexivity.
Qed.

Lemma updateById_world `{Externals} da id row w :
  snd (DataAccessor.updateById da id row w)
  = withRows (DataAccessor.collection da)
      (map (fun r => if Storage.hasId id r then Js.assignAll r row else r)
         (Storage.rowsOf w (DataAccessor.collection da)))
      (logged (CUpdateById (DataAccessor.collection da) id row) w).
Proof. reflexivity. Qed.

End WorldUpdates.

Create Rewrite HintDb world.

#[local] Hint Rewrite linkTables_logged linkTables_withEvent linkTables_withLinks
  linksOf_logged linksOf_withEvent linksOf_withLinks
  rowsOf_logged rowsOf_withEvent rowsOf_withLinks : world.

Section Relations.
Context `{Externals}.

Lemma query_outcome s w :
  isSelect s = false ->
  Server.queryDatabaseObject s w
  = (Ok [],
     withLinks (tableOf s)
       (Storage.effect s (tableOf s) (Storage.linksOf w (tableOf s)))
       (logged (CQuery s) w)).
Proof.
  intros E. unfold Server.queryDatabaseObject, bind, log. cbn.
  rewrite E. destruct s; try discriminate E; reflexivity.
Qed.

Lemma pairIs_new_row selfColumn targetColumn selfId targetId :
  selfColumn <> targetColumn ->
  Js.isNullOrUndefined selfId = false ->
  Js.isNullOrUndefined targetId = false ->
  Storage.pairIs selfColumn targetColumn selfId targetId
    (Js.assign targetColumn targetId [(selfColumn, selfId)]) = true.
Proof.
  intros Hne Hs Ht. unfold Storage.pairIs. cbn [Js.assign].
  destruct (String.eqb_spec selfColumn targetColumn) as [E | _]; [contradiction |].
  cbn [Js.lookup]. rewrite !String.eqb_refl.
  destruct (String.eqb_spec selfColumn targetColumn) as [E | _]; [contradiction |].
  rewrite !equal_refl by assumption. reflexivity.
Qed.

Lemma existsb_filter_nil {A} (p : A -> bool) l :
  existsb p l = false -> List.filter p l = [].
Proof.
  induction l as [| x r IH]; [reflexivity |]. simpl.
  destruct (p x); [discriminate | exact IH].
Qed.

Lemma existsb_filter_length {A} (p : A -> bool) l :
  existsb p l = true -> (1 <= length (List.filter p l))%nat.
Proof.
  induction l as [| x r IH]; [discriminate |]. simpl.
  destruct (p x); simpl; [lia | exact IH].
Qed.

Lemma filter_negb_none {A} (p : A -> bool) l :
  List.filter p l = [] -> List.filter (fun x => negb (p x)) l = l.
Proof.
  induction l as [| x r IH]; [reflexivity |]. simpl.
  destruct (p x); [discriminate |]. intros E. simpl. f_equal. exact (IH E).
Qed.

Lemma loaded_found_id dataAccessor id keep rows entity :
  loaded dataAccessor id keep rows = Ok entity ->
  Js.truthy entity = true ->
  Js.isNullOrUndefined id = false.
Proof.
  unfold loaded. intros E Ht.
  destruct (List.filter (Storage.hasId id) rows) as [| r rest] eqn:Ef.
  - injection E as <-. discriminate Ht.
  - assert (Hin : In r (List.filter (Storage.hasId id) rows))
      by (rewrite Ef; left; reflexivity).
    apply filter_In in Hin as [_ Hr]. unfold Storage.hasId in Hr.
    apply equal_inv in Hr as [<- Hr]. exact Hr.
Qed.

Lemma addRelations_one dataAccessor id property p element relationId plugin
  entity w :
  loaded dataAccessor id false
    (Storage.rowsOf w (DataAccessor.collection dataAccessor)) = Ok entity ->
  Js.truthy entity = true ->
  findProperty dataAccessor property = Some p ->
  isRelationProperty p = true ->
  relation p = Some many ->
  Js.hasText (linkTableName p) = true ->
  readProp element "id" = Ok relationId ->
  EntityManager.addRelations dataAccessor id property [element] plugin w
  = (Ok tt,
     withEvent
       (EntityAddRelations (namespace dataAccessor) (singularCode dataAccessor)
          entity property [element] plugin)
       (withLinks (linkTableOf p)
          (Storage.effect (guardedInsert p id relationId) (linkTableOf p)
             (Storage.linksOf w (linkTableOf p)))
          (logged (CQuery (guardedInsert p id relationId))
             (logged (CFind (DataAccessor.collection dataAccessor) (byId id)) w)))).
Proof.
  intros Hload Htruthy Hfind Hrel Hmany Hlink Hid.
  unfold EntityManager.addRelations. unfold bind at 1.
  rewrite findById_unfold, Hload, Htruthy. cbn [negb].
  unfold DataAccessor.getModel. rewrite Hfind, Hrel. unfold isMany. rewrite Hmany. cbn [andb negb].
  rewrite Hlink. cbn [foldM]. rewrite Hid.
  unfold bind, lift, ret. fold (guardedInsert p id relationId).
  rewrite query_outcome by reflexivity. reflexivity.
Qed.

Lemma removeRelations_one dataAccessor id property p element relationId plugin
  entity w :
  loaded dataAccessor id false
    (Storage.rowsOf w (DataAccessor.collection dataAccessor)) = Ok entity ->
  Js.truthy entity = true ->
  findProperty dataAccessor property = Some p ->
  isRelationProperty p = true ->
  relation p = Some many ->
  Js.hasText (linkTableName p) = true ->
  readProp element "id" = Ok relationId ->
  EntityManager.removeRelations dataAccessor id property [element] plugin w
  = (Ok tt,
     withEvent
       (EntityRemoveRelations (namespace dataAccessor)
          (singularCode dataAccessor) entity property [element] plugin)
       (withLinks (linkTableOf p)
          (Storage.effect (deletePair p id relationId) (linkTableOf p)
             (Storage.linksOf w (linkTableOf p)))
          (logged (CQuery (deletePair p id relationId))
             (logged (CFind (DataAccessor.collection dataAccessor) (byId id)) w)))).
Proof.
  intros Hload Htruthy Hfind Hrel Hmany Hlink Hid.
  unfold EntityManager.removeRelations. unfold bind at 1.
  rewrite findById_unfold, Hload, Htruthy. cbn [negb].
  unfold DataAccessor.getModel. rewrite Hfind, Hrel.
  unfold isMany. rewrite Hmany. cbn [andb negb].
  rewrite Hlink. cbn [foldM]. rewrite Hid.
  unfold bind, lift, ret. fold (deletePair p id relationId).
  rewrite query_outcome by reflexivity. reflexivity.
Qed.

Lemma guardedInsert_effect p id relationId rows :
  Js.keyOf (selfIdColumnName p) <> Js.keyOf (targetIdColumnName p) ->
  Js.isNullOrUndefined id = false ->
  Js.isNullOrUndefined relationId = false ->
  let s := guardedInsert p id relationId in
  let matches :=
    Storage.pairIs (Js.keyOf (selfIdColumnName p))
      (Js.keyOf (targetIdColumnName p)) id relationId in
  let rows1 := Storage.effect s (tableOf s) rows in
  Storage.effect s (tableOf s) rows1 = rows1
  /\ length (List.filter matches rows1)
     = Nat.max 1 (length (List.filter matches rows)).
Proof.
  intros Hne Hid Hrid s matches rows1.
  assert (Hguard : existsb matches rows1 = true).
  { subst rows1. cbn [Storage.effect s guardedInsert]. fold matches.
    destruct (existsb matches rows) eqn:E; [exact E |].
    rewrite existsb_app, E. cbn [existsb orb]. unfold matches.
    rewrite pairIs_new_row by assumption. reflexivity. }
  split.
  - cbn [Storage.effect s guardedInsert]. fold matches. rewrite Hguard. reflexivity.
  - subst rows1. cbn [Storage.effect s guardedInsert]. fold matches.
    destruct (existsb matches rows) eqn:E.
    + apply existsb_filter_length in E. lia.
    + rewrite List.filter_app, (existsb_filter_nil _ _ E).
      cbn [List.filter app]. unfold matches.
      rewrite pairIs_new_row by assumption. reflexivity.
Qed.

(** C5.  Take an owner that is found by its id, a many-relation property
    kept in a link table with distinct self-id and target-id columns, and a
    relation that carries a non-null id.  Calling [addRelations] twice with
    that pair succeeds both times, the second call leaves every link table
    as the first call left it, and the pair ends with one link row if it had
    none and with the rows it had otherwise: exactly one whenever it had at
    most one to start with.  Calling [removeRelations] for a pair that has
    no link row succeeds and leaves the rows of every link table as they
    were. *)
Theorem addRelations_twice_one_row_removeRelations_absent_noop
  dataAccessor id property p element relationId plugin entity w w0 :
  findById dataAccessor id false w = (Ok entity, w0) ->
  Js.truthy entity = true ->
  findProperty dataAccessor property = Some p ->
  isRelationProperty p = true ->
  relation p = Some many ->
  Js.hasText (linkTableName p) = true ->
  Js.keyOf (selfIdColumnName p) <> Js.keyOf (targetIdColumnName p) ->
  readProp element "id" = Ok relationId ->
  Js.isNullOrUndefined relationId = false ->
  let matches :=
    Storage.pairIs (Js.keyOf (selfIdColumnName p))
      (Js.keyOf (targetIdColumnName p)) id relationId in
  let count := fun w => length (List.filter matches (Storage.linksOf w (linkTableOf p))) in
  (exists w1 w2,
      EntityManager.addRelations dataAccessor id property [element] plugin w
      = (Ok tt, w1)
      /\ EntityManager.addRelations dataAccessor id property [element] plugin w1
         = (Ok tt, w2)
      /\ linkTables w2 = linkTables w1
      /\ count w1 = Nat.max 1 (count w)
      /\ count w2 = Nat.max 1 (count w)
      /\ ((count w <= 1)%nat -> count w2 = 1%nat))
  /\ (count w = 0%nat ->
      exists w',
        EntityManager.removeRelations dataAccessor id property [element] plugin w
        = (Ok tt, w')
        /\ forall t, Storage.linksOf w' t = Storage.linksOf w t).
Proof.
  intros Hfound Htruthy Hfind Hrel Hmany Hlink Hne Hrid Hnonnull matches count.
  rewrite findById_unfold in Hfound. injection Hfound as Hload _.
  pose proof (loaded_found_id _ _ _ _ _ Hload Htruthy) as Hid.
  set (rows := Storage.linksOf w (linkTableOf p)).
  destruct (guardedInsert_effect p id relationId rows Hne Hid Hnonnull)
    as [Hagain Hone].
  cbn zeta in Hagain, Hone. fold matches in Hone.
  change (tableOf (guardedInsert p id relationId)) with (linkTableOf p) in *.
  set (rows1 := Storage.effect (guardedInsert p id relationId) (linkTableOf p) rows)
    in *.
  split.
  - assert (Hfirst :
              length (List.filter matches
                        (Storage.linksOf
                           (withEvent
                              (EntityAddRelations (namespace dataAccessor)
                                 (singularCode dataAccessor) entity property
                                 [element] plugin)
                              (withLinks (linkTableOf p) rows1
                                 (logged (CQuery (guardedInsert p id relationId))
                                    (logged (CFind (DataAccessor.collection
                                                      dataAccessor) (byId id))
                                       w))))
                           (linkTableOf p)))
              = Nat.max 1 (length (List.filter matches rows))).
    { autorewrite with world. exact Hone. }
    eexists _, _. split; [| split; [| split; [| split; [| split]]]].
    + apply (addRelations_one _ _ _ p _ relationId _ entity); assumption.
    + apply (addRelations_one _ _ _ p _ relationId _ entity); assumption.
    + autorewrite with world. fold rows rows1.
      rewrite Hagain. apply insert_insert_eq.
    + unfold count. fold rows rows1. exact Hfirst.
    + unfold count. autorewrite with world. fold rows rows1.
      rewrite Hagain. autorewrite with world. fold rows. exact Hone.
    + intros Hle. unfold count in *. autorewrite with world. fold rows rows1.
      rewrite Hagain. autorewrite with world. fold rows in Hle.
      rewrite Hone. lia.
  - intros Hzero. eexists. split.
    + apply (removeRelations_one _ _ _ p _ relationId _ entity); assumption.
    + intros t. autorewrite with world.
      destruct (decide (linkTableOf p = t)) as [<- | Hother].
      * autorewrite with world. cbn [Storage.effect deletePair].
        fold matches. apply filter_negb_none.
        apply length_zero_iff_nil. exact Hzero.
      * rewrite linksOf_withLinks_other by exact Hother.
        autorewrite with world. reflexivity.
Qed.

End Relations.

(** ** Steps of the expansion that leave the world alone *)

Section Expansion.
Context `{Externals}.

Lemma silent_bind {A B} (c : M A) (k : A -> M B) :
  silent c -> (forall a, silent (k a)) -> silent (bind c k).
Proof. apply keeps_bind. intros a b c0 -> ->. reflexivity. Qed.

Lemma silent_mapM {A B} (f : A -> M B) l : (forall x, silent (f x)) -> silent (mapM f l).
Proof.
  apply keeps_mapM; [reflexivity |]. intros a b c0 -> ->. reflexivity.
Qed.

Lemma silent_lift {A} (o : Outcome A) : silent (lift o).
Proof. intros w. reflexivity. Qed.

Lemma silent_ret {A} (a : A) : silent (ret a).
Proof. intros w. reflexivity. Qed.

Lemma attachRelated_silent targetModel p relatedEntities entity :
  silent (attachRelated targetModel p relatedEntities entity).
Proof.
  unfold attachRelated. destruct (isMany p).
  - apply silent_bind; [| intros; apply silent_ret].
    apply silent_mapM. intros; apply silent_lift.
  - apply silent_bind; [apply silent_lift | intros; apply silent_ret].
Qed.

Lemma getDataAccessor_missing target w :
  (forall c, target = Some c -> accessors w !! c = None) ->
  Server.getDataAccessor target w
  = (Err (EDataModelNotFound target), logged (CGetDataAccessor target) w).
Proof.
  intros Hnone. unfold Server.getDataAccessor, bind, log, logged. cbn.
  destruct target as [c |]; [| reflexivity].
  rewrite (Hnone c eq_refl). reflexivity.
Qed.

(** The fetch of the related rows of a foreign-key relation: an accessor for
    the target is requested, then asked to find. *)
Lemma related_fetch_shape model p entityIds entities :
  exists options,
    (if isMany p
     then findManyRelatedEntitiesViaIdPropertyCode model p entityIds
     else
       findOneRelatedEntitiesViaIdPropertyCode model p
         (Js.uniq
            (List.filter (fun v => negb (Js.isNullOrUndefined v))
               (map (Js.lookup (Js.keyOf (targetIdColumnName p))) entities))))
    = (dataAccessor <- Server.getDataAccessor (targetSingularCode p) ;;
       DataAccessor.find dataAccessor options).
Proof. destruct (isMany p); eexists; reflexivity. Qed.


End Expansion.

(** ** What the cascade leaves alone *)

Section CascadeFrame.
Context `{Externals}.
Variable R : World -> World -> Prop.
Hypothesis R_refl : forall w, R w w.
Hypothesis R_trans : forall a b c, R a b -> R b c -> R a c.
Hypothesis R_getDataAccessor : forall target, keeps R (Server.getDataAccessor target).
Hypothesis R_findById : forall da id, keeps R (DataAccessor.findById da id).
Hypothesis R_create : forall da row, keeps R (DataAccessor.create da row).
Hypothesis R_updateById : forall da id row, keeps R (DataAccessor.updateById da id row).
Hypothesis R_query : forall s, keeps R (Server.queryDatabaseObject s).

Ltac keeping :=
  repeat first
    [ apply (keeps_ret R R_refl)
    | apply (keeps_raise R R_refl)
    | apply (keeps_lift R R_refl)
    | apply R_getDataAccessor
    | apply R_findById
    | apply R_create
    | apply R_updateById
    | apply R_query
    | assumption
    | apply (keeps_bind R R_trans); [| intros ?]
    | apply (keeps_foldM R R_refl R_trans); intros ? ?
    | match goal with
      | |- keeps R (if ?b then _ else _) => destruct b
      | |- keeps R (match ?x with _ => _ end) => destruct x
      | Hc : forall da e, keeps R (?create da e) |- keeps R (?create _ _) => apply Hc
      end ].

Section Steps.
Variable create : RpdDataModel -> Value -> M Value.
Hypothesis R_recursive : forall da e, keeps R (create da e).

Lemma createOneRelation_keeps entity row p :
  keeps R (createOneRelation create entity row p).
Proof. unfold createOneRelation. keeping. Qed.

Lemma createRelated_keeps newEntity p da x :
  keeps R (createRelated create newEntity p da x).
Proof. unfold createRelated. keeping. Qed.

Lemma updateRelated_keeps id p da x :
  keeps R (updateRelated create id p da x).
Proof. unfold updateRelated. keeping. Qed.

Lemma createManyRelation_keeps entity newEntity p :
  keeps R (createManyRelation create entity newEntity p).
Proof.
  unfold createManyRelation. keeping. apply createRelated_keeps.
Qed.

Lemma createEntityBody_keeps da entity :
  keeps R (createEntityBody create da entity).
Proof.
  unfold createEntityBody.
  apply (keeps_bind R R_trans); [| intros row].
  { apply (keeps_foldM R R_refl R_trans). intros acc p.
    apply createOneRelation_keeps. }
  apply (keeps_bind R R_trans); [apply R_create | intros newRow].
  apply (keeps_bind R R_trans); [apply (keeps_lift R R_refl) | intros newEntity].
  apply (keeps_foldM R R_refl R_trans). intros acc p.
  apply createManyRelation_keeps.
Qed.

End Steps.

Lemma createEntity_keeps fuel : forall da entity, keeps R (createEntity fuel da entity).
Proof.
  induction fuel as [| fuel IH]; intros da entity; simpl.
  - apply (keeps_raise R R_refl).
  - apply createEntityBody_keeps. exact IH.
Qed.

End CascadeFrame.

Section Events.
Context `{Externals}.

Lemma createEntity_sameEvents fuel da entity :
  keeps sameEvents (createEntity fuel da entity).
Proof.
  apply createEntity_keeps; unfold sameEvents.
  - reflexivity.
  - intros a b c E1 E2. congruence.
  - intros target w. unfold Server.getDataAccessor, bind, log. cbn.
    destruct target as [c |]; [destruct (accessors w !! c) |]; reflexivity.
  - intros d id w. reflexivity.
  - intros d row w. unfold DataAccessor.create, bind, log. cbn.
    destruct (Js.isNullOrUndefined (Js.lookup "id" row)); reflexivity.
  - intros d id row w. reflexivity.
  - intros s w. unfold Server.queryDatabaseObject, bind, log. cbn.
    destruct (isSelect s); reflexivity.
Qed.


End Events.

(** ** Fuel *)

Section Fuel.
Context `{Externals}.

Lemma refines_refl {A} (c : M A) : refines c c.
Proof. intros w _. reflexivity. Qed.

Lemma refines_bind {A B} (c c' : M A) (k k' : A -> M B) :
  refines c c' -> (forall a, refines (k a) (k' a)) ->
  refines (bind c k) (bind c' k').
Proof.
  intros Hc Hk w. unfold bind. specialize (Hc w).
  destruct (c w) as [[a | e] w1] eqn:E; cbn [fst] in *.
  - intros Hrun. rewrite Hc by discriminate. apply Hk, Hrun.
  - intros Hrun. rewrite Hc; [reflexivity |].
    intros Eq. apply Hrun. injection Eq as ->. reflexivity.
Qed.

Lemma refines_foldM {A B} (f f' : B -> A -> M B) (l : list A) :
  (forall acc x, refines (f acc x) (f' acc x)) ->
  forall acc, refines (foldM f acc l) (foldM f' acc l).
Proof.
  intros Hf. induction l as [| x r IH]; intros acc; cbn [foldM].
  - apply refines_refl.
  - apply refines_bind; [apply Hf | exact IH].
Qed.

Ltac refining :=
  repeat first
    [ apply refines_refl
    | assumption
    | apply refines_bind; [| intros ?]
    | match goal with
      | |- refines (if ?b then _ else _) (if ?b then _ else _) => destruct b
      | |- refines (match ?x with _ => _ end) (match ?x with _ => _ end) =>
          destruct x
      | Hc : forall da e, refines (?create da e) (?create' da e)
        |- refines (?create _ _) (?create' _ _) => apply Hc
      end ].

Section Steps.
Variables create create' : RpdDataModel -> Value -> M Value.
Hypothesis create_refines : forall da e, refines (create da e) (create' da e).

Lemma createOneRelation_refines entity row p :
  refines (createOneRelation create entity row p)
          (createOneRelation create' entity row p).
Proof. unfold createOneRelation. refining. Qed.

Lemma createRelated_refines newEntity p da x :
  refines (createRelated create newEntity p da x)
          (createRelated create' newEntity p da x).
Proof. unfold createRelated. refining. Qed.

Lemma updateRelated_refines id p da x :
  refines (updateRelated create id p da x) (updateRelated create' id p da x).
Proof. unfold updateRelated. refining. Qed.

Lemma createManyRelation_refines entity newEntity p :
  refines (createManyRelation create entity newEntity p)
          (createManyRelation create' entity newEntity p).
Proof.
  unfold createManyRelation.
  apply refines_bind; [apply refines_refl | intros newEntity'].
  apply refines_bind; [apply refines_refl | intros da].
  destruct (Js.getProp entity (code p)); try apply refines_refl.
  apply refines_foldM. intros acc x.
  apply refines_bind; [apply createRelated_refines | intros related].
  apply refines_refl.
Qed.

Lemma createEntityBody_refines da entity :
  refines (createEntityBody create da entity) (createEntityBody create' da entity).
Proof.
  unfold createEntityBody.
  apply refines_bind; [| intros row].
  { apply refines_foldM. intros acc p. apply createOneRelation_refines. }
  apply refines_bind; [apply refines_refl | intros newRow].
  apply refines_bind; [apply refines_refl | intros newEntity].
  apply refines_foldM. intros acc p. apply createManyRelation_refines.
Qed.

Lemma updateManyRelation_refines id changes updatedEntity p :
  refines (updateManyRelation create id changes updatedEntity p)
          (updateManyRelation create' id changes updatedEntity p).
Proof.
  unfold updateManyRelation, updateRelatedAll.
  apply refines_bind; [apply refines_refl | intros da].
  destruct (Js.getProp changes (code p)); try apply refines_refl.
  apply refines_bind; [apply refines_refl | intros _].
  apply refines_bind; [| intros; apply refines_refl].
  apply refines_foldM. intros acc x.
  apply refines_bind; [apply updateRelated_refines | intros related].
  apply refines_refl.
Qed.

End Steps.

Lemma createEntity_one_more fuel :
  forall da entity,
    refines (createEntity fuel da entity) (createEntity (S fuel) da entity).
Proof.
  induction fuel as [| fuel IH]; intros da entity.
  - intros w Hrun. exfalso. apply Hrun. reflexivity.
  - change (refines (createEntityBody (createEntity fuel) da entity)
                    (createEntityBody (createEntity (S fuel)) da entity)).
    apply createEntityBody_refines. exact IH.
Qed.

(** A create that did not run out of fuel is not changed by more fuel: its
    outcome and its effect on the world are those of the program. *)
Lemma createEntity_more_fuel fuel fuel' da entity :
  (fuel <= fuel')%nat ->
  refines (createEntity fuel da entity) (createEntity fuel' da entity).
Proof.
  induction 1 as [| fuel' _ IH]; [apply refines_refl |].
  intros w Hrun. rewrite <- (IH w Hrun).
  apply createEntity_one_more. rewrite (IH w Hrun). exact Hrun.
Qed.

Lemma updateEntityById_more_fuel fuel fuel' da id entityToSave plugin :
  (fuel <= fuel')%nat ->
  refines (updateEntityById fuel da id entityToSave plugin)
          (updateEntityById fuel' da id entityToSave plugin).
Proof.
  intros Hle. unfold updateEntityById.
  destruct (negb (Js.truthy id)); [apply refines_refl |].
  apply refines_bind; [apply refines_refl | intros entity].
  destruct (negb (Js.truthy entity)); [apply refines_refl |].
  destruct (negb (Js.truthy (getEntityPartChanges entity entityToSave)));
    [apply refines_refl |].
  apply refines_bind; [apply refines_refl | intros updatedRow].
  apply refines_bind; [| intros; apply refines_refl].
  apply refines_foldM. intros acc p.
  apply updateManyRelation_refines. intros d e.
  apply createEntity_more_fuel, Hle.
Qed.

End Fuel.

(** ** Enough fuel *)

Section Depth.

Lemma depth_lookup_le k fs :
  (Js.depth (Js.lookup k fs)
   <= fold_right (fun kv d => Nat.max (Js.depth (snd kv)) d) 0 fs)%nat.
Proof.
  induction fs as [| [k' x] fs IH]; cbn [Js.lookup fold_right snd]; [cbn; lia |].
  destruct (String.eqb k' k); lia.
Qed.

Lemma depth_indexed i xs :
  fold_right (fun kv d => Nat.max (Js.depth (snd kv)) d) 0%nat (Js.indexed i xs)
  = fold_right (fun x d => Nat.max (Js.depth x) d) 0%nat xs.
Proof.
  revert i. induction xs as [| x xs IH]; intros i; cbn [Js.indexed fold_right snd].
  - reflexivity.
  - rewrite IH. reflexivity.
Qed.

Lemma depth_getProp v k :
  Js.isObject (Js.getProp v k) = true ->
  (Js.depth (Js.getProp v k) < Js.depth v)%nat.
Proof.
  unfold Js.getProp. destruct v as [| | b | n | s | xs | fs];
    cbn [Js.entries Js.lookup Js.isObject]; try discriminate; intros _.
  - pose proof (depth_lookup_le k (Js.indexed 0 xs)) as Hle.
    rewrite depth_indexed in Hle. cbn [Js.depth]. lia.
  - pose proof (depth_lookup_le k fs) as Hle. cbn [Js.depth]. lia.
Qed.

Lemma depth_element x xs : In x xs -> (Js.depth x < Js.depth (VArr xs))%nat.
Proof.
  cbn [Js.depth]. induction xs as [| y xs IH]; intros Hin; [destruct Hin |].
  cbn [fold_right]. destruct Hin as [-> | Hin]; [lia |].
  specialize (IH Hin). lia.
Qed.

Lemma depth_assign_le k x fs :
  (fold_right (fun kv d => Nat.max (Js.depth (snd kv)) d) 0 (Js.assign k x fs)
   <= Nat.max (Js.depth x)
        (fold_right (fun kv d => Nat.max (Js.depth (snd kv)) d) 0 fs))%nat.
Proof.
  induction fs as [| [k' y] fs IH]; cbn [Js.assign fold_right snd]; [lia |].
  destruct (String.eqb k' k); cbn [fold_right snd]; lia.
Qed.

Lemma depth_writeProp v k x v' :
  writeProp v k x = Ok v' -> Js.depth x = 0%nat ->
  (Js.depth v' <= Js.depth v)%nat.
Proof.
  intros Hw Hx. destruct v as [| | b | n | s | xs | fs]; try discriminate Hw;
    injection Hw as <-; cbn [Js.depth].
  - pose proof (depth_assign_le k x (Js.indexed 0 xs)) as Hle.
    rewrite depth_indexed in Hle. lia.
  - pose proof (depth_assign_le k x fs) as Hle. lia.
Qed.

Lemma lookup_assign_other k k' x fs :
  k <> k' -> Js.lookup k' (Js.assign k x fs) = Js.lookup k' fs.
Proof.
  intros Hne. induction fs as [| [k0 y] fs IH]; cbn [Js.assign Js.lookup].
  - destruct (String.eqb_spec k k'); [contradiction | reflexivity].
  - destruct (String.eqb_spec k0 k) as [-> | Hk]; cbn [Js.lookup].
    + destruct (String.eqb_spec k k'); [contradiction | reflexivity].
    + rewrite IH. reflexivity.
Qed.

Lemma getProp_writeProp_other v k x v' k' :
  writeProp v k x = Ok v' -> k <> k' -> Js.getProp v' k' = Js.getProp v k'.
Proof.
  intros Hw Hne. destruct v as [| | b | n | s | xs | fs]; try discriminate Hw;
    injection Hw as <-; unfold Js.getProp; cbn [Js.entries];
    apply lookup_assign_other, Hne.
Qed.

Lemma getProp_pushProp_other v k x v' k' :
  pushProp v k x = Ok v' -> k <> k' -> Js.getProp v' k' = Js.getProp v k'.
Proof.
  unfold pushProp. destruct (Js.getProp v k); try discriminate.
  apply getProp_writeProp_other.
Qed.

End Depth.

Section EnoughFuel.
Context `{Externals}.

(** Entities come back from the mapper with a scalar id, no relation
    property is called "id", and the mapper does not itself report the
    model's fuel error. *)
Hypothesis mapped_flat :
  forall model row keep v, mapDbRowToEntity model row keep = Ok v -> flatId v.
Hypothesis relation_not_id : forall p, isRelationProperty p = true -> code p <> "id".
Hypothesis mapper_total :
  forall model row keep, mapDbRowToEntity model row keep <> Err EOutOfFuel.

Lemma fuelled_ret {A} (P : A -> Prop) a : P a -> fuelled P (ret a).
Proof. intros Ha w. exact Ha. Qed.

Lemma fuelled_raise {A} (P : A -> Prop) e : e <> EOutOfFuel -> fuelled P (raise e).
Proof. intros He w. exact He. Qed.

Lemma fuelled_bind {A B} (P : A -> Prop) (Q : B -> Prop) (c : M A) (k : A -> M B) :
  fuelled P c -> (forall a, P a -> fuelled Q (k a)) -> fuelled Q (bind c k).
Proof.
  intros Hc Hk w. unfold bind. specialize (Hc w).
  destruct (c w) as [[a | e] w1]; cbn [fst] in *.
  - apply Hk, Hc.
  - exact Hc.
Qed.

Lemma fuelled_foldM {A B} (I : B -> Prop) (f : B -> A -> M B) (l : list A) :
  (forall acc x, In x l -> I acc -> fuelled I (f acc x)) ->
  forall acc, I acc -> fuelled I (foldM f acc l).
Proof.
  induction l as [| x r IH]; intros Hf acc Hacc; cbn [foldM].
  - apply fuelled_ret, Hacc.
  - apply (fuelled_bind I).
    + apply Hf; [left; reflexivity | exact Hacc].
    + intros acc' Hacc'. apply IH; [| exact Hacc'].
      intros a y Hy. apply Hf. right. exact Hy.
Qed.

Lemma fuelled_getDataAccessor target :
  fuelled (fun _ => True) (Server.getDataAccessor target).
Proof.
  intros w. unfold Server.getDataAccessor, bind, log. cbn.
  destruct target as [c |]; [destruct (accessors w !! c) |]; cbn; auto; discriminate.
Qed.

Lemma fuelled_findById da id : fuelled (fun _ => True) (DataAccessor.findById da id).
Proof. intros w. exact I. Qed.

Lemma fuelled_create da row : fuelled (fun _ => True) (DataAccessor.create da row).
Proof.
  intros w. unfold DataAccessor.create, bind, log. cbn.
  destruct (Js.isNullOrUndefined (Js.lookup "id" row)); exact I.
Qed.

Lemma fuelled_updateById da id row :
  fuelled (fun _ => True) (DataAccessor.updateById da id row).
Proof. intros w. exact I. Qed.

Lemma fuelled_query s : fuelled (fun _ => True) (Server.queryDatabaseObject s).
Proof.
  intros w. unfold Server.queryDatabaseObject, bind, log. cbn.
  destruct (isSelect s); exact I.
Qed.

Lemma fuelled_readProp v k : fuelled (fun _ => True) (lift (readProp v k)).
Proof.
  intros w. unfold lift, readProp. cbn.
  destruct (Js.isNullOrUndefined v); [discriminate | exact I].
Qed.

Lemma fuelled_writeProp v k x :
  fuelled (fun v' => writeProp v k x = Ok v') (lift (writeProp v k x)).
Proof.
  intros w. unfold lift. cbn. destruct (writeProp v k x) eqn:E; [reflexivity |].
  destruct v; try discriminate E; injection E as <-; discriminate.
Qed.

Lemma relationPropertiesOf_relation model entity p :
  In p (relationPropertiesOf model entity) -> isRelationProperty p = true.
Proof.
  unfold relationPropertiesOf. rewrite in_flat_map.
  intros (k & _ & Hp). destruct (findProperty model k) as [q |]; [| destruct Hp].
  destruct (isRelationProperty q) eqn:E; [| destruct Hp].
  destruct Hp as [<- | []]. exact E.
Qed.

Section Steps.
Variable create : RpdDataModel -> Value -> M Value.
Variable n : nat.
Hypothesis create_fuelled :
  forall da e, (Js.depth e < n)%nat -> fuelled flatId (create da e).

Lemma createOneRelation_fuelled entity row p :
  (Js.depth entity <= n)%nat ->
  fuelled (fun _ => True) (createOneRelation create entity row p).
Proof.
  intros Hdepth. unfold createOneRelation.
  destruct (Js.isObject (Js.getProp entity (code p))) eqn:Hobject;
    [| apply fuelled_ret; exact I].
  destruct (negb (Js.truthy (Js.getProp (Js.getProp entity (code p)) "id")));
    [| apply fuelled_ret; exact I].
  apply (fuelled_bind (fun _ => True)); [apply fuelled_getDataAccessor | intros da _].
  apply (fuelled_bind flatId).
  - apply create_fuelled. pose proof (depth_getProp _ _ Hobject). lia.
  - intros newTargetEntity _.
    apply (fuelled_bind (fun _ => True)); [apply fuelled_readProp | intros newId _].
    apply fuelled_ret. exact I.
Qed.

Lemma linked_fuelled da (targetEntity : Value) p id :
  fuelled (fun _ => True)
    (DataAccessor.updateById da (Js.getProp targetEntity "id")
       [(Js.keyOf (selfIdColumnName p), id)] ;;;
     lift (writeProp targetEntity (Js.keyOf (selfIdColumnName p)) id)).
Proof.
  apply (fuelled_bind (fun _ => True)); [apply fuelled_updateById | intros _ _].
  intros w. pose proof (fuelled_writeProp targetEntity
                          (Js.keyOf (selfIdColumnName p)) id w) as Hw.
  destruct (fst (lift (writeProp targetEntity (Js.keyOf (selfIdColumnName p)) id) w));
    [exact I | exact Hw].
Qed.

Lemma existing_fuelled da p id relatedEntityId :
  fuelled (fun _ => True)
    (targetEntity <- DataAccessor.findById da relatedEntityId ;;
     if negb (Js.truthy targetEntity)
     then raise (ERelatedEntityNotFound relatedEntityId (code p))
     else if Js.hasText (linkTableName p) then
       Server.queryDatabaseObject (insertLink p id relatedEntityId) ;;;
       ret targetEntity
     else
       DataAccessor.updateById da (Js.getProp targetEntity "id")
         [(Js.keyOf (selfIdColumnName p), id)] ;;;
       lift (writeProp targetEntity (Js.keyOf (selfIdColumnName p)) id)).
Proof.
  apply (fuelled_bind (fun _ => True)); [apply fuelled_findById | intros targetEntity _].
  destruct (negb (Js.truthy targetEntity)); [apply fuelled_raise; discriminate |].
  destruct (Js.hasText (linkTableName p)).
  - apply (fuelled_bind (fun _ => True)); [apply fuelled_query | intros _ _].
    apply fuelled_ret. exact I.
  - apply linked_fuelled.
Qed.

Lemma createRelated_fuelled newEntity p da x :
  flatId newEntity ->
  (Js.depth x < n)%nat ->
  fuelled (fun _ => True) (createRelated create newEntity p da x).
Proof.
  intros Hflat Hdepth. unfold createRelated.
  destruct (Js.isObject x) eqn:Hobject; [| apply existing_fuelled].
  destruct (negb (Js.truthy (Js.getProp x "id"))); [| apply existing_fuelled].
  apply (fuelled_bind (fun targetEntity => (Js.depth targetEntity < n)%nat)).
  - destruct (negb (Js.hasText (linkTableName p))).
    + intros w. pose proof (fuelled_writeProp x (Js.keyOf (selfIdColumnName p))
                              (Js.getProp newEntity "id") w) as Hw.
      destruct (fst (lift (writeProp x (Js.keyOf (selfIdColumnName p))
                             (Js.getProp newEntity "id")) w)) as [x' | e];
        [| exact Hw].
      pose proof (depth_writeProp _ _ _ _ Hw Hflat). lia.
    + apply fuelled_ret. exact Hdepth.
  - intros targetEntity Htarget.
    apply (fuelled_bind flatId); [apply create_fuelled, Htarget |].
    intros newTargetEntity _.
    apply (fuelled_bind (fun _ => True)); [| intros; apply fuelled_ret; exact I].
    destruct (Js.hasText (linkTableName p)); [| apply fuelled_ret; exact I].
    apply (fuelled_bind (fun _ => True)); [apply fuelled_readProp | intros newId _].
    apply fuelled_query.
Qed.

Lemma createManyRelation_fuelled entity newEntity p :
  isRelationProperty p = true ->
  (Js.depth entity <= n)%nat ->
  flatId newEntity ->
  fuelled flatId (createManyRelation create entity newEntity p).
Proof.
  intros Hrelation Hdepth Hflat. unfold createManyRelation.
  pose proof (relation_not_id p Hrelation) as Hcode.
  apply (fuelled_bind flatId).
  { intros w. pose proof (fuelled_writeProp newEntity (code p) (VArr []) w) as Hw.
    destruct (fst (lift (writeProp newEntity (code p) (VArr [])) w)) as [v' | e];
      [| exact Hw].
    unfold flatId. rewrite (getProp_writeProp_other _ _ _ _ _ Hw Hcode). exact Hflat. }
  intros newEntity' Hflat'.
  apply (fuelled_bind (fun _ => True)); [apply fuelled_getDataAccessor | intros da _].
  destruct (Js.getProp entity (code p)) as [| | b | z | s | items | fs] eqn:Hitems;
    try (apply fuelled_raise; discriminate).
  assert (Hlist : (Js.depth (VArr items) < Js.depth entity)%nat).
  { rewrite <- Hitems. apply depth_getProp. rewrite Hitems. reflexivity. }
  apply fuelled_foldM; [| exact Hflat'].
  intros acc x Hx Hacc.
  pose proof (depth_element x items Hx) as Hxdepth.
  apply (fuelled_bind (fun _ => True)).
  - apply createRelated_fuelled; [exact Hacc | lia].
  - intros related _ w.
    unfold lift. cbn [fst]. destruct (pushProp acc (code p) related) as [v' | e] eqn:E.
    + unfold flatId. rewrite (getProp_pushProp_other _ _ _ _ _ E Hcode). exact Hacc.
    + unfold pushProp in E. destruct (Js.getProp acc (code p)); try (injection E as <-; discriminate).
      destruct acc; try discriminate E; injection E as <-; discriminate.
Qed.

Lemma createEntityBody_fuelled da entity :
  (Js.depth entity <= n)%nat ->
  fuelled flatId (createEntityBody create da entity).
Proof.
  intros Hdepth. unfold createEntityBody.
  apply (fuelled_bind (fun _ => True)).
  { apply fuelled_foldM; [| exact I]. intros acc p _ _.
    apply createOneRelation_fuelled, Hdepth. }
  intros row _.
  apply (fuelled_bind (fun _ => True)); [apply fuelled_create | intros newRow _].
  apply (fuelled_bind flatId).
  { intros w. unfold lift. cbn [fst].
    destruct (mapDbRowToEntity (Some (DataAccessor.getModel da)) (VObj newRow) false)
      as [v | e] eqn:E.
    - exact (mapped_flat _ _ _ _ E).
    - intros ->. exact (mapper_total _ _ _ E). }
  intros newEntity Hflat.
  apply fuelled_foldM; [| exact Hflat].
  intros acc p Hp Hacc.
  apply createManyRelation_fuelled; [| exact Hdepth | exact Hacc].
  unfold manyRelationProperties in Hp. apply filter_In in Hp as [Hp _].
  exact (relationPropertiesOf_relation _ _ _ Hp).
Qed.

End Steps.

(** With scalar ids, a create needs no more fuel than the nesting depth of
    the entity plus one: it then ends as the program does, by returning or by
    one of the program's own errors. *)
Lemma createEntity_enough_fuel fuel :
  forall da entity,
    (Js.depth entity < fuel)%nat -> fuelled flatId (createEntity fuel da entity).
Proof.
  induction fuel as [| fuel IH]; intros da entity Hdepth; [lia |].
  cbn [createEntity]. apply (createEntityBody_fuelled _ fuel); [exact IH | lia].
Qed.

End EnoughFuel.

(** ** Assigning a key *)

Section Assigning.

Lemma lookup_assign_same k x fs : Js.lookup k (Js.assign k x fs) = x.
Proof.
  induction fs as [| [k' y] fs IH]; cbn [Js.assign Js.lookup].
  - rewrite String.eqb_refl. reflexivity.
  - destruct (String.eqb_spec k' k) as [-> | Hne]; cbn [Js.lookup].
    + rewrite String.eqb_refl. reflexivity.
    + destruct (String.eqb_spec k' k); [contradiction | exact IH].
Qed.

End Assigning.


(** * Further properties *)

(** ** What the finders leave alone, and how much they ask *)

Section EngineFrame.
Context `{Externals}.
Variable R : World -> World -> Prop.
Hypothesis R_refl : forall w, R w w.
Hypothesis R_trans : forall a b c, R a b -> R b c -> R a c.
Hypothesis R_getDataAccessor : forall target, keeps R (Server.getDataAccessor target).
Hypothesis R_find : forall da options, keeps R (DataAccessor.find da options).
Hypothesis R_select :
  forall t column ids,
    keeps R (Server.queryDatabaseObject (SelectWhereAny t column ids)).

Ltac reading :=
  repeat first
    [ apply (keeps_ret R R_refl)
    | apply (keeps_raise R R_refl)
    | apply (keeps_lift R R_refl)
    | apply (keeps_getModel R R_refl)
    | apply R_getDataAccessor
    | apply R_find
    | apply R_select
    | assumption
    | apply (keeps_bind R R_trans); [| intros ?]
    | apply (keeps_mapM R R_refl R_trans); intros ?
    | apply (keeps_foldM R R_refl R_trans); intros ? ?
    | match goal with
      | |- keeps R (if ?b then _ else _) => destruct b
      | |- keeps R (match ?x with _ => _ end) => destruct x
      | |- keeps R (let '(_, _) := ?x in _) => destruct x
      end ].

Lemma replaceExistence_keeps model operator field fs :
  keeps R (replaceExistence model operator field fs).
Proof.
  unfold replaceExistence, replaceBySubquery, replaceBySelfIds, replaceByLinks.
  reading.
Qed.

Lemma replaceFilter_keeps model f : keeps R (replaceFilter model f).
Proof.
  induction f as [field operator value | operator fs IH | operator field fs _]
    using Filter_nested_ind.
  - apply (keeps_ret R R_refl).
  - simpl. apply (keeps_bind R R_trans); [| intros fs'; apply (keeps_ret R R_refl)].
    induction IH as [| x r Hx _ IHr]; [apply (keeps_ret R R_refl) |].
    apply (keeps_bind R R_trans); [exact Hx | intros y].
    apply (keeps_bind R R_trans); [exact IHr | intros ys].
    apply (keeps_ret R R_refl).
  - simpl. apply replaceExistence_keeps.
Qed.

Lemma replaceFilters_keeps model fs :
  keeps R (replaceFiltersWithFiltersOperator model fs).
Proof.
  apply (keeps_mapM R R_refl R_trans). intros f. apply replaceFilter_keeps.
Qed.

Lemma expandRelation_keeps model entityIds entities p :
  keeps R (expandRelation model entityIds entities p).
Proof.
  unfold expandRelation, findManyRelationLinksViaLinkTable,
    findManyRelatedEntitiesViaIdPropertyCode,
    findOneRelatedEntitiesViaIdPropertyCode, attachLinked, attachRelated.
  reading.
Qed.

Lemma selectProperty_keeps model acc c : keeps R (selectProperty model acc c).
Proof. unfold selectProperty. reading. Qed.

Lemma findEntities_keeps da options : keeps R (findEntities da options).
Proof.
  unfold findEntities.
  apply (keeps_bind R R_trans); [| intros [fields relations]].
  { apply (keeps_foldM R R_refl R_trans). intros acc c. apply selectProperty_keeps. }
  apply (keeps_bind R R_trans); [apply replaceFilters_keeps | intros fs'].
  apply (keeps_bind R R_trans); [apply R_find | intros [| e entities]].
  - apply (keeps_ret R R_refl).
  - apply (keeps_bind R R_trans); [| intros found].
    + apply (keeps_foldM R R_refl R_trans). intros acc p.
      apply expandRelation_keeps.
    + apply (keeps_mapM R R_refl R_trans). intros x. apply (keeps_lift R R_refl).
Qed.

Lemma findEntity_keeps da options : keeps R (findEntity da options).
Proof.
  unfold findEntity. apply (keeps_bind R R_trans); [apply findEntities_keeps |].
  intros l. apply (keeps_ret R R_refl).
Qed.

End EngineFrame.

Section ReadOnly.
Context `{Externals}.

Lemma readOnly_refl w : readOnly w w.
Proof.
  repeat split. exists []. split; [symmetry; apply app_nil_r | reflexivity].
Qed.

Lemma readOnly_trans a b c : readOnly a b -> readOnly b c -> readOnly a c.
Proof.
  intros (A1 & A2 & A3 & A4 & A5 & A6 & l & Al & Hl)
         (B1 & B2 & B3 & B4 & B5 & B6 & m & Bm & Hm).
  repeat split; try congruence.
  exists (l ++ m). split.
  - rewrite Bm, Al. symmetry. apply app_assoc.
  - unfold reads in *. rewrite forallb_app, Hl, Hm. reflexivity.
Qed.

Lemma readOnly_logged c w : isWrite c = false -> readOnly w (logged c w).
Proof.
  intros E. repeat split. exists [c]. split; [reflexivity |].
  unfold reads. simpl. rewrite E. reflexivity.
Qed.

Lemma readOnly_getDataAccessor target : keeps readOnly (Server.getDataAccessor target).
Proof.
  intros w. unfold Server.getDataAccessor, bind. cbn.
  destruct target as [c |]; [destruct (accessors _ !! c) |];
    apply (readOnly_logged (CGetDataAccessor _)); reflexivity.
Qed.

Lemma readOnly_find da options : keeps readOnly (DataAccessor.find da options).
Proof. intros w. apply (readOnly_logged (CFind _ _)). reflexivity. Qed.

Lemma readOnly_select t column ids :
  keeps readOnly (Server.queryDatabaseObject (SelectWhereAny t column ids)).
Proof. intros w. apply (readOnly_logged (CQuery _)). reflexivity. Qed.

(** X1.  [findEntities], [findEntity] and [findById] never write.  Whatever
    the options, and whether they succeed or fail, the registry, the
    accessors, the rows, the link rows, the id counter and the events are as
    before, and the journal has only gained calls that are not writes:
    accessor requests, finds and [SELECT] statements. *)
Theorem finders_never_write dataAccessor options id keep w :
  readOnly w (snd (findEntities dataAccessor options w))
  /\ readOnly w (snd (findEntity dataAccessor options w))
  /\ readOnly w (snd (findById dataAccessor id keep w)).
Proof.
  split; [| split].
  - apply findEntities_keeps;
      [exact readOnly_refl | exact readOnly_trans | exact readOnly_getDataAccessor
      | exact readOnly_find | exact readOnly_select].
  - apply findEntity_keeps;
      [exact readOnly_refl | exact readOnly_trans | exact readOnly_getDataAccessor
      | exact readOnly_find | exact readOnly_select].
  - unfold findById. apply findEntity_keeps;
      [exact readOnly_refl | exact readOnly_trans | exact readOnly_getDataAccessor
      | exact readOnly_find | exact readOnly_select].
Qed.

End ReadOnly.

Section Budget.
Context `{Externals}.

Lemma within_le {A} n m (c : M A) : (n <= m)%nat -> within n c -> within m c.
Proof.
  intros Hle Hc w. destruct (Hc w) as (calls & E & Hn).
  exists calls. split; [exact E | lia].
Qed.

Lemma within_silent {A} (c : M A) : silent c -> within 0 c.
Proof.
  intros Hc w. exists []. rewrite (Hc w). split; [symmetry; apply app_nil_r | reflexivity].
Qed.

Lemma within_ret {A} (a : A) : within 0 (ret a).
Proof. apply within_silent, silent_ret. Qed.

Lemma within_raise {A} e : within 0 (@raise A e).
Proof. apply within_silent. intros w. reflexivity. Qed.

Lemma within_bind_with {A B} n m (c : M A) (k : A -> M B) (P : A -> Prop) :
  within n c -> returns c P -> (forall a, P a -> within m (k a)) ->
  within (n + m) (bind c k).
Proof.
  intros Hc Hp Hk w. unfold bind. destruct (Hc w) as (calls & E & Hn).
  destruct (c w) as [[a | e] w1] eqn:Ec; cbn [snd] in *.
  - destruct (Hk a (Hp _ _ _ Ec) w1) as (calls' & E' & Hm).
    exists (calls ++ calls'). split.
    + rewrite E', E. symmetry. apply app_assoc.
    + rewrite length_app. lia.
  - exists calls. split; [exact E | lia].
Qed.

Lemma within_bind {A B} n m (c : M A) (k : A -> M B) :
  within n c -> (forall a, within m (k a)) -> within (n + m) (bind c k).
Proof.
  intros Hc Hk. apply within_bind_with with (P := fun _ => True); auto.
  intros w a w' _. exact I.
Qed.

Lemma within_foldM {A B} n (f : B -> A -> M B) (l : list A) :
  (forall acc x, within n (f acc x)) ->
  forall acc, within (length l * n) (foldM f acc l).
Proof.
  intros Hf. induction l as [| x r IH]; intros acc; simpl.
  - apply within_ret.
  - apply within_bind; [apply Hf | intros acc'; apply IH].
Qed.

Lemma within_getDataAccessor target : within 1 (Server.getDataAccessor target).
Proof.
  intros w. exists [CGetDataAccessor target]. split; [| reflexivity].
  unfold Server.getDataAccessor, bind. cbn.
  destruct target as [c |]; [destruct (accessors _ !! c) |]; reflexivity.
Qed.

Lemma within_find da options : within 1 (DataAccessor.find da options).
Proof. intros w. eexists [_]. split; reflexivity. Qed.

Lemma within_select t column ids :
  within 1 (Server.queryDatabaseObject (SelectWhereAny t column ids)).
Proof. intros w. eexists [_]. split; reflexivity. Qed.

Lemma within_fetch target options :
  within 2 (dataAccessor <- Server.getDataAccessor target ;;
            DataAccessor.find dataAccessor options).
Proof.
  apply (within_bind 1 1); [apply within_getDataAccessor | intros da; apply within_find].
Qed.

Lemma replaceExistence_within model operator field fs :
  within 3 (replaceExistence model operator field fs).
Proof.
  unfold replaceExistence.
  destruct (findProperty model field) as [p |];
    [| apply (within_le 0); [lia | apply within_raise]].
  destruct (negb (isRelationProperty p));
    [apply (within_le 0); [lia | apply within_raise] |].
  destruct fs as [| f0 fs0]; [apply (within_le 0); [lia | apply within_raise] |].
  destruct (isOne p).
  - destruct (relatedEntityIdFilter (f0 :: fs0)) as [[inner value] |].
    + apply (within_le 0); [lia | apply within_ret].
    + unfold replaceBySubquery.
      apply (within_bind 1 2); [apply within_getDataAccessor | intros da].
      apply (within_bind 1 1); [apply within_find | intros l].
      apply (within_le 0); [lia | apply within_ret].
  - destruct (negb (Js.hasText (linkTableName p))).
    + unfold replaceBySelfIds.
      destruct (negb (Js.hasText (selfIdColumnName p)));
        [apply (within_le 0); [lia | apply within_raise] |].
      apply (within_bind 1 2); [apply within_getDataAccessor | intros da].
      apply (within_bind 1 1); [apply within_find | intros l].
      apply (within_le 0); [lia | apply within_ret].
    + unfold replaceByLinks.
      destruct (negb (Js.hasText (selfIdColumnName p)));
        [apply (within_le 0); [lia | apply within_raise] |].
      destruct (negb (Js.hasText (targetIdColumnName p)));
        [apply (within_le 0); [lia | apply within_raise] |].
      apply (within_bind 1 2); [apply within_getDataAccessor | intros da].
      apply (within_bind 1 1); [apply within_find | intros l].
      apply (within_bind 1 0); [apply within_select | intros links].
      apply within_ret.
Qed.

Lemma replaceFilter_within model f :
  within (3 * existenceNodes f) (replaceFilter model f).
Proof.
  induction f as [field operator value | operator fs IH | operator field fs _]
    using Filter_nested_ind.
  - apply within_ret.
  - simpl replaceFilter.
    match goal with
    | |- within ?n _ => replace n with (n + 0)%nat by lia
    end.
    apply within_bind; [| intros fs'; apply within_ret].
    induction IH as [| x r Hx _ IHr]; [apply within_ret |].
    cbn [existenceNodes] in *.
    match goal with
    | |- within (3 * (?a + ?b)) _ => replace (3 * (a + b))%nat with (3 * a + (3 * b + 0))%nat by lia
    end.
    apply within_bind; [exact Hx | intros y].
    apply within_bind; [exact IHr | intros ys]. apply within_ret.
  - apply replaceExistence_within.
Qed.

Lemma replaceFilters_within model fs :
  within (3 * existenceNodesOf fs) (replaceFiltersWithFiltersOperator model fs).
Proof.
  unfold replaceFiltersWithFiltersOperator.
  induction fs as [| x r IH]; [apply within_ret |].
  cbn [existenceNodesOf fold_right mapM]. fold (existenceNodesOf r).
  match goal with
  | |- within (3 * (?a + ?b)) _ => replace (3 * (a + b))%nat with (3 * a + (3 * b + 0))%nat by lia
  end.
  apply within_bind; [apply replaceFilter_within | intros y].
  apply within_bind; [exact IH | intros ys]. apply within_ret.
Qed.

Lemma attachLinked_silent targetModel p links entity :
  silent (attachLinked targetModel p links entity).
Proof.
  unfold attachLinked.
  apply silent_bind; [| intros; apply silent_ret].
  apply silent_mapM. intros; apply silent_lift.
Qed.

Lemma expandRelation_within model entityIds entities p :
  within 3 (expandRelation model entityIds entities p).
Proof.
  unfold expandRelation. destruct (Js.hasText (linkTableName p)).
  - apply (within_bind 0 3); [apply within_silent; intros w; reflexivity |].
    intros [targetModel |]; [| apply (within_le 0); [lia | apply within_ret]].
    destruct (isMany p); [| apply (within_le 0); [lia | apply within_ret]].
    apply (within_bind 3 0).
    + unfold findManyRelationLinksViaLinkTable.
      apply (within_bind 1 2); [apply within_select | intros links].
      apply (within_bind 1 1); [apply within_getDataAccessor | intros da].
      apply (within_bind 1 0); [apply within_find | intros l]. apply within_ret.
    + intros links. apply within_silent, silent_mapM.
      intros e. apply attachLinked_silent.
  - apply (within_le 2); [lia |].
    apply (within_bind 2 0).
    + destruct (related_fetch_shape model p entityIds entities) as [options ->].
      apply within_fetch.
    + intros related. apply within_silent.
      apply silent_bind; [intros w; reflexivity | intros tm].
      apply silent_mapM. intros e. apply attachRelated_silent.
Qed.

Lemma selectProperty_silent model acc c : silent (selectProperty model acc c).
Proof.
  unfold selectProperty. destruct acc as [fields relations].
  destruct (findProperty model c) as [p |]; [| intros w; reflexivity].
  destruct (isRelationProperty p);
    [destruct (isOne p && negb (Js.hasText (linkTableName p)));
     [destruct (negb (Js.hasText (targetIdColumnName p))) |] |];
    intros w; reflexivity.
Qed.

Lemma selectProperty_relations model acc c :
  returns (selectProperty model acc c)
    (fun acc' => (length (snd acc') <= S (length (snd acc)))%nat).
Proof.
  unfold selectProperty. destruct acc as [fields relations].
  destruct (findProperty model c) as [p |]; [| apply returns_raise].
  destruct (isRelationProperty p);
    [destruct (isOne p && negb (Js.hasText (linkTableName p)));
     [destruct (negb (Js.hasText (targetIdColumnName p))) |] |];
    try apply returns_raise; apply returns_ret; cbn [snd];
    rewrite ?length_app; simpl; lia.
Qed.

Lemma selection_relations model l :
  forall acc,
    returns (foldM (selectProperty model) acc l)
      (fun acc' => (length (snd acc') <= length (snd acc) + length l)%nat).
Proof.
  induction l as [| c r IH]; intros acc; simpl.
  - apply returns_ret. lia.
  - eapply returns_bind_with; [apply selectProperty_relations |].
    intros acc' Hacc'. intros w a w' E. specialize (IH acc' w a w' E).
    simpl in *. lia.
Qed.

Lemma selection_silent model l acc : silent (foldM (selectProperty model) acc l).
Proof.
  revert acc. induction l as [| c r IH]; intros acc; simpl.
  - apply silent_ret.
  - apply silent_bind; [apply selectProperty_silent | intros acc'; apply IH].
Qed.

(** X2.  The number of calls [findEntities] issues does not depend on the
    number of rows found: there are at most three per relational filter node
    the rewriter meets, one find on the base collection, and three per
    selected property. *)
Theorem findEntities_call_budget dataAccessor options w :
  exists calls,
    journal (snd (findEntities dataAccessor options w)) = journal w ++ calls
    /\ (length calls
        <= 3 * existenceNodesOf (filters options) + 1
           + 3 * length (selected options))%nat.
Proof.
  revert w.
  change (within (3 * existenceNodesOf (filters options) + 1
                  + 3 * length (selected options))
            (findEntities dataAccessor options)).
  unfold findEntities.
  replace (3 * existenceNodesOf (filters options) + 1
           + 3 * length (selected options))%nat
    with (0 + (3 * existenceNodesOf (filters options)
               + (1 + (length (selected options) * 3 + 0))))%nat by lia.
  eapply within_bind_with;
    [apply within_silent, selection_silent | apply selection_relations |].
  intros [fields relations] Hlen. cbn [snd length] in Hlen.
  apply within_bind; [apply replaceFilters_within | intros fs'].
  apply within_bind; [apply within_find | intros [| e entities]].
  - apply (within_le 0); [lia | apply within_ret].
  - apply within_bind.
    + apply (within_le (length relations * 3)); [nia |].
      apply within_foldM. intros acc p. apply expandRelation_within.
    + intros found. apply within_silent, silent_mapM. intros x. apply silent_lift.
Qed.

End Budget.

(** ** The rewriter: fixed point, rejections, and what its filters select *)

Section RewriterMore.
Context `{Externals}.

Lemma replaceFilter_relationFree model f w :
  relationFree f = true -> replaceFilter model f w = (Ok f, w).
Proof.
  revert w.
  induction f as [field operator value | operator fs IH | operator field fs _]
    using Filter_nested_ind; intros w Hfree.
  - reflexivity.
  - simpl in *.
    assert (Heach :
              (fix each (l : list Filter) : M (list Filter) :=
                 match l with
                 | [] => ret []
                 | x :: r =>
                     y <- replaceFilter model x ;; ys <- each r ;; ret (y :: ys)
                 end) fs w = (Ok fs, w)).
    { revert Hfree. induction IH as [| x r Hx _ IHr]; intros Hfree; [reflexivity |].
      apply andb_prop in Hfree as [Hfx Hfr].
      erewrite bind_ok by (apply Hx; exact Hfx).
      erewrite bind_ok by (apply IHr; exact Hfr).
      reflexivity. }
    erewrite bind_ok by exact Heach. reflexivity.
  - discriminate Hfree.
Qed.

Lemma replaceFilters_relationFree model fs w :
  forallb relationFree fs = true ->
  replaceFiltersWithFiltersOperator model fs w = (Ok fs, w).
Proof.
  unfold replaceFiltersWithFiltersOperator.
  induction fs as [| x r IH]; intros Hfree; [reflexivity |].
  simpl in Hfree. apply andb_prop in Hfree as [Hx Hr]. simpl.
  erewrite bind_ok by (apply replaceFilter_relationFree; exact Hx).
  erewrite bind_ok by (apply IH; exact Hr).
  reflexivity.
Qed.

Lemma replaceFilters_free model fs :
  returns (replaceFiltersWithFiltersOperator model fs)
    (fun fs' => forallb relationFree fs' = true).
Proof.
  unfold replaceFiltersWithFiltersOperator.
  induction fs as [| x r IH]; simpl.
  - apply returns_ret. reflexivity.
  - eapply returns_bind_with; [apply replaceFilter_rewritten | intros y [Hy _]].
    eapply returns_bind_with; [exact IH | intros ys Hys].
    apply returns_ret. simpl. rewrite Hy, Hys. reflexivity.
Qed.

(** X5.  What the rewriter returns is a fixed point of the rewriter:
    rewriting it again, for any model and in any world, returns it unchanged
    and leaves the world as it is. *)
Theorem rewriter_output_is_a_fixed_point model fs w fs' w' :
  replaceFiltersWithFiltersOperator model fs w = (Ok fs', w') ->
  forall model' w2,
    replaceFiltersWithFiltersOperator model' fs' w2 = (Ok fs', w2).
Proof.
  intros Hrun model' w2. apply replaceFilters_relationFree.
  exact (replaceFilters_free model fs w fs' w' Hrun).
Qed.

Lemma replaceFilters_head_fails model f rest w e w' :
  replaceFilter model f w = (Err e, w') ->
  replaceFiltersWithFiltersOperator model (f :: rest) w = (Err e, w').
Proof.
  intros E. unfold replaceFiltersWithFiltersOperator. simpl.
  apply bind_err. exact E.
Qed.

(** X6.  A relational filter at the head of the list is rejected with the
    world as it was (nothing requested, nothing queried, the filters after it
    not looked at) when its field is no property of the model, when the
    property is not a relation, when its nested filter list is empty, when a
    many-relation lacks [selfIdColumnName], and when a many-relation through
    a link table lacks [targetIdColumnName]. *)
Theorem rewriter_rejects_invalid_existence_before_any_call
  model operator field fs rest w :
  let run :=
    replaceFiltersWithFiltersOperator model (Existence operator field fs :: rest) w in
  (findProperty model field = None ->
   run = (Err (EFilterPropertyNotFound field (namespace model) (singularCode model)), w))
  /\
  (forall p,
      findProperty model field = Some p ->
      (isRelationProperty p = false -> run = (Err (EExistenceOnNonRelation field), w))
      /\ (isRelationProperty p = true -> fs = [] -> run = (Err EFiltersRequired, w))
      /\ (isRelationProperty p = true -> fs <> [] -> isOne p = false ->
          Js.hasText (selfIdColumnName p) = false ->
          run = (Err (ESelfIdColumnNotConfigured (code p)), w))
      /\ (isRelationProperty p = true -> fs <> [] -> isOne p = false ->
          Js.hasText (linkTableName p) = true ->
          Js.hasText (selfIdColumnName p) = true ->
          Js.hasText (targetIdColumnName p) = false ->
          run = (Err (ETargetIdColumnNotConfigured (code p)), w))).
Proof.
  intros run. subst run. split.
  - intros Hfind. apply replaceFilters_head_fails. simpl.
    unfold replaceExistence. rewrite Hfind. reflexivity.
  - intros p Hfind. repeat split.
    + intros Hrel. apply replaceFilters_head_fails. simpl.
      unfold replaceExistence. rewrite Hfind, Hrel. reflexivity.
    + intros Hrel ->. apply replaceFilters_head_fails. simpl.
      unfold replaceExistence. rewrite Hfind, Hrel. reflexivity.
    + intros Hrel Hfs Hone Hself. apply replaceFilters_head_fails. simpl.
      unfold replaceExistence. rewrite Hfind, Hrel, Hone. cbn [negb].
      destruct fs as [| f0 fs0]; [contradiction |].
      unfold replaceBySelfIds, replaceByLinks. rewrite Hself. cbn [negb].
      destruct (negb (Js.hasText (linkTableName p))); reflexivity.
    + intros Hrel Hfs Hone Hlink Hself Htarget. apply replaceFilters_head_fails.
      simpl. unfold replaceExistence. rewrite Hfind, Hrel, Hone, Hlink. cbn [negb].
      destruct fs as [| f0 fs0]; [contradiction |].
      unfold replaceByLinks. rewrite Hself, Htarget. reflexivity.
Qed.

(** *** What the rewritten filter selects *)

Lemma among_map_spec {A} x (g : A -> Value) l :
  Storage.among x (map g l) = true
  <-> exists y, In y l /\ Storage.equal x (g y) = true.
Proof.
  unfold Storage.among. rewrite existsb_exists. split.
  - intros (v & Hin & E). apply in_map_iff in Hin as (y & <- & Hin). eauto.
  - intros (y & Hin & E). exists (g y). split; [apply in_map, Hin | exact E].
Qed.

Lemma among_selected x column fs rows columns :
  In column columns ->
  Storage.among x (map (Js.lookup column) (Storage.select (plainFind fs columns) rows))
  = true
  <-> exists t,
        In t rows /\ forallb (Storage.holds t) fs = true
        /\ Storage.equal x (Js.lookup column t) = true.
Proof.
  intros Hin. unfold Storage.select.
  cbn [filters orderBy pagination selected plainFind].
  rewrite map_map, among_map_spec. unfold Storage.matching. split.
  - intros (t & Ht & E). apply filter_In in Ht as [Ht Hfs].
    rewrite lookup_project_in in E by exact Hin. eauto.
  - intros (t & Ht & Hfs & E). exists t. split.
    + apply filter_In. auto.
    + rewrite lookup_project_in by exact Hin. exact E.
Qed.

Lemma holds_containment r column operator ids (related : Prop) :
  (Storage.among (Js.lookup column r) ids = true <-> related) ->
  Storage.holds r (Leaf column (containment operator) (VArr ids)) = true
  <-> selectedBy operator (Js.lookup column r) related.
Proof.
  intros Hrel. destruct operator; cbn [Storage.holds containment selectedBy].
  - exact Hrel.
  - rewrite andb_true_iff, !negb_true_iff, <- Hrel.
    rewrite Bool.not_true_iff_false. reflexivity.
Qed.

Lemma query_select t column ids w :
  Server.queryDatabaseObject (SelectWhereAny t column ids) w
  = (Ok (List.filter (fun r => Storage.among (Js.lookup column r) ids)
           (Storage.linksOf w t)),
     logged (CQuery (SelectWhereAny t column ids)) w).
Proof. reflexivity. Qed.

Lemma replaceFilters_single model operator field fs w f w' :
  replaceExistence model operator field fs w = (Ok f, w') ->
  replaceFiltersWithFiltersOperator model [Existence operator field fs] w
  = (Ok [f], w').
Proof.
  intros E. unfold replaceFiltersWithFiltersOperator. simpl.
  erewrite bind_ok by exact E. reflexivity.
Qed.

(** X7.  Take an [exists]/[notExists] filter on a one-relation property
    whose nested filters are not the id shortcut, the target collection being
    served.  The leaf the rewriter returns selects, for [exists], the base
    rows whose [targetIdColumnName] column equals the id of a target row that
    satisfies the nested filters; for [notExists], the base rows whose column
    is not null and equals the id of no such row. *)
Theorem one_relation_filter_selects_rows_by_their_target
  model operator field fs p target targetModel w :
  findProperty model field = Some p ->
  isRelationProperty p = true ->
  relation p = Some one ->
  fs <> [] ->
  relatedEntityIdFilter fs = None ->
  targetSingularCode p = Some target ->
  accessors w !! target = Some targetModel ->
  exists f w',
    replaceFiltersWithFiltersOperator model [Existence operator field fs] w
    = (Ok [f], w')
    /\ forall r,
        let x := Js.lookup (Js.keyOf (targetIdColumnName p)) r in
        Storage.holds r f = true
        <-> selectedBy operator x
              (exists t,
                  In t (Storage.rowsOf w (DataAccessor.collection targetModel))
                  /\ forallb (Storage.holds t) fs = true
                  /\ Storage.equal x (Js.lookup "id" t) = true).
Proof.
  intros Hfind Hrel Hone Hfs Hgeneral Htarget Hacc.
  eexists _, _. split.
  - apply replaceFilters_single. unfold replaceExistence.
    rewrite Hfind, Hrel. cbn [negb]. unfold isOne. rewrite Hone.
    destruct fs as [| f0 fs0]; [contradiction |]. rewrite Hgeneral.
    unfold replaceBySubquery. rewrite Htarget.
    erewrite bind_ok by (apply getDataAccessor_found; exact Hacc).
    erewrite bind_ok by apply find_unfold.
    reflexivity.
  - intros r x. apply holds_containment.
    apply among_selected. left. reflexivity.
Qed.

(** X8.  Take an [exists]/[notExists] filter on a relation that is not
    [one] and has no link table, [selfIdColumnName] being configured and the
    target collection served.  The rewriter returns a leaf on [id] whose
    list holds the [selfIdColumnName] column of every target row that
    satisfies the nested filters, the null of a row attached to no owner
    included.  For [exists] the leaf selects the base rows whose id equals
    that column of such a target row.  For [notExists], when no such target
    row has a null in the column, it selects the base rows whose id is not
    null and equals that column of no such row. *)
Theorem many_relation_by_foreign_key_filter_selects_owners
  model operator field fs p target targetModel w :
  findProperty model field = Some p ->
  isRelationProperty p = true ->
  isOne p = false ->
  fs <> [] ->
  Js.hasText (linkTableName p) = false ->
  Js.hasText (selfIdColumnName p) = true ->
  targetSingularCode p = Some target ->
  accessors w !! target = Some targetModel ->
  let selfColumn := Js.keyOf (selfIdColumnName p) in
  let targets := Storage.rowsOf w (DataAccessor.collection targetModel) in
  let owners :=
    map (Js.lookup selfColumn) (Storage.select (plainFind fs [selfColumn]) targets) in
  let f := Leaf "id" (containment operator) (VArr owners) in
  fst (replaceFiltersWithFiltersOperator model [Existence operator field fs] w)
  = Ok [f]
  /\ owners = map (Js.lookup selfColumn) (Storage.matching fs targets)
  /\ ((operator = notExists ->
       forall t,
         In t targets -> forallb (Storage.holds t) fs = true ->
         Js.isNullOrUndefined (Js.lookup selfColumn t) = false) ->
      forall r,
        let x := Js.lookup "id" r in
        Storage.holds r f = true
        <-> selectedBy operator x
              (exists t,
                  In t targets
                  /\ forallb (Storage.holds t) fs = true
                  /\ Storage.equal x (Js.lookup selfColumn t) = true)).
Proof.
  intros Hfind Hrel Hone Hfs Hlink Hself Htarget Hacc selfColumn targets owners f.
  split; [| split].
  - erewrite replaceFilters_single; [reflexivity |].
    unfold replaceExistence.
    rewrite Hfind, Hrel, Hone, Hlink. cbn [negb].
    destruct fs as [| f0 fs0]; [contradiction |].
    unfold replaceBySelfIds. rewrite Hself, Htarget. cbn [negb].
    erewrite bind_ok by (apply getDataAccessor_found; exact Hacc).
    erewrite bind_ok by apply find_unfold.
    reflexivity.
  - subst owners. unfold Storage.select.
    cbn [filters orderBy pagination selected plainFind].
    rewrite map_map. apply map_ext_in. intros t _.
    apply lookup_project_in. left. reflexivity.
  - intros _ r x. apply holds_containment.
    apply among_selected. left. reflexivity.
Qed.

(** X9.  Take an [exists]/[notExists] filter on a relation kept in a link
    table, both column names being configured and the target collection
    served.  The leaf the rewriter returns selects, for [exists], the base
    rows whose id is the self id of a link row whose target id is the id of
    a target row that satisfies the nested filters; for [notExists], the
    base rows whose id is not null and for which there is no such link
    row. *)
Theorem many_relation_by_link_table_filter_selects_owners
  model operator field fs p target targetModel w :
  findProperty model field = Some p ->
  isRelationProperty p = true ->
  isOne p = false ->
  fs <> [] ->
  Js.hasText (linkTableName p) = true ->
  Js.hasText (selfIdColumnName p) = true ->
  Js.hasText (targetIdColumnName p) = true ->
  targetSingularCode p = Some target ->
  accessors w !! target = Some targetModel ->
  exists f w',
    replaceFiltersWithFiltersOperator model [Existence operator field fs] w
    = (Ok [f], w')
    /\ forall r,
        let x := Js.lookup "id" r in
        Storage.holds r f = true
        <-> selectedBy operator x
              (exists link t,
                  In link (Storage.linksOf w (linkTableOf p))
                  /\ In t (Storage.rowsOf w (DataAccessor.collection targetModel))
                  /\ forallb (Storage.holds t) fs = true
                  /\ Storage.equal
                       (Js.lookup (Js.keyOf (targetIdColumnName p)) link)
                       (Js.lookup "id" t) = true
                  /\ Storage.equal x
                       (Js.lookup (Js.keyOf (selfIdColumnName p)) link) = true).
Proof.
  intros Hfind Hrel Hone Hfs Hlink Hself HtargetId Htarget Hacc.
  eexists _, _. split.
  - apply replaceFilters_single. unfold replaceExistence.
    rewrite Hfind, Hrel, Hone, Hlink. cbn [negb].
    destruct fs as [| f0 fs0]; [contradiction |].
    unfold replaceByLinks. rewrite Hself, HtargetId, Htarget. cbn [negb].
    erewrite bind_ok by (apply getDataAccessor_found; exact Hacc).
    erewrite bind_ok by apply find_unfold.
    erewrite bind_ok by apply query_select.
    reflexivity.
  - intros r x. apply holds_containment.
    rewrite among_map_spec. split.
    + intros (link & Hin & E). apply filter_In in Hin as [Hin Hids].
      apply among_selected in Hids as (t & Ht & Hfst & Et); [| left; reflexivity].
      exists link, t. auto.
    + intros (link & t & Hin & Ht & Hfst & Et & E). exists link. split; [| exact E].
      apply filter_In. split; [exact Hin |].
      apply among_selected; [left; reflexivity |]. eauto.
Qed.

End RewriterMore.

(** ** The shape of an expansion *)

Section ExpansionShape.
Context `{Externals}.

Lemma returns_mapM {A B} (f : A -> M B) (P : A -> B -> Prop) l :
  (forall x, returns (f x) (P x)) -> returns (mapM f l) (Forall2 P l).
Proof.
  intros Hf. induction l as [| x r IH]; simpl.
  - apply returns_ret. constructor.
  - eapply returns_bind_with; [apply Hf | intros y Hy].
    eapply returns_bind_with; [exact IH | intros ys Hys].
    apply returns_ret. constructor; assumption.
Qed.

Lemma agreeExcept_refl key e : agreeExcept key e e.
Proof. intros k _. reflexivity. Qed.

Lemma agreeExcept_assign key v e : agreeExcept key e (Js.assign key v e).
Proof. intros k Hk. apply lookup_assign_other. congruence. Qed.

Lemma Forall2_agree_refl key l : Forall2 (agreeExcept key) l l.
Proof. induction l; constructor; [apply agreeExcept_refl | assumption]. Qed.

Lemma attachLinked_agrees targetModel p links e :
  returns (attachLinked targetModel p links e) (agreeExcept (code p) e).
Proof.
  unfold attachLinked. apply returns_bind; intros related.
  apply returns_ret, agreeExcept_assign.
Qed.

Lemma attachRelated_agrees targetModel p related e :
  returns (attachRelated targetModel p related e) (agreeExcept (code p) e).
Proof.
  unfold attachRelated. destruct (isMany p);
    apply returns_bind; intros x; apply returns_ret, agreeExcept_assign.
Qed.

(** X3.  One turn of the relation expansion, when it returns, returns as
    many rows as it was given, in the same order, and each returned row
    agrees with the row it was given on every key other than the code of the
    relation property. *)
Theorem expansion_sets_only_the_relation_key
  model entityIds entities p w expanded w' :
  expandRelation model entityIds entities p w = (Ok expanded, w') ->
  Forall2 (agreeExcept (code p)) entities expanded.
Proof.
  revert w expanded w'.
  change (returns (expandRelation model entityIds entities p)
            (Forall2 (agreeExcept (code p)) entities)).
  unfold expandRelation. destruct (Js.hasText (linkTableName p)).
  - apply returns_bind; intros [targetModel |];
      [| apply returns_ret, Forall2_agree_refl].
    destruct (isMany p); [| apply returns_ret, Forall2_agree_refl].
    apply returns_bind; intros links.
    apply returns_mapM. intros e. apply attachLinked_agrees.
  - apply returns_bind; intros related. apply returns_bind; intros targetModel.
    apply returns_mapM. intros e. apply attachRelated_agrees.
Qed.

End ExpansionShape.

(** ** Requested properties, update and relation edits: rejections and events *)


Section Selection.
Context `{Externals}.

Lemma selectProperty_outcome model acc c w :
  (exists acc', selectProperty model acc c w = (Ok acc', w))
  \/ (exists e, selectProperty model acc c w = (Err e, w)
               /\ selectionError model [c] e).
Proof.
  unfold selectProperty, selectionError. destruct acc as [fields relations].
  destruct (findProperty model c) as [p |] eqn:Hfind.
  - destruct (isRelationProperty p);
      [destruct (isOne p && negb (Js.hasText (linkTableName p)));
       [destruct (Js.hasText (targetIdColumnName p)) eqn:Ht |] |];
      cbn [negb]; try (left; eexists; reflexivity).
    right. eexists. split; [reflexivity |]. right. exists c, p.
    repeat split; auto. left. reflexivity.
  - right. eexists. split; [reflexivity |]. left. exists c.
    repeat split; auto. left. reflexivity.
Qed.

Lemma selectProperty_unknown model acc c w :
  findProperty model c = None ->
  selectProperty model acc c w
  = (Err (ENoSuchProperty (namespace model) (singularCode model) c), w).
Proof.
  intros Hfind. unfold selectProperty. destruct acc. rewrite Hfind. reflexivity.
Qed.

Lemma selectionError_later model c l e :
  selectionError model l e -> selectionError model (c :: l) e.
Proof.
  intros [(x & Hin & Hx) | (x & p & Hin & Hx)]; [left | right].
  - exists x. split; [right; exact Hin | exact Hx].
  - exists x, p. split; [right; exact Hin | exact Hx].
Qed.

Lemma selectionError_head model c l e :
  selectionError model [c] e -> selectionError model (c :: l) e.
Proof.
  intros [(x & [<- | []] & Hx) | (x & p & [<- | []] & Hx)]; [left | right].
  - exists c. split; [left; reflexivity | exact Hx].
  - exists c, p. split; [left; reflexivity | exact Hx].
Qed.

Lemma selection_fails model l :
  forall acc w c,
    In c l -> findProperty model c = None ->
    exists e,
      foldM (selectProperty model) acc l w = (Err e, w)
      /\ selectionError model l e.
Proof.
  induction l as [| x r IH]; intros acc w c Hin Hfind; [destruct Hin |].
  simpl.
  destruct (selectProperty_outcome model acc x w) as [[acc' E] | (e & E & He)].
  - destruct Hin as [-> | Hin].
    + rewrite selectProperty_unknown in E by exact Hfind. discriminate E.
    + destruct (IH acc' w c Hin Hfind) as (e & Erun & He).
      exists e. split.
      * erewrite bind_ok by exact E. exact Erun.
      * apply selectionError_later, He.
  - exists e. split.
    + apply bind_err. exact E.
    + apply selectionError_head, He.
Qed.

(** X4.  If [options.properties] names a code that is no property of the
    model, [findEntities] fails and the world is as it was: no filter was
    rewritten and nothing was asked of storage.  The error is about a code of
    the list: one the model does not have, or an owning one-relation
    without [targetIdColumnName]. *)
Theorem findEntities_rejects_unknown_property_before_any_call
  dataAccessor options c w :
  In c (selected options) ->
  findProperty dataAccessor c = None ->
  exists e,
    findEntities dataAccessor options w = (Err e, w)
    /\ selectionError dataAccessor (selected options) e.
Proof.
  intros Hin Hfind.
  destruct (selection_fails dataAccessor (selected options) ([], []) w c Hin Hfind)
    as (e & Erun & He).
  exists e. split; [| exact He].
  unfold findEntities. apply bind_err. exact Erun.
Qed.

End Selection.

Section UpdateErrors.
Context `{Externals}.

(** X10.  [updateEntityById] with a falsy id (zero, the empty string,
    null, undefined) fails with the world as it was, without looking the
    entity up.  With a truthy id that no row of the collection carries it
    fails after the one find of the lookup, and nothing else was called. *)
Theorem updateEntityById_rejects_falsy_id_and_unknown_entity
  fuel dataAccessor id entityToSave plugin w :
  (Js.truthy id = false ->
   updateEntityById fuel dataAccessor id entityToSave plugin w
   = (Err EIdRequired, w))
  /\
  (Js.truthy id = true ->
   forallb (fun r => negb (Storage.hasId id r))
     (Storage.rowsOf w (DataAccessor.collection dataAccessor)) = true ->
   updateEntityById fuel dataAccessor id entityToSave plugin w
   = (Err (EEntityNotFound (namespace dataAccessor) (singularCode dataAccessor) id),
      logged (CFind (DataAccessor.collection dataAccessor) (byId id)) w)).
Proof.
  split.
  - intros Hid. unfold updateEntityById. rewrite Hid. reflexivity.
  - intros Hid Hnone. unfold updateEntityById. rewrite Hid. cbn [negb].
    unfold bind at 1. rewrite findById_unfold.
    rewrite (loaded_absent _ _ _ _ Hnone). reflexivity.
Qed.

End UpdateErrors.

Section UpdateFrame.
Context `{Externals}.
Variable R : World -> World -> Prop.
Hypothesis R_refl : forall w, R w w.
Hypothesis R_trans : forall a b c, R a b -> R b c -> R a c.
Hypothesis R_getDataAccessor : forall target, keeps R (Server.getDataAccessor target).
Hypothesis R_findById : forall da id, keeps R (DataAccessor.findById da id).
Hypothesis R_create : forall da row, keeps R (DataAccessor.create da row).
Hypothesis R_updateById : forall da id row, keeps R (DataAccessor.updateById da id row).
Hypothesis R_query : forall s, keeps R (Server.queryDatabaseObject s).

Lemma updateManyRelation_keeps fuel id changes updatedEntity p :
  keeps R (updateManyRelation (createEntity fuel) id changes updatedEntity p).
Proof.
  unfold updateManyRelation, updateRelatedAll.
  apply (keeps_bind R R_trans); [apply R_getDataAccessor | intros da].
  destruct (Js.getProp changes (code p)); try apply (keeps_raise R R_refl).
  apply (keeps_bind R R_trans); [| intros _].
  { destruct (Js.hasText (linkTableName p));
      [apply R_query | apply (keeps_ret R R_refl)]. }
  apply (keeps_bind R R_trans); [| intros l; apply (keeps_ret R R_refl)].
  apply (keeps_foldM R R_refl R_trans). intros acc x.
  apply (keeps_bind R R_trans); [| intros y; apply (keeps_ret R R_refl)].
  apply updateRelated_keeps; try assumption.
  intros d e. apply createEntity_keeps; assumption.
Qed.

End UpdateFrame.

Section UpdateEvents.
Context `{Externals}.

Lemma sameEvents_refl w : sameEvents w w.
Proof. reflexivity. Qed.

Lemma sameEvents_trans a b c : sameEvents a b -> sameEvents b c -> sameEvents a c.
Proof. unfold sameEvents. congruence. Qed.

Lemma sameEvents_getDataAccessor target :
  keeps sameEvents (Server.getDataAccessor target).
Proof.
  intros w. unfold Server.getDataAccessor, bind, log, sameEvents. cbn.
  destruct target as [c |]; [destruct (accessors w !! c) |]; reflexivity.
Qed.

Lemma sameEvents_create d row : keeps sameEvents (DataAccessor.create d row).
Proof.
  intros w. unfold DataAccessor.create, bind, log, sameEvents. cbn.
  destruct (Js.isNullOrUndefined (Js.lookup "id" row)); reflexivity.
Qed.

Lemma sameEvents_query s : keeps sameEvents (Server.queryDatabaseObject s).
Proof.
  intros w. unfold Server.queryDatabaseObject, bind, log, sameEvents. cbn.
  destruct (isSelect s); reflexivity.
Qed.

Lemma updateManyRelation_sameEvents fuel id changes updatedEntity p :
  keeps sameEvents (updateManyRelation (createEntity fuel) id changes updatedEntity p).
Proof.
  apply updateManyRelation_keeps.
  - exact sameEvents_refl.
  - exact sameEvents_trans.
  - exact sameEvents_getDataAccessor.
  - intros d id0 w. reflexivity.
  - exact sameEvents_create.
  - intros d id0 row w. reflexivity.
  - exact sameEvents_query.
Qed.

(** X11.  [updateEntityById] emits nothing when it fails.  When it
    succeeds and the diff is empty it returns the loaded entity and emits
    nothing; when it succeeds and the diff is not empty it has emitted
    exactly one event, [entity.update], whose [before] is the loaded entity
    and whose [after] is the entity it returns. *)
Theorem updateEntityById_emits_at_most_one_event
  fuel dataAccessor id entityToSave plugin w :
  match updateEntityById fuel dataAccessor id entityToSave plugin w with
  | (Ok updated, w') =>
      exists before,
        fst (findById dataAccessor id false w) = Ok before
        /\ if Js.truthy (getEntityPartChanges before entityToSave)
           then exists changes,
                  events w'
                  = events w ++ [EntityUpdate (namespace dataAccessor)
                                   (singularCode dataAccessor) before updated
                                   changes plugin]
           else updated = before /\ events w' = events w
  | (Err _, w') => events w' = events w
  end.
Proof.
  unfold updateEntityById.
  destruct (Js.truthy id); cbn [negb]; [| reflexivity].
  unfold bind at 1. rewrite findById_unfold. cbn [fst].
  destruct (loaded dataAccessor id false _) as [before | e]; [| reflexivity].
  destruct (Js.truthy before); cbn [negb]; [| reflexivity].
  destruct (Js.truthy (getEntityPartChanges before entityToSave)) eqn:Hchanges;
    cbn [negb].
  2: { exists before. rewrite Hchanges. repeat split. }
  set (w0 := logged _ w).
  change (events w) with (events w0).
  unfold bind at 1.
  match goal with
  | |- context [match ?c w0 with _ => _ end] =>
      assert (Hrow : sameEvents w0 (snd (c w0)));
      [| destruct (c w0) as [[updatedRow | e] w1]; cbn [snd] in Hrow]
  end.
  { destruct (fold_left _ _ _); [reflexivity |]. reflexivity. }
  2: { exact Hrow. }
  unfold bind at 1.
  match goal with
  | |- context [foldM ?f ?start ?l w1] =>
      pose proof (keeps_foldM sameEvents sameEvents_refl sameEvents_trans f l
                    (fun o x => updateManyRelation_sameEvents fuel id _ o x)
                    start w1) as Hmany;
      destruct (foldM f start l w1) as [[updatedEntity | e] w2]; cbn [snd] in Hmany
  end.
  2: { unfold sameEvents in *. congruence. }
  exists before. split; [reflexivity |]. rewrite Hchanges.
  exists (getEntityPartChanges before entityToSave).
  unfold sameEvents in *. cbn. unfold DataAccessor.getModel. rewrite Hmany, Hrow. reflexivity.
Qed.

End UpdateEvents.

Section RelationsMore.
Context `{Externals}.

(** X16.  On a many-relation that is not kept in a link table,
    [addRelations] and [removeRelations] send no statement and change no
    row, whatever the relations given; they succeed and emit their event
    all the same. *)
Theorem relations_kept_in_a_foreign_key_are_not_edited
  dataAccessor id property p relations plugin entity w w0 :
  findById dataAccessor id false w = (Ok entity, w0) ->
  Js.truthy entity = true ->
  findProperty dataAccessor property = Some p ->
  isRelationProperty p = true ->
  relation p = Some many ->
  Js.hasText (linkTableName p) = false ->
  EntityManager.addRelations dataAccessor id property relations plugin w
  = (Ok tt,
     withEvent
       (EntityAddRelations (namespace dataAccessor) (singularCode dataAccessor)
          entity property relations plugin) w0)
  /\ EntityManager.removeRelations dataAccessor id property relations plugin w
     = (Ok tt,
        withEvent
          (EntityRemoveRelations (namespace dataAccessor)
             (singularCode dataAccessor) entity property relations plugin) w0)
  /\ tables w0 = tables w /\ linkTables w0 = linkTables w
  /\ journal w0
     = journal w ++ [CFind (DataAccessor.collection dataAccessor) (byId id)].
Proof.
  intros Hload Htruthy Hfind Hrel Hmany Hlink. split; [| split].
  - unfold EntityManager.addRelations. erewrite bind_ok by exact Hload.
    rewrite Htruthy. cbn [negb]. unfold DataAccessor.getModel.
    rewrite Hfind, Hrel. unfold isMany. rewrite Hmany. cbn [andb negb].
    rewrite Hlink. reflexivity.
  - unfold EntityManager.removeRelations. erewrite bind_ok by exact Hload.
    rewrite Htruthy. cbn [negb]. unfold DataAccessor.getModel.
    rewrite Hfind, Hrel. unfold isMany. rewrite Hmany. cbn [andb negb].
    rewrite Hlink. reflexivity.
  - rewrite findById_unfold in Hload. injection Hload as _ <-.
    repeat split.
Qed.

(** X17.  [addRelations] and [removeRelations] fail after the one find of
    the owner lookup, with no statement sent and no event emitted, when no
    row carries the id, when the model has no property of the given name,
    and when the property is not a many-relation. *)
Theorem relations_reject_unknown_owner_and_unfit_property
  dataAccessor id property relations plugin w :
  let looked := logged (CFind (DataAccessor.collection dataAccessor) (byId id)) w in
  let add := EntityManager.addRelations dataAccessor id property relations plugin w in
  let remove :=
    EntityManager.removeRelations dataAccessor id property relations plugin w in
  let notFound :=
    EEntityNotFound (namespace dataAccessor) (singularCode dataAccessor) id in
  let noProperty :=
    EPropertyNotFound property (namespace dataAccessor) (singularCode dataAccessor) in
  (forallb (fun r => negb (Storage.hasId id r))
     (Storage.rowsOf w (DataAccessor.collection dataAccessor)) = true ->
   add = (Err notFound, looked) /\ remove = (Err notFound, looked))
  /\
  (forall entity,
      findById dataAccessor id false w = (Ok entity, looked) ->
      Js.truthy entity = true ->
      (findProperty dataAccessor property = None ->
       add = (Err noProperty, looked) /\ remove = (Err noProperty, looked))
      /\
      (forall p,
          findProperty dataAccessor property = Some p ->
          isRelationProperty p && isMany p = false ->
          add = (Err (EOnlyManyRelation "addRelations"), looked)
          /\ remove = (Err (EOnlyManyRelation "removeRelations"), looked))).
Proof.
  intros looked add remove notFound noProperty. subst add remove. split.
  - intros Hnone. split.
    + unfold EntityManager.addRelations. unfold bind at 1.
      rewrite findById_unfold, (loaded_absent _ _ _ _ Hnone). reflexivity.
    + unfold EntityManager.removeRelations. unfold bind at 1.
      rewrite findById_unfold, (loaded_absent _ _ _ _ Hnone). reflexivity.
  - intros entity Hload Htruthy. split.
    + intros Hfind.
      unfold EntityManager.addRelations, EntityManager.removeRelations.
      rewrite !(bind_ok _ _ _ _ _ Hload). rewrite Htruthy. cbn [negb].
      unfold DataAccessor.getModel. rewrite Hfind. split; reflexivity.
    + intros p Hfind Hunfit.
      unfold EntityManager.addRelations, EntityManager.removeRelations.
      rewrite !(bind_ok _ _ _ _ _ Hload). rewrite Htruthy. cbn [negb].
      unfold DataAccessor.getModel. rewrite Hfind, Hunfit. split; reflexivity.
Qed.

(** X18.  For an owner that is found, a many-relation kept in a link table
    with distinct columns and a relation with a non-null id:
    [addRelations] followed by [removeRelations] of the same pair succeeds;
    after the first call the pair has a link row, after the second the link
    table holds the rows it had before that are not of the pair.  So when
    the pair had no row, every link table is back to what it was; the rows
    of the collections are untouched throughout. *)
Theorem removeRelations_undoes_addRelations
  dataAccessor id property p element relationId plugin entity w w0 :
  findById dataAccessor id false w = (Ok entity, w0) ->
  Js.truthy entity = true ->
  findProperty dataAccessor property = Some p ->
  isRelationProperty p = true ->
  relation p = Some many ->
  Js.hasText (linkTableName p) = true ->
  Js.keyOf (selfIdColumnName p) <> Js.keyOf (targetIdColumnName p) ->
  readProp element "id" = Ok relationId ->
  Js.isNullOrUndefined relationId = false ->
  let matches :=
    Storage.pairIs (Js.keyOf (selfIdColumnName p))
      (Js.keyOf (targetIdColumnName p)) id relationId in
  let rows := Storage.linksOf w (linkTableOf p) in
  exists w1 w2,
    EntityManager.addRelations dataAccessor id property [element] plugin w
    = (Ok tt, w1)
    /\ EntityManager.removeRelations dataAccessor id property [element] plugin w1
       = (Ok tt, w2)
    /\ existsb matches (Storage.linksOf w1 (linkTableOf p)) = true
    /\ Storage.linksOf w2 (linkTableOf p)
       = List.filter (fun r => negb (matches r)) rows
    /\ (existsb matches rows = false ->
        forall t, Storage.linksOf w2 t = Storage.linksOf w t)
    /\ tables w2 = tables w.
Proof.
  intros Hfound Htruthy Hfind Hrel Hmany Hlink Hne Hrid Hnonnull matches rows.
  rewrite findById_unfold in Hfound. injection Hfound as Hload _.
  pose proof (loaded_found_id _ _ _ _ _ Hload Htruthy) as Hid.
  assert (Hafter : forall rows0 : list Obj,
             List.filter (fun r => negb (matches r))
               (Storage.effect (guardedInsert p id relationId) (linkTableOf p) rows0)
             = List.filter (fun r => negb (matches r)) rows0).
  { intros rows0. cbn [Storage.effect guardedInsert]. fold matches.
    destruct (existsb matches rows0); [reflexivity |].
    rewrite List.filter_app. cbn [List.filter]. unfold matches at 2.
    rewrite pairIs_new_row by assumption. apply app_nil_r. }
  eexists _, _. split; [| split; [| split; [| split; [| split]]]].
  - apply (addRelations_one _ _ _ p _ relationId _ entity); assumption.
  - apply (removeRelations_one _ _ _ p _ relationId _ entity); assumption.
  - autorewrite with world. fold rows.
    cbn [Storage.effect guardedInsert]. fold matches.
    destruct (existsb matches rows) eqn:E; [exact E |].
    rewrite existsb_app. cbn [existsb]. unfold matches at 2.
    rewrite pairIs_new_row by assumption. apply orb_true_r.
  - autorewrite with world. fold rows.
    cbn [Storage.effect deletePair]. fold matches. apply Hafter.
  - intros Habsent t. autorewrite with world.
    destruct (decide (linkTableOf p = t)) as [<- | Hother].
    + autorewrite with world. cbn [Storage.effect deletePair]. fold matches rows.
      rewrite Hafter. apply filter_negb_none, existsb_filter_nil, Habsent.
    + rewrite linksOf_withLinks_other by exact Hother. autorewrite with world.
      rewrite linksOf_withLinks_other by exact Hother. autorewrite with world.
      reflexivity.
  - reflexivity.
Qed.

End RelationsMore.

(** ** What a cascading create never takes away *)

Section InsertFrame.
Context `{Externals}.
Variable R : World -> World -> Prop.
Hypothesis R_refl : forall w, R w w.
Hypothesis R_trans : forall a b c, R a b -> R b c -> R a c.
Hypothesis R_getDataAccessor : forall target, keeps R (Server.getDataAccessor target).
Hypothesis R_findById : forall da id, keeps R (DataAccessor.findById da id).
Hypothesis R_create : forall da row, keeps R (DataAccessor.create da row).
Hypothesis R_updateById : forall da id row, keeps R (DataAccessor.updateById da id row).
Hypothesis R_insert :
  forall p selfId targetId,
    keeps R (Server.queryDatabaseObject (insertLink p selfId targetId)).

Ltac inserting :=
  repeat first
    [ apply (keeps_ret R R_refl)
    | apply (keeps_raise R R_refl)
    | apply (keeps_lift R R_refl)
    | apply R_getDataAccessor
    | apply R_findById
    | apply R_create
    | apply R_updateById
    | apply R_insert
    | assumption
    | apply (keeps_bind R R_trans); [| intros ?]
    | apply (keeps_foldM R R_refl R_trans); intros ? ?
    | match goal with
      | |- keeps R (if ?b then _ else _) => destruct b
      | |- keeps R (match ?x with _ => _ end) => destruct x
      | Hc : forall da e, keeps R (?create da e) |- keeps R (?create _ _) => apply Hc
      end ].

Section Steps.
Variable create : RpdDataModel -> Value -> M Value.
Hypothesis R_recursive : forall da e, keeps R (create da e).

Lemma createOneRelations_inserting entity row ps :
  keeps R (foldM (createOneRelation create entity) row ps).
Proof.
  apply (keeps_foldM R R_refl R_trans). intros acc p.
  unfold createOneRelation. inserting.
Qed.

Lemma createRelated_inserting newEntity p da x :
  keeps R (createRelated create newEntity p da x).
Proof. unfold createRelated. inserting. Qed.

Lemma createManyRelations_inserting entity newEntity ps :
  keeps R (foldM (createManyRelation create entity) newEntity ps).
Proof.
  apply (keeps_foldM R R_refl R_trans). intros acc p.
  unfold createManyRelation. inserting. apply createRelated_inserting.
Qed.

Lemma createEntityBody_inserting da entity :
  keeps R (createEntityBody create da entity).
Proof.
  unfold createEntityBody.
  apply (keeps_bind R R_trans); [apply createOneRelations_inserting | intros row].
  apply (keeps_bind R R_trans); [apply R_create | intros newRow].
  apply (keeps_bind R R_trans); [apply (keeps_lift R R_refl) | intros newEntity].
  apply createManyRelations_inserting.
Qed.

End Steps.

Lemma createEntity_inserting fuel :
  forall da entity, keeps R (createEntity fuel da entity).
Proof.
  induction fuel as [| fuel IH]; intros da entity; simpl.
  - apply (keeps_raise R R_refl).
  - apply createEntityBody_inserting. exact IH.
Qed.

End InsertFrame.

Section Growth.
Context `{Externals}.

Lemma grows_refl w : grows w w.
Proof.
  split; [intros c; lia | intros t; exists []; symmetry; apply app_nil_r].
Qed.

Lemma grows_trans a b c : grows a b -> grows b c -> grows a c.
Proof.
  intros [Hr1 Hl1] [Hr2 Hl2]. split.
  - intros x. specialize (Hr1 x). specialize (Hr2 x). lia.
  - intros t. destruct (Hl1 t) as [l1 E1], (Hl2 t) as [l2 E2].
    exists (l1 ++ l2). rewrite E2, E1. symmetry. apply app_assoc.
Qed.

Lemma grows_logged c w : grows w (logged c w).
Proof. exact (grows_refl w). Qed.

Lemma grows_withRows c rows w :
  (length (Storage.rowsOf w c) <= length rows)%nat -> grows w (withRows c rows w).
Proof.
  intros Hle. split.
  - intros x. destruct (decide (c = x)) as [<- | Hne].
    + rewrite rowsOf_withRows. exact Hle.
    + rewrite rowsOf_withRows_other by exact Hne. lia.
  - intros t. exists []. symmetry. apply app_nil_r.
Qed.

Lemma grows_withLinks t added w :
  grows w (withLinks t (Storage.linksOf w t ++ added) w).
Proof.
  split.
  - intros c. rewrite rowsOf_withLinks. lia.
  - intros x. destruct (decide (t = x)) as [<- | Hne].
    + rewrite linksOf_withLinks. exists added. reflexivity.
    + rewrite linksOf_withLinks_other by exact Hne. exists []. symmetry.
      apply app_nil_r.
Qed.

Lemma grows_getDataAccessor target : keeps grows (Server.getDataAccessor target).
Proof.
  intros w. unfold Server.getDataAccessor, bind. cbn.
  destruct target as [c |]; [destruct (accessors _ !! c) |];
    apply (grows_logged (CGetDataAccessor _)).
Qed.

Lemma grows_findById da id : keeps grows (DataAccessor.findById da id).
Proof. intros w. apply (grows_logged (CFindById _ _)). Qed.

Lemma create_world da row w :
  exists stored w0,
    DataAccessor.create da row w
    = (Ok stored,
       withRows (DataAccessor.collection da)
         (Storage.rowsOf w (DataAccessor.collection da) ++ [stored]) w0)
    /\ tables w0 = tables w /\ linkTables w0 = linkTables w
    /\ events w0 = events w /\ accessors w0 = accessors w.
Proof.
  unfold DataAccessor.create, bind, ret.
  destruct (Js.isNullOrUndefined (Js.lookup "id" row)).
  - exists (Js.assign "id" (VNum (nextId w)) row),
      (snd (Storage.freshId (logged (CCreate (DataAccessor.collection da) row) w))).
    repeat split.
  - exists row, (logged (CCreate (DataAccessor.collection da) row) w).
    repeat split.
Qed.

Lemma grows_same_store w w0 w' :
  tables w0 = tables w -> linkTables w0 = linkTables w -> grows w0 w' -> grows w w'.
Proof.
  intros Ht Hl [Hr Hk]. split.
  - intros c. specialize (Hr c). unfold Storage.rowsOf in *. rewrite Ht in Hr.
    exact Hr.
  - intros t. destruct (Hk t) as [added E]. exists added.
    unfold Storage.linksOf in *. rewrite Hl in E. exact E.
Qed.

Lemma grows_create da row : keeps grows (DataAccessor.create da row).
Proof.
  intros w. destruct (create_world da row w) as (stored & w0 & -> & Ht & Hl & _ & _).
  cbn [snd]. apply (grows_same_store w w0); [exact Ht | exact Hl |].
  apply grows_withRows.
  replace (Storage.rowsOf w0 (DataAccessor.collection da))
    with (Storage.rowsOf w (DataAccessor.collection da))
    by (unfold Storage.rowsOf; rewrite Ht; reflexivity).
  rewrite length_app. lia.
Qed.

Lemma create_adds_a_row da row w :
  length (Storage.rowsOf (snd (DataAccessor.create da row w))
            (DataAccessor.collection da))
  = S (length (Storage.rowsOf w (DataAccessor.collection da))).
Proof.
  destruct (create_world da row w) as (stored & w0 & -> & Ht & Hl & _ & _).
  cbn [snd]. rewrite rowsOf_withRows, length_app. simpl. lia.
Qed.

Lemma grows_updateById da id row : keeps grows (DataAccessor.updateById da id row).
Proof.
  intros w. rewrite updateById_world.
  apply (grows_trans _ (logged (CUpdateById (DataAccessor.collection da) id row) w));
    [apply grows_logged |].
  apply grows_withRows. rewrite length_map. autorewrite with world. lia.
Qed.

Lemma grows_insert p selfId targetId :
  keeps grows (Server.queryDatabaseObject (insertLink p selfId targetId)).
Proof.
  intros w. rewrite query_outcome by reflexivity. cbn [snd].
  apply (grows_trans _ (logged (CQuery (insertLink p selfId targetId)) w));
    [apply grows_logged |].
  set (w0 := logged _ w).
  cbn [tableOf insertLink Storage.effect].
  change (Storage.linksOf w (linkTableOf p))
    with (Storage.linksOf w0 (linkTableOf p)).
  destruct (uniqueViolation _ _ _).
  - pose proof (grows_withLinks (linkTableOf p) [] w0) as G.
    rewrite app_nil_r in G. exact G.
  - apply grows_withLinks.
Qed.

Lemma createEntity_grows fuel da entity : keeps grows (createEntity fuel da entity).
Proof.
  apply createEntity_inserting.
  - exact grows_refl.
  - exact grows_trans.
  - exact grows_getDataAccessor.
  - exact grows_findById.
  - exact grows_create.
  - exact grows_updateById.
  - exact grows_insert.
Qed.

Lemma createEntity_adds_a_row fuel da entity w newEntity w' :
  createEntity fuel da entity w = (Ok newEntity, w') ->
  (S (length (Storage.rowsOf w (DataAccessor.collection da)))
   <= length (Storage.rowsOf w' (DataAccessor.collection da)))%nat.
Proof.
  destruct fuel as [| fuel]; [discriminate |].
  cbn [createEntity]. unfold createEntityBody. intros E.
  apply bind_inv in E as (row & wa & Ea & E).
  apply bind_inv in E as (newRow & wb & Eb & E).
  apply bind_inv in E as (mapped & wc & Ec & E).
  assert (Ga : grows w wa).
  { pose proof (createOneRelations_inserting grows grows_refl grows_trans
                  grows_getDataAccessor (createEntity fuel)
                  (createEntity_grows fuel) entity
                  (mapEntityToDbRow (DataAccessor.getModel da) entity)
                  (oneRelationProperties (DataAccessor.getModel da) entity) w) as G.
    rewrite Ea in G. exact G. }
  assert (Gb : length (Storage.rowsOf wb (DataAccessor.collection da))
               = S (length (Storage.rowsOf wa (DataAccessor.collection da)))).
  { pose proof (create_adds_a_row da row wa) as G. rewrite Eb in G. exact G. }
  assert (Gc : wc = wb) by (unfold lift in Ec; congruence).
  subst wc.
  assert (Gd : grows wb w').
  { pose proof (createManyRelations_inserting grows grows_refl grows_trans
                  grows_getDataAccessor grows_findById grows_updateById
                  grows_insert (createEntity fuel)
                  (createEntity_grows fuel) entity mapped
                  (manyRelationProperties (DataAccessor.getModel da) entity) wb) as G.
    rewrite E in G. exact G. }
  destruct Ga as [Ga _], Gd as [Gd _].
  specialize (Ga (DataAccessor.collection da)).
  specialize (Gd (DataAccessor.collection da)). lia.
Qed.

(** X12.  [EntityManager.createEntity] takes nothing away, whether it
    succeeds or fails and however deep the cascade: every collection has at
    least as many rows as before and every link table starts with the rows
    it had.  When it succeeds, the collection of the entity has at least one
    row more. *)
Theorem createEntity_never_removes fuel dataAccessor entity plugin w :
  let run := EntityManager.createEntity fuel dataAccessor entity plugin w in
  grows w (snd run)
  /\ forall newEntity,
      fst run = Ok newEntity ->
      (S (length (Storage.rowsOf w (DataAccessor.collection dataAccessor)))
       <= length (Storage.rowsOf (snd run) (DataAccessor.collection dataAccessor)))%nat.
Proof.
  intros run. subst run. unfold EntityManager.createEntity.
  pose proof (createEntity_grows fuel dataAccessor entity w) as G.
  pose proof (createEntity_adds_a_row fuel dataAccessor entity w) as Hrow.
  destruct (createEntity fuel dataAccessor entity w) as [[created | e] w1] eqn:E;
    cbn [snd fst] in *.
  - erewrite bind_ok by exact E. cbn [bind Server.emitEvent ret snd fst].
    split; [exact G |]. intros newEntity _. exact (Hrow created w1 eq_refl).
  - erewrite bind_err by exact E. split; [exact G | discriminate].
Qed.

(** X13.  Let the first many-relation key of an entity without
    one-relation keys hold a value that is not an array, the target
    collection being served and the row mapper returning objects.  Then
    [EntityManager.createEntity] fails with the error about that field, no
    event is emitted, and the row of the entity has been stored all the
    same: the collection is the one before with one row appended. *)
Theorem createEntity_stores_the_owner_before_rejecting_a_non_array
  fuel dataAccessor entity p rest target targetModel plugin w :
  oneRelationProperties dataAccessor entity = [] ->
  manyRelationProperties dataAccessor entity = p :: rest ->
  Js.isArray (Js.getProp entity (code p)) = false ->
  targetSingularCode p = Some target ->
  accessors w !! target = Some targetModel ->
  (forall row, exists fields,
      mapDbRowToEntity (Some dataAccessor) (VObj row) false = Ok (VObj fields)) ->
  exists stored w',
    EntityManager.createEntity (S fuel) dataAccessor entity plugin w
    = (Err (ENotAnArray (code p)), w')
    /\ Storage.rowsOf w' (DataAccessor.collection dataAccessor)
       = Storage.rowsOf w (DataAccessor.collection dataAccessor) ++ [stored]
    /\ events w' = events w.
Proof.
  intros Hone Hmany Hvalue Htarget Hacc Hmapper.
  destruct (create_world dataAccessor (mapEntityToDbRow dataAccessor entity) w)
    as (stored & w0 & Ec & Ht & Hl & He & Ha).
  destruct (Hmapper stored) as [fields Em].
  exists stored. eexists. split; [| split].
  - unfold EntityManager.createEntity. apply bind_err.
    cbn [createEntity]. unfold createEntityBody, DataAccessor.getModel.
    rewrite Hone, Hmany. cbn [foldM].
    erewrite bind_ok by reflexivity.
    erewrite bind_ok by exact Ec.
    rewrite Em. erewrite bind_ok by reflexivity.
    apply bind_err. unfold createManyRelation. cbn [writeProp].
    erewrite bind_ok by reflexivity. rewrite Htarget.
    erewrite bind_ok by (apply getDataAccessor_found; cbn; rewrite Ha; exact Hacc).
    destruct (Js.getProp entity (code p)); try discriminate Hvalue; reflexivity.
  - autorewrite with world. apply rowsOf_withRows.
  - cbn. exact He.
Qed.

End Growth.

(** ** Delete *)

Section Deleting.
Context `{Externals}.

Lemma bind_run {A B} (c : M A) (k : A -> M B) w :
  bind c k w
  = match c w with
    | (Ok a, w') => k a w'
    | (Err e, w') => (Err e, w')
    end.
Proof. reflexivity. Qed.

Lemma deleteById_world dataAccessor id plugin w :
  let looked := logged (CFind (DataAccessor.collection dataAccessor) (byId id)) w in
  snd (EntityManager.deleteById dataAccessor id plugin w) = looked
  \/ exists before,
       EntityManager.deleteById dataAccessor id plugin w
       = (Ok tt,
          withEvent
            (EntityDelete (namespace dataAccessor) (singularCode dataAccessor)
               before plugin)
            (withRows (DataAccessor.collection dataAccessor)
               (List.filter (fun r => negb (Storage.hasId id r))
                  (Storage.rowsOf w (DataAccessor.collection dataAccessor)))
               (logged (CDeleteById (DataAccessor.collection dataAccessor) id)
                  looked))).
Proof.
  intros looked. unfold EntityManager.deleteById. rewrite !bind_run.
  rewrite !findById_unfold. fold looked.
  destruct (loaded dataAccessor id true _) as [entity | e]; [| left; reflexivity].
  destruct (Js.truthy entity); cbn [negb]; [| left; reflexivity].
  right. exists entity. reflexivity.
Qed.

(** X14.  [deleteById] does not cascade.  Whatever the outcome, every link
    table and every other collection is as before, and so is every row of
    the collection that does not carry the id. *)
Theorem deleteById_does_not_cascade dataAccessor id plugin w :
  let w' := snd (EntityManager.deleteById dataAccessor id plugin w) in
  linkTables w' = linkTables w
  /\ (forall c, c <> DataAccessor.collection dataAccessor ->
                Storage.rowsOf w' c = Storage.rowsOf w c)
  /\ (forall r,
         In r (Storage.rowsOf w (DataAccessor.collection dataAccessor)) ->
         Storage.hasId id r = false ->
         In r (Storage.rowsOf w' (DataAccessor.collection dataAccessor))).
Proof.
  intros w'. subst w'.
  destruct (deleteById_world dataAccessor id plugin w) as [-> | [before ->]];
    cbn [snd].
  - repeat split; auto.
  - split; [reflexivity | split].
    + intros c Hc. autorewrite with world.
      rewrite rowsOf_withRows_other by congruence. reflexivity.
    + intros r Hin Hr. autorewrite with world. rewrite rowsOf_withRows.
      apply filter_In. split; [exact Hin |]. rewrite Hr. reflexivity.
Qed.

Lemma filter_filter_negb {A} (p : A -> bool) l :
  List.filter p (List.filter (fun x => negb (p x)) l) = [].
Proof.
  induction l as [| x l IH]; [reflexivity |]. simpl.
  destruct (p x) eqn:E; simpl; [exact IH |]. rewrite E. exact IH.
Qed.

(** X15.  After a [deleteById] that returned, a second [deleteById] of the
    same id returns as well and does nothing but the find of its lookup: no
    delete is sent and no event is emitted. *)
Theorem deleteById_again_does_nothing dataAccessor id plugin plugin' w w1 :
  EntityManager.deleteById dataAccessor id plugin w = (Ok tt, w1) ->
  EntityManager.deleteById dataAccessor id plugin' w1
  = (Ok tt, logged (CFind (DataAccessor.collection dataAccessor) (byId id)) w1).
Proof.
  intros Hfirst.
  destruct (deleteById_world dataAccessor id plugin w) as [Hw | [before Hrun]].
  - rewrite Hfirst in Hw. cbn [snd] in Hw. subst w1.
    revert Hfirst. unfold EntityManager.deleteById. rewrite !bind_run.
    rewrite !findById_unfold. autorewrite with world.
    destruct (loaded dataAccessor id true _) as [entity | e]; [| discriminate].
    destruct (Js.truthy entity); cbn [negb]; [| reflexivity].
    intros E. exfalso. apply (f_equal snd) in E.
    apply (f_equal events) in E. cbn in E.
    apply (f_equal (@length _)) in E. rewrite length_app in E. simpl in E. lia.
  - rewrite Hrun in Hfirst. injection Hfirst as <-.
    unfold EntityManager.deleteById. unfold bind at 1.
    rewrite findById_unfold. autorewrite with world. rewrite rowsOf_withRows.
    unfold loaded. rewrite filter_filter_negb. reflexivity.
Qed.

End Deleting.

(** ** The route builder *)

Section Strings.

Lemma length_append_string a b :
  String.length (a +:+ b) = (String.length a + String.length b)%nat.
Proof. induction a as [| c a IH]; simpl; [reflexivity | rewrite IH; reflexivity]. Qed.

Lemma substring_all s : String.substring 0 (String.length s) s = s.
Proof. induction s as [| c s IH]; simpl; [reflexivity | rewrite IH; reflexivity]. Qed.

Lemma substring_prefix a b :
  String.substring 0 (String.length a) (a +:+ b) = a.
Proof.
  induction a as [| c a IH]; simpl.
  - destruct b; reflexivity.
  - rewrite IH. reflexivity.
Qed.

Lemma substring_suffix a b :
  String.substring (String.length a) (String.length b) (a +:+ b) = b.
Proof.
  induction a as [| c a IH]; simpl; [apply substring_all | exact IH].
Qed.

Lemma endsWith_append a b : Text.endsWith (a +:+ b) b = true.
Proof.
  unfold Text.endsWith. rewrite length_append_string.
  replace (String.length a + String.length b - String.length b)%nat
    with (String.length a) by lia.
  rewrite substring_suffix, String.eqb_refl, andb_true_r.
  apply Nat.leb_le. lia.
Qed.

Lemma endsWith_empty suffix :
  suffix <> "" -> Text.endsWith "" suffix = false.
Proof. destruct suffix; [contradiction | reflexivity]. Qed.

End Strings.

Section Routes.

Lemma baseUrlOf_slash b : baseUrlOf (Some (b +:+ "/")) = b.
Proof.
  unfold baseUrlOf. rewrite endsWith_append.
  assert (Hne : String.eqb (b +:+ "/") "" = false).
  { destruct b; reflexivity. }
  rewrite Hne. cbn [negb]. rewrite length_append_string. simpl String.length.
  replace (String.length b + 1 - 1)%nat with (String.length b) by lia.
  apply substring_prefix.
Qed.

Lemma baseUrlOf_plain b : Text.endsWith b "/" = false -> baseUrlOf (Some b) = b.
Proof.
  intros E. unfold baseUrlOf. rewrite E.
  destruct (String.eqb_spec b "") as [-> | _]; reflexivity.
Qed.

Section Router.
Variable Router : Type.
Variable routerMember :
  string -> option (Router -> string -> Route.RpdRoute -> Http.Reply Router).

Lemma registerRoutes_restful prefix routes :
  forall router,
    registerRoutes Router routerMember prefix router routes
    = registerRoutes Router routerMember prefix router (List.filter isRESTful routes).
Proof.
  induction routes as [| r routes IH]; intros router; [reflexivity |].
  cbn [registerRoutes List.filter]. unfold isRESTful at 1.
  destruct (String.eqb (Route.type r) "RESTful") eqn:E; cbn [negb].
  - cbn [registerRoutes]. rewrite E. cbn [negb].
    destruct (routerMember (Route.method r)) as [register |]; [| reflexivity].
    destruct (register router _ r); [apply IH | reflexivity].
  - apply IH.
Qed.

Lemma registerRoutes_stops prefix before failing rest :
  isRESTful failing = true ->
  routerMember (Route.method failing) = None ->
  forall router,
    registerRoutes Router routerMember prefix router (before ++ failing :: rest)
    = match registerRoutes Router routerMember prefix router before with
      | Registered _ _ => NotAFunction Router (Route.method failing)
      | stopped => stopped
      end.
Proof.
  intros Hrest Hnone. unfold isRESTful in Hrest.
  induction before as [| r before IH]; intros router; cbn [app registerRoutes].
  - rewrite Hrest, Hnone. reflexivity.
  - destruct (String.eqb (Route.type r) "RESTful"); cbn [negb]; [| apply IH].
    destruct (routerMember (Route.method r)) as [register |]; [| reflexivity].
    destruct (register router _ r); [apply IH | reflexivity].
Qed.

Lemma registerRoutes_accepted
  (record : Router -> string -> string -> Route.RpdRoute -> Router) prefix routes :
  (forall routeConfig,
      In routeConfig routes -> isRESTful routeConfig = true ->
      exists register,
        routerMember (Route.method routeConfig) = Some register
        /\ forall router routePath,
            register router routePath routeConfig
            = Http.Done (record router (Route.method routeConfig) routePath
                           routeConfig)) ->
  forall router,
    registerRoutes Router routerMember prefix router routes
    = Registered Router
        (fold_left
           (fun router routeConfig =>
              record router (Route.method routeConfig)
                (prefix +:+ Route.endpoint routeConfig) routeConfig)
           (List.filter isRESTful routes) router).
Proof.
  induction routes as [| r routes IH]; intros Hall router; [reflexivity |].
  cbn [registerRoutes List.filter]. unfold isRESTful at 1.
  destruct (String.eqb (Route.type r) "RESTful") eqn:E; cbn [negb fold_left].
  - destruct (Hall r (or_introl eq_refl) E) as (register & -> & Hdone).
    rewrite Hdone. apply IH. intros rc Hin. apply Hall. right. exact Hin.
  - apply IH. intros rc Hin. apply Hall. right. exact Hin.
Qed.

(** X19.  [buildRoutes] hands the routes of type [RESTful] to the router
    and no other: routes of another type may be dropped from the list
    without changing how it ends.  It stops at the first route whose method
    names no function of the router, whatever routes follow, and returns no
    router then.  When the router has a function for the method of every
    [RESTful] route and accepts every path, the routes are added in order,
    each at the base URL followed by its endpoint.  One trailing slash of
    the base URL is dropped, so a base URL written with or without it gives
    the same paths; a missing base URL is the empty prefix. *)
Theorem buildRoutes_hands_restful_routes_to_the_router
  router baseUrl b routes :
  let build := buildRoutes Router routerMember router in
  build baseUrl routes = build baseUrl (List.filter isRESTful routes)
  /\ (forall before failing rest,
         routes = before ++ failing :: rest ->
         isRESTful failing = true ->
         routerMember (Route.method failing) = None ->
         build baseUrl routes
         = match build baseUrl before with
           | Registered _ _ => NotAFunction Router (Route.method failing)
           | stopped => stopped
           end)
  /\ (forall record : Router -> string -> string -> Route.RpdRoute -> Router,
         (forall routeConfig,
             In routeConfig routes -> isRESTful routeConfig = true ->
             exists register,
               routerMember (Route.method routeConfig) = Some register
               /\ forall router routePath,
                   register router routePath routeConfig
                   = Http.Done (record router (Route.method routeConfig)
                                  routePath routeConfig)) ->
         build baseUrl routes
         = Registered Router
             (fold_left
                (fun router routeConfig =>
                   record router (Route.method routeConfig)
                     (baseUrlOf baseUrl +:+ Route.endpoint routeConfig)
                     routeConfig)
                (List.filter isRESTful routes) router))
  /\ (Text.endsWith b "/" = false ->
      build (Some (b +:+ "/")) routes = build (Some b) routes)
  /\ build None routes = build (Some "") routes.
Proof.
  intros build. subst build. unfold buildRoutes.
  split; [| split; [| split; [| split]]].
  - apply registerRoutes_restful.
  - intros before failing rest -> Hrest Hnone.
    apply registerRoutes_stops; assumption.
  - intros record Hall. apply registerRoutes_accepted. exact Hall.
  - intros E. rewrite baseUrlOf_slash, (baseUrlOf_plain b E). reflexivity.
  - reflexivity.
Qed.

(** X20.  The data manager writes the methods of its routes in upper case
    ([POST], [GET], [PATCH], [DELETE]) and [buildRoutes] calls the function
    of the router of exactly that name.  With a router that has no function
    [POST], building the routes of any non-empty list of models stops at
    the first route and returns no router.  With a router that has the four
    functions and accepts every path, all routes are added: nine per model,
    in the order of the models and of the route table, each by the function
    named by the method of its table entry, at the path
    [base/namespace/pluralCode] followed by the endpoint of the entry. *)
Theorem data_manager_routes_call_upper_case_router_functions
  router baseUrl models :
  let build := buildRoutes Router routerMember router in
  (routerMember "POST" = None ->
   forall model rest,
     models = model :: rest ->
     build baseUrl (DataManager.configureRoutes models) = NotAFunction Router "POST")
  /\ (forall record : Router -> string -> string -> Route.RpdRoute -> Router,
         (forall method,
             In method ["POST"; "GET"; "PATCH"; "DELETE"] ->
             exists register,
               routerMember method = Some register
               /\ forall router routePath routeConfig,
                   register router routePath routeConfig
                   = Http.Done (record router method routePath routeConfig)) ->
         let added :=
           flat_map
             (fun model =>
                map (fun routeConfig =>
                       (DataManager.RouteConfig.method routeConfig,
                        baseUrlOf baseUrl +:+ "/" +:+ namespace model +:+ "/"
                        +:+ pluralCode model
                        +:+ DataManager.RouteConfig.endpoint routeConfig,
                        DataManager.routeOf model routeConfig))
                    DataManager.routeConfigs)
             models in
         build baseUrl (DataManager.configureRoutes models)
         = Registered Router
             (fold_left
                (fun router '(method, routePath, routeConfig) =>
                   record router method routePath routeConfig)
                added router)
         /\ length added = (9 * length models)%nat).
Proof.
  intros build. subst build. unfold buildRoutes. split.
  - intros Hnone model rest ->. unfold DataManager.configureRoutes.
    cbn [flat_map DataManager.routeConfigs map app registerRoutes
         DataManager.routeOf Route.type Route.method DataManager.RouteConfig.method
         String.eqb Ascii.eqb Bool.eqb negb].
    rewrite Hnone. reflexivity.
  - intros record Hall. split.
    + generalize router.
      unfold DataManager.configureRoutes.
      induction models as [| model models IH]; intros r; [reflexivity |].
      cbn [flat_map]. rewrite fold_left_app, <- IH. clear IH.
      destruct (Hall "POST") as (post & Epost & Hpost); [cbn; tauto |].
      destruct (Hall "GET") as (get & Eget & Hget); [cbn; tauto |].
      destruct (Hall "PATCH") as (patch & Epatch & Hpatch); [cbn; tauto |].
      destruct (Hall "DELETE") as (delete & Edelete & Hdelete); [cbn; tauto |].
      cbn [DataManager.routeConfigs map app registerRoutes fold_left
           DataManager.routeOf Route.type Route.method Route.endpoint
           DataManager.RouteConfig.method DataManager.RouteConfig.endpoint
           String.eqb Ascii.eqb Bool.eqb negb].
      rewrite ?Epost, ?Eget, ?Epatch, ?Edelete.
      rewrite ?Hpost, ?Hget, ?Hpatch, ?Hdelete.
      repeat (rewrite ?Epost, ?Eget, ?Epatch, ?Edelete;
              rewrite ?Hpost, ?Hget, ?Hpatch, ?Hdelete).
      reflexivity.
    + induction models as [| model models IH]; [reflexivity |].
      cbn [flat_map]. rewrite length_app, IH, length_map.
      cbn [DataManager.routeConfigs length]. lia.
Qed.

End Router.

End Routes.

Section Input.

Lemma lookup_assign k k' x fs :
  Js.lookup k (Js.assign k' x fs) = if String.eqb k' k then x else Js.lookup k fs.
Proof.
  destruct (String.eqb_spec k' k) as [-> | Hne].
  - apply lookup_assign_same.
  - apply lookup_assign_other. exact Hne.
Qed.

Lemma has_app k a b : Text.has k (a ++ b) = Text.has k a || Text.has k b.
Proof. unfold Text.has. rewrite map_app. apply existsb_app. Qed.

Lemma lookup_app k a b :
  Js.lookup k (a ++ b) = if Text.has k a then Js.lookup k a else Js.lookup k b.
Proof.
  induction a as [| [k' x] a IH]; [reflexivity |].
  cbn [app Js.lookup Text.has map fst existsb]. fold (Text.has k a).
  rewrite (String.eqb_sym k k').
  destruct (String.eqb k' k); [reflexivity | exact IH].
Qed.

Lemma has_rev k o : Text.has k (rev o) = Text.has k o.
Proof.
  induction o as [| [k' x] o IH]; [reflexivity |].
  cbn [rev]. rewrite has_app, IH. cbn [Text.has map fst existsb].
  fold (Text.has k o). rewrite orb_false_r. apply orb_comm.
Qed.

Lemma lookup_assignAll k s :
  forall t,
    Js.lookup k (Js.assignAll t s)
    = if Text.has k s then Text.latest k s else Js.lookup k t.
Proof.
  unfold Js.assignAll, Text.latest.
  induction s as [| [k' x] s IH]; intros t; [reflexivity |].
  cbn [fold_left fst snd rev]. rewrite IH, lookup_app, has_rev, lookup_assign.
  cbn [Text.has map fst existsb Js.lookup]. fold (Text.has k s).
  rewrite (String.eqb_sym k k').
  destruct (Text.has k s), (String.eqb k' k); reflexivity.
Qed.

(** X21.  The input a handler receives is merged in the order path
    parameters, query string, body: for every key, the body decides when it
    has the key (for POST, PUT and PATCH requests that carry one), else the
    query string when it has the key, else the path parameters; a key none
    of them has is undefined. *)
Theorem request_input_precedence parseQuery request k :
  let fromBody := bodyEntries request in
  let query := queryOf parseQuery (Http.search request) in
  Js.lookup k (inputOf parseQuery request)
  = if Text.has k fromBody then Text.latest k fromBody
    else if Text.has k query then Text.latest k query
    else if Text.has k (Http.params request)
         then Text.latest k (Http.params request)
    else VUndefined.
Proof.
  intros fromBody query. unfold inputOf. rewrite !lookup_assignAll. reflexivity.
Qed.

End Input.

Section Handlers.
Variable getHttpHandlerByCode : string -> option Http.HttpHandler.

Lemma runHandlers_unknown before unknown rest :
  getHttpHandlerByCode (RouteHandler.code unknown) = None ->
  forall handlerContext w,
    runHandlers getHttpHandlerByCode handlerContext (before ++ unknown :: rest) w
    = match runHandlers getHttpHandlerByCode handlerContext before w with
      | (Ok (Http.Done _), w') =>
          (Ok (Http.Thrown ("Unknown handler: " +:+ RouteHandler.code unknown)), w')
      | failed => failed
      end.
Proof.
  intros Hunknown. induction before as [| h before IH]; intros ctx w.
  - cbn [app runHandlers]. rewrite Hunknown. reflexivity.
  - cbn [app runHandlers].
    destruct (getHttpHandlerByCode (RouteHandler.code h)) as [handler |];
      [| reflexivity].
    unfold bind. destruct (handler ctx (RouteHandler.config h) w) as [[[ctx' | m] | e] w1].
    + apply IH.
    + reflexivity.
    + reflexivity.
Qed.


End Handlers.

Section Session.
Context `{Externals}.
Variable createJWT : Obj -> Http.Reply string.
Variable setCookie : list Http.Cookie -> Http.Cookie -> Http.Reply (list Http.Cookie).
Variable now : Value.
Variable sessionCookieName : string.

(** X23.  [createSession] only reads, and its answer depends on the
    [account] of the input and on nothing else in it: when no row of
    [oc_user] has that login it throws [Wrong account or password.];
    otherwise it signs a token for the first such row (audience: the row's
    id as a string; [act]: its login), hands the session cookie with that
    token and path [/] to [setCookie], and sets the output to the token.
    The [password] of the input is not looked at. *)
Theorem createSession_answers_by_the_account_alone ctx users w :
  accessors w !! "oc_user" = Some users ->
  let account := Js.lookup "account" (Http.input ctx) in
  let run := CreateSession.handler createJWT setCookie now sessionCookieName ctx w in
  fst run
  = Ok (match Storage.matching [Leaf "login" eq account]
                (Storage.rowsOf w (DataAccessor.collection users)) with
        | [] => Http.Thrown "Wrong account or password."
        | user :: _ =>
            match createJWT (CreateSession.claimsOf now user) with
            | Http.Done token =>
                match setCookie (Http.cookies ctx)
                        {| Http.name := sessionCookieName; Http.value := token;
                           Http.path := "/" |} with
                | Http.Done headers =>
                    Http.Done
                      {| Http.input := Http.input ctx;
                         Http.output := VObj [("token", VStr token)];
                         Http.status := Http.status ctx;
                         Http.cookies := headers |}
                | Http.Thrown message => Http.Thrown message
                end
            | Http.Thrown message => Http.Thrown message
            end
        end)
  /\ readOnly w (snd run).
Proof.
  intros Hacc account run. subst run. unfold CreateSession.handler.
  fold account.
  erewrite bind_ok by (apply getDataAccessor_found; exact Hacc).
  unfold CreateSession.findOne.
  rewrite bind_assoc. erewrite bind_ok by apply find_unfold.
  unfold bind at 1. unfold ret at 1.
  set (w2 := logged _ (logged _ w)).
  assert (Hread : readOnly w w2).
  { eapply readOnly_trans; apply readOnly_logged; reflexivity. }
  replace (Storage.select _ _)
    with (Storage.matching [Leaf "login" eq account]
            (Storage.rowsOf w (DataAccessor.collection users))).
  2: { unfold Storage.select. cbn [filters orderBy pagination selected Storage.project].
       rewrite map_id. reflexivity. }
  destruct (Storage.matching _ _) as [| user others]; cbn [head];
    unfold bind, ret.
  - split; [reflexivity | exact Hread].
  - destruct (createJWT _); [destruct (setCookie _ _) |];
      split; try reflexivity; exact Hread.
Qed.

End Session.


(** * Whole runs: expansion in [findEntities], many-relations in [updateEntityById] *)

(** ** Relation expansion with an unregistered target *)

Section ExpansionInFindEntities.
Context `{Externals}.

Lemma readOnly_journal {A} (c : M A) w :
  keeps readOnly c -> exists calls, journal (snd (c w)) = journal w ++ calls.
Proof.
  intros Hc. destruct (Hc w) as (_ & _ & _ & _ & _ & _ & calls & E & _).
  exists calls. exact E.
Qed.

Lemma expandRelation_readOnly model entityIds entities p :
  keeps readOnly (expandRelation model entityIds entities p).
Proof.
  apply expandRelation_keeps;
    [exact readOnly_refl | exact readOnly_trans | exact readOnly_getDataAccessor
    | exact readOnly_find | exact readOnly_select].
Qed.

Lemma replaceFilters_readOnly model fs :
  keeps readOnly (replaceFiltersWithFiltersOperator model fs).
Proof.
  apply replaceFilters_keeps;
    [exact readOnly_refl | exact readOnly_trans | exact readOnly_getDataAccessor
    | exact readOnly_find | exact readOnly_select].
Qed.

(** The turns of the expansion loop for link-table relations whose target
    model is not registered do nothing. *)
Lemma expansion_skips model entityIds w skipped :
  Forall (fun p => Js.hasText (linkTableName p) = true /\ unregistered w p) skipped ->
  forall later entities w',
    registry w' = registry w ->
    foldM (expandRelation model entityIds) entities (skipped ++ later) w'
    = foldM (expandRelation model entityIds) entities later w'.
Proof.
  induction 1 as [| p skipped [Hlink Hnone] _ IH]; intros later entities w' Hreg;
    [reflexivity |].
  cbn [app foldM].
  assert (Hturn : expandRelation model entityIds entities p w' = (Ok entities, w')).
  { unfold expandRelation. rewrite Hlink. unfold bind at 1.
    unfold unregistered, Server.getModel in *. cbn [fst] in Hnone.
    rewrite Hreg. injection Hnone as ->. reflexivity. }
  erewrite bind_ok by exact Hturn. apply IH. exact Hreg.
Qed.

Lemma findEntities_expansion dataAccessor options fields relations processed w1 :
  let model := DataAccessor.getModel dataAccessor in
  let base :=
    {| filters := processed;
       orderBy := convertToDataAccessOrderBy model (orderBy options);
       pagination := pagination options;
       selected := fields;
       keepNonPropertyFields := false |} in
  forall w row rows,
    foldM (selectProperty model) ([], []) (selected options) w
    = (Ok (fields, relations), w) ->
    replaceFiltersWithFiltersOperator model (filters options) w = (Ok processed, w1) ->
    Storage.select base (Storage.rowsOf w1 (DataAccessor.collection dataAccessor))
    = row :: rows ->
    findEntities dataAccessor options w
    = bind
        (foldM (expandRelation model (map (Js.lookup "id") (row :: rows)))
           (row :: rows) relations)
        (mapM (fun item =>
                 lift (mapDbRowToEntity (Some model) (VObj item)
                         (keepNonPropertyFields options))))
        (logged (CFind (DataAccessor.collection dataAccessor) base) w1).
Proof.
  intros model base w row rows Hselection Hrewritten Hfound.
  unfold findEntities. fold model.
  rewrite (bind_ok _ _ _ _ _ Hselection). cbn beta iota.
  rewrite (bind_ok _ _ _ _ _ Hrewritten).
  rewrite (bind_ok _ _ _ _ _ (find_unfold _ _ _)).
  fold base. rewrite Hfound. reflexivity.
Qed.

(** C9.  Let [findEntities] select properties, rewrite its filters and
    find at least one base row, and let the relation properties to expand
    begin with link-table relations whose target model is not registered
    with the server.  The expansion loop skips them: when they are all
    there is to expand, [findEntities] returns the base rows as found, the
    relation keys not set, and nothing is called after the find of the base
    rows.  When the next relation property is kept in a foreign-key column
    and its target model is not registered either, the call that follows
    the find of the base rows is the request for the accessor of the
    target: [findEntities] fails there when the server has none, and
    otherwise sends that accessor the find of the related rows. *)
Theorem expansion_skips_unregistered_link_target_only
  dataAccessor options fields relations processed w w1 row rows skipped :
  let model := DataAccessor.getModel dataAccessor in
  let base :=
    {| filters := processed;
       orderBy := convertToDataAccessOrderBy model (orderBy options);
       pagination := pagination options;
       selected := fields;
       keepNonPropertyFields := false |} in
  let found := row :: rows in
  let w2 := logged (CFind (DataAccessor.collection dataAccessor) base) w1 in
  foldM (selectProperty model) ([], []) (selected options) w
  = (Ok (fields, relations), w) ->
  replaceFiltersWithFiltersOperator model (filters options) w = (Ok processed, w1) ->
  Storage.select base (Storage.rowsOf w1 (DataAccessor.collection dataAccessor))
  = found ->
  Forall (fun p => Js.hasText (linkTableName p) = true /\ unregistered w p) skipped ->
  (relations = skipped ->
   findEntities dataAccessor options w
   = (mapOutcome
        (fun item =>
           mapDbRowToEntity (Some model) (VObj item) (keepNonPropertyFields options))
        found,
      w2))
  /\
  (forall p later,
      relations = skipped ++ p :: later ->
      Js.hasText (linkTableName p) = false ->
      unregistered w p ->
      let request := CGetDataAccessor (targetSingularCode p) in
      exists calls,
        journal (snd (findEntities dataAccessor options w))
        = journal w2 ++ request :: calls
        /\ ((forall target,
                targetSingularCode p = Some target -> accessors w !! target = None) ->
            findEntities dataAccessor options w
            = (Err (EDataModelNotFound (targetSingularCode p)), logged request w2))
        /\ (forall target targetAccessor,
               targetSingularCode p = Some target ->
               accessors w !! target = Some targetAccessor ->
               exists afterwards,
                 calls
                 = CFind (DataAccessor.collection targetAccessor)
                     (plainFind [relatedFetch p found] [])
                   :: afterwards)).
Proof.
  intros model base found w2 Hselection Hrewritten Hfound Hskipped.
  pose proof (findEntities_expansion dataAccessor options fields relations
                processed w1 w row rows Hselection Hrewritten Hfound) as Hrun.
  fold model base found w2 in Hrun.
  assert (Hread : readOnly w w2).
  { apply (readOnly_trans _ w1).
    - pose proof (replaceFilters_readOnly model (filters options) w) as G.
      rewrite Hrewritten in G. exact G.
    - apply readOnly_logged. reflexivity. }
  destruct Hread as (Hreg & Hacc & _).
  split.
  - intros ->. rewrite Hrun.
    rewrite <- (app_nil_r skipped).
    unfold bind at 1.
    rewrite (expansion_skips model _ w skipped Hskipped [] found w2 Hreg).
    cbn [foldM ret]. apply mapM_lift.
  - intros p later -> Hlink Hnone request. rewrite Hrun.
    set (final := mapM _).
    set (turn := expandRelation model (map (Js.lookup "id") found)).
    assert (Hfetch :
              bind (foldM turn found (skipped ++ p :: later)) final w2
              = bind (Server.getDataAccessor (targetSingularCode p))
                  (fun targetAccessor =>
                     bind (DataAccessor.find targetAccessor
                             (plainFind [relatedFetch p found] []))
                       (fun relatedEntities =>
                          bind
                            (bind
                               (bind (Server.getModel (targetSingularCode p))
                                  (fun targetModel =>
                                     mapM (attachRelated targetModel p relatedEntities)
                                       found))
                               (fun expanded => foldM turn expanded later))
                            final))
                  w2).
    { unfold turn. unfold bind at 1.
      rewrite (expansion_skips model _ w skipped Hskipped (p :: later) found w2 Hreg).
      cbn [foldM]. unfold expandRelation at 1. rewrite Hlink.
      unfold relatedFetch, findManyRelatedEntitiesViaIdPropertyCode,
        findOneRelatedEntitiesViaIdPropertyCode.
      destruct (isMany p); unfold bind;
        destruct (Server.getDataAccessor (targetSingularCode p) w2)
          as [[targetAccessor | e] w3]; try reflexivity;
        destruct (DataAccessor.find targetAccessor _ w3)
          as [[relatedEntities | e] w4]; try reflexivity;
        destruct (Server.getModel (targetSingularCode p) w4)
          as [[targetModel | e] w5]; reflexivity. }
    rewrite Hfetch. clear Hfetch.
    destruct (targetSingularCode p) as [target |] eqn:Htarget.
    + destruct (accessors w !! target) as [targetAccessor |] eqn:Hserved.
      * erewrite bind_ok
          by (apply getDataAccessor_found; rewrite Hacc; exact Hserved).
        erewrite bind_ok by apply find_unfold.
        match goal with
        | |- context [bind ?c final ?w4] =>
            destruct (readOnly_journal (bind c final) w4) as [afterwards Hafter]
        end.
        { apply (keeps_bind readOnly readOnly_trans).
          - apply (keeps_bind readOnly readOnly_trans).
            + apply (keeps_bind readOnly readOnly_trans);
                [intros w0; apply readOnly_refl | intros targetModel].
              apply (keeps_mapM readOnly readOnly_refl readOnly_trans).
              intros e w0. rewrite attachRelated_silent. apply readOnly_refl.
            + intros expanded.
              apply (keeps_foldM readOnly readOnly_refl readOnly_trans).
              intros acc q. apply expandRelation_readOnly.
          - intros expanded. unfold final.
            apply (keeps_mapM readOnly readOnly_refl readOnly_trans).
            intros item w0. apply readOnly_refl. }
        eexists. split; [| split].
        -- rewrite Hafter. cbn [journal logged log snd].
           rewrite <- !app_assoc. reflexivity.
        -- intros Hnoaccessor. rewrite (Hnoaccessor target eq_refl) in Hserved.
           discriminate Hserved.
        -- intros target' targetAccessor' E Hserved'. injection E as <-.
           rewrite Hserved in Hserved'. injection Hserved' as <-.
           exists afterwards. reflexivity.
      * erewrite bind_err
          by (apply getDataAccessor_missing; intros c E; injection E as <-;
              rewrite Hacc; exact Hserved).
        exists []. split; [reflexivity | split].
        -- intros _. reflexivity.
        -- intros target' targetAccessor' E Hserved'. injection E as <-.
           rewrite Hserved in Hserved'. discriminate Hserved'.
    + erewrite bind_err by (apply getDataAccessor_missing; discriminate).
      exists []. split; [reflexivity | split].
      * intros _. reflexivity.
      * discriminate.
Qed.

End ExpansionInFindEntities.

(** ** Many-relations on update *)

Section UpdateManySaved.
Context `{Externals}.

Lemma pointing_refl column id rows :
  Forall2 (fun r r' => pointsAt column id r = true -> pointsAt column id r' = true)
    rows rows.
Proof. induction rows as [| r rows IH]; constructor; auto. Qed.

Lemma pointing_trans column id a b :
  Forall2 (fun r r' => pointsAt column id r = true -> pointsAt column id r' = true) a b ->
  forall c,
    Forall2 (fun r r' => pointsAt column id r = true -> pointsAt column id r' = true) b c ->
    Forall2 (fun r r' => pointsAt column id r = true -> pointsAt column id r' = true) a c.
Proof.
  induction 1 as [| r r' rows rows' Hr _ IH]; intros c Hbc;
    inversion Hbc; subst; constructor; auto.
Qed.

Lemma keptPointing_refl column id w : keptPointing column id w w.
Proof.
  intros c. exists (Storage.rowsOf w c), []. split.
  - symmetry. apply app_nil_r.
  - apply pointing_refl.
Qed.

Lemma keptPointing_trans column id a b c :
  keptPointing column id a b -> keptPointing column id b c ->
  keptPointing column id a c.
Proof.
  intros Hab Hbc k.
  destruct (Hab k) as (kept1 & added1 & E1 & F1).
  destruct (Hbc k) as (kept2 & added2 & E2 & F2).
  rewrite E1 in F2.
  apply List.Forall2_app_inv_l in F2 as (kept & later & Fkept & _ & ->).
  exists kept, (later ++ added2). split.
  - rewrite E2. symmetry. apply app_assoc.
  - exact (pointing_trans _ _ _ _ F1 _ Fkept).
Qed.

Lemma keptPointing_same_rows column id w w' :
  (forall c, Storage.rowsOf w' c = Storage.rowsOf w c) -> keptPointing column id w w'.
Proof.
  intros Hsame c. exists (Storage.rowsOf w c), []. split.
  - rewrite Hsame. symmetry. apply app_nil_r.
  - apply pointing_refl.
Qed.

Lemma keptPointing_getDataAccessor column id target :
  keeps (keptPointing column id) (Server.getDataAccessor target).
Proof.
  intros w. apply keptPointing_same_rows. intros c.
  unfold Server.getDataAccessor, bind. cbn.
  destruct target as [t |]; [destruct (accessors _ !! t) |]; reflexivity.
Qed.

Lemma keptPointing_findById column id da k :
  keeps (keptPointing column id) (DataAccessor.findById da k).
Proof. intros w. apply keptPointing_same_rows. reflexivity. Qed.

Lemma keptPointing_create column id da row :
  keeps (keptPointing column id) (DataAccessor.create da row).
Proof.
  intros w c.
  destruct (create_world da row w) as (stored & w0 & -> & Ht & _ & _ & _).
  cbn [snd].
  assert (Hrows : forall k, Storage.rowsOf w0 k = Storage.rowsOf w k).
  { intros k. unfold Storage.rowsOf. rewrite Ht. reflexivity. }
  destruct (decide (DataAccessor.collection da = c)) as [<- | Hother].
  - rewrite rowsOf_withRows. eexists _, _. split; [reflexivity |].
    apply pointing_refl.
  - rewrite rowsOf_withRows_other by exact Hother. rewrite Hrows.
    exists (Storage.rowsOf w c), []. split; [symmetry; apply app_nil_r |].
    apply pointing_refl.
Qed.

Lemma keptPointing_insert column id s :
  keeps (keptPointing column id) (Server.queryDatabaseObject s).
Proof.
  intros w. apply keptPointing_same_rows. intros c.
  unfold Server.queryDatabaseObject, bind, log. cbn.
  destruct (isSelect s); reflexivity.
Qed.

Lemma keptPointing_owned column id da targetId :
  Js.isNullOrUndefined id = false ->
  keeps (keptPointing column id) (DataAccessor.updateById da targetId [(column, id)]).
Proof.
  intros Hid w c. rewrite updateById_world.
  destruct (decide (DataAccessor.collection da = c)) as [<- | Hother].
  - rewrite rowsOf_withRows. eexists _, []. split; [symmetry; apply app_nil_r |].
    induction (Storage.rowsOf w (DataAccessor.collection da)) as [| r rows IH];
      cbn [map]; constructor; [| exact IH].
    intros Hr. destruct (Storage.hasId targetId r); [| exact Hr].
    unfold pointsAt, Js.assignAll. cbn [fold_left fst snd].
    rewrite lookup_assign_same. apply equal_refl, Hid.
  - rewrite rowsOf_withRows_other by exact Hother. rewrite rowsOf_logged.
    exact (keptPointing_refl column id w c).
Qed.

(** A new entity that names no relation property is stored as one row, and
    nothing else is written. *)
Lemma createEntity_flat_keptPointing column id fuel da entity :
  relationPropertiesOf (DataAccessor.getModel da) entity = [] ->
  keeps (keptPointing column id) (createEntity fuel da entity).
Proof.
  intros Hflat.
  set (R := keptPointing column id).
  assert (Hrefl : forall w, R w w) by apply keptPointing_refl.
  assert (Htrans : forall a b c, R a b -> R b c -> R a c)
    by apply keptPointing_trans.
  destruct fuel as [| fuel]; [apply (keeps_raise R Hrefl) |].
  cbn [createEntity]. unfold createEntityBody, oneRelationProperties,
    manyRelationProperties. rewrite Hflat. cbn [List.filter foldM].
  apply (keeps_bind R Htrans); [apply (keeps_ret R Hrefl) | intros row].
  apply (keeps_bind R Htrans); [apply keptPointing_create | intros newRow].
  apply (keeps_bind R Htrans); [apply (keeps_lift R Hrefl) | intros newEntity].
  apply (keeps_ret R Hrefl).
Qed.

Section Steps.
Variable create : RpdDataModel -> Value -> M Value.

Lemma updateRelated_keptPointing id p da x :
  Js.hasText (linkTableName p) = false ->
  Js.isNullOrUndefined id = false ->
  (forall owned,
      isReference x = false ->
      writeProp x (Js.keyOf (selfIdColumnName p)) id = Ok owned ->
      keeps (keptPointing (Js.keyOf (selfIdColumnName p)) id) (create da owned)) ->
  keeps (keptPointing (Js.keyOf (selfIdColumnName p)) id)
        (updateRelated create id p da x).
Proof.
  intros Hlink Hid Hcreate.
  set (R := keptPointing (Js.keyOf (selfIdColumnName p)) id) in *.
  assert (Hrefl : forall w, R w w) by apply keptPointing_refl.
  assert (Htrans : forall a b c, R a b -> R b c -> R a c)
    by apply keptPointing_trans.
  assert (Hlinked :
            forall k,
              keeps R
                (targetEntity <- DataAccessor.findById da k ;;
                 if negb (Js.truthy targetEntity)
                 then raise (ERelatedEntityNotFound k (code p))
                 else
                   DataAccessor.updateById da (Js.getProp targetEntity "id")
                     [(Js.keyOf (selfIdColumnName p), id)] ;;;
                   lift (writeProp targetEntity (Js.keyOf (selfIdColumnName p)) id))).
  { intros k. apply (keeps_bind R Htrans);
      [apply keptPointing_findById | intros targetEntity].
    destruct (negb (Js.truthy targetEntity)); [apply (keeps_raise R Hrefl) |].
    apply (keeps_bind R Htrans); [| intros _; apply (keeps_lift R Hrefl)].
    apply keptPointing_owned, Hid. }
  unfold updateRelated, isReference in *. rewrite Hlink. cbn [negb].
  destruct (Js.isObject x); cbn [negb orb] in *; [| apply Hlinked].
  destruct (Js.truthy (Js.getProp x "id")); cbn [negb]; [apply Hlinked |].
  intros w. unfold bind at 1. unfold lift at 1.
  destruct (writeProp x (Js.keyOf (selfIdColumnName p)) id) as [owned | e] eqn:Eowned;
    [| apply Hrefl].
  revert w. apply (keeps_bind R Htrans);
    [apply (Hcreate owned eq_refl eq_refl) | intros newEntity].
  apply (keeps_bind R Htrans); [apply (keeps_ret R Hrefl) | intros _].
  apply (keeps_ret R Hrefl).
Qed.

Lemma updateRelatedAll_keptPointing id p da items :
  Js.hasText (linkTableName p) = false ->
  Js.isNullOrUndefined id = false ->
  (forall x owned,
      In x items ->
      isReference x = false ->
      writeProp x (Js.keyOf (selfIdColumnName p)) id = Ok owned ->
      keeps (keptPointing (Js.keyOf (selfIdColumnName p)) id) (create da owned)) ->
  keeps (keptPointing (Js.keyOf (selfIdColumnName p)) id)
        (updateRelatedAll create id p da items).
Proof.
  intros Hlink Hid.
  set (R := keptPointing (Js.keyOf (selfIdColumnName p)) id).
  assert (Hrefl : forall w, R w w) by apply keptPointing_refl.
  assert (Htrans : forall a b c, R a b -> R b c -> R a c)
    by apply keptPointing_trans.
  unfold updateRelatedAll.
  match goal with |- context [foldM ?f] => set (step := f) end.
  generalize (@nil Value).
  induction items as [| x items IH]; intros acc Hcreate; cbn [foldM].
  - apply (keeps_ret R Hrefl).
  - apply (keeps_bind R Htrans).
    + unfold step. apply (keeps_bind R Htrans); [| intros; apply (keeps_ret R Hrefl)].
      apply updateRelated_keptPointing; [exact Hlink | exact Hid |].
      intros owned Hx Howned. apply (Hcreate x owned); [left; reflexivity | |];
        assumption.
    + intros acc'. apply IH. intros y owned Hin. apply Hcreate. right. exact Hin.
Qed.

(** What the loop over the elements does is what the specification says,
    element by element. *)
Lemma updateRelated_saved id p da x w related w' :
  updateRelated create id p da x w = (Ok related, w') ->
  SavedOne create id p da w x related w'.
Proof.
  assert (Hfound :
            forall k,
              referenceId x = k ->
              isReference x = true ->
              (targetEntity <- DataAccessor.findById da k ;;
               if negb (Js.truthy targetEntity)
               then raise (ERelatedEntityNotFound k (code p))
               else if Js.hasText (linkTableName p) then
                 Server.queryDatabaseObject (insertLink p id k) ;;;
                 ret targetEntity
               else
                 DataAccessor.updateById da (Js.getProp targetEntity "id")
                   [(Js.keyOf (selfIdColumnName p), id)] ;;;
                 lift (writeProp targetEntity (Js.keyOf (selfIdColumnName p)) id)) w
              = (Ok related, w') ->
              SavedOne create id p da w x related w').
  { intros k Hk Href E.
    apply bind_inv in E as (found & w1 & Efind & E).
    destruct (Js.truthy found) eqn:Htruthy; cbn [negb] in E; [| discriminate E].
    destruct (Js.hasText (linkTableName p)) eqn:Hlink.
    - apply bind_inv in E as (rows & w2 & Equery & E).
      injection E as <- <-. subst k.
      eapply SavedFoundAndLinked; eassumption.
    - apply bind_inv in E as (updated & w2 & Eupdate & E).
      unfold lift in E.
      destruct (writeProp found (Js.keyOf (selfIdColumnName p)) id)
        as [owned | e] eqn:Eowned; [| discriminate E].
      injection E as <- <-. subst k.
      eapply SavedFoundAndOwned; eassumption. }
  unfold updateRelated. intros E.
  destruct (Js.isObject x) eqn:Hobject.
  2: { apply (Hfound x); [unfold referenceId; rewrite Hobject; reflexivity
                         | unfold isReference; rewrite Hobject; reflexivity
                         | exact E]. }
  destruct (Js.truthy (Js.getProp x "id")) eqn:Hid; cbn [negb] in E.
  { apply (Hfound (Js.getProp x "id"));
      [unfold referenceId; rewrite Hobject; reflexivity
      | unfold isReference; rewrite Hobject, Hid; reflexivity
      | exact E]. }
  assert (Hembedded : isReference x = false).
  { unfold isReference. rewrite Hobject, Hid. reflexivity. }
  apply bind_inv in E as (targetEntity & w0 & Etarget & E).
  apply bind_inv in E as (created & w1 & Ecreate & E).
  apply bind_inv in E as (rows & w2 & Elink & E).
  injection E as <- <-.
  destruct (Js.hasText (linkTableName p)) eqn:Hlink; cbn [negb] in Etarget.
  - injection Etarget as <- <-.
    apply bind_inv in Elink as (newId & w3 & Eread & Elink).
    unfold lift, readProp in Eread.
    destruct (Js.isNullOrUndefined created) eqn:Hnull; [discriminate Eread |].
    injection Eread as <- <-.
    eapply SavedCreatedAndLinked; eassumption.
  - unfold lift in Etarget.
    destruct (writeProp x (Js.keyOf (selfIdColumnName p)) id) as [owned | e] eqn:Eowned;
      [| discriminate Etarget].
    injection Etarget as <- <-. injection Elink as _ <-.
    eapply SavedCreatedOwned; eassumption.
Qed.

Lemma updateRelatedAll_saved id p da items :
  forall w relatedEntities w',
    updateRelatedAll create id p da items w = (Ok relatedEntities, w') ->
    SavedAll create id p da w items relatedEntities w'.
Proof.
  unfold updateRelatedAll.
  match goal with |- context [foldM ?f] => set (step := f) end.
  assert (Hgeneral :
            forall acc w out w',
              foldM step acc items w = (Ok out, w') ->
              exists relatedEntities,
                out = acc ++ relatedEntities
                /\ SavedAll create id p da w items relatedEntities w').
  { induction items as [| x items IH]; intros acc w out w' E; cbn [foldM] in E.
    - injection E as <- <-. exists []. split; [symmetry; apply app_nil_r |].
      constructor.
    - apply bind_inv in E as (acc' & w1 & Estep & E).
      unfold step in Estep.
      apply bind_inv in Estep as (related & w1' & Eone & Estep).
      injection Estep as <- <-.
      destruct (IH _ _ _ _ E) as (relatedEntities & -> & Hsaved).
      exists (related :: relatedEntities). split.
      + rewrite <- app_assoc. reflexivity.
      + econstructor; [apply updateRelated_saved; exact Eone | exact Hsaved]. }
  intros w relatedEntities w' E.
  destruct (Hgeneral [] w relatedEntities w' E) as (l & -> & Hsaved). exact Hsaved.
Qed.

End Steps.

Lemma updateRelatedAll_grows fuel id p da items :
  keeps grows (updateRelatedAll (createEntity fuel) id p da items).
Proof.
  unfold updateRelatedAll.
  apply (keeps_foldM grows grows_refl grows_trans). intros acc x.
  apply (keeps_bind grows grows_trans);
    [| intros related; apply (keeps_ret grows grows_refl)].
  exact (createRelated_inserting grows grows_refl grows_trans grows_findById
           grows_updateById grows_insert (createEntity fuel)
           (createEntity_grows fuel) (VObj [("id", id)]) p da x).
Qed.

Lemma getDataAccessor_served target da w w' :
  Server.getDataAccessor target w = (Ok da, w') ->
  exists c,
    target = Some c /\ accessors w !! c = Some da
    /\ w' = logged (CGetDataAccessor (Some c)) w.
Proof.
  unfold Server.getDataAccessor, bind, log, logged. cbn.
  destruct target as [c |]; [| discriminate].
  destruct (accessors w !! c) as [m |] eqn:E; [| discriminate].
  intros Eq. injection Eq as <- <-. exists c. split; [reflexivity |].
  split; [exact E | reflexivity].
Qed.

Lemma cleared_of_owner column id rows :
  List.filter (fun r => Storage.equal (Js.lookup column r) id)
    (List.filter (fun r => negb (Storage.equal (Js.lookup column r) id)) rows)
  = [].
Proof.
  induction rows as [| r rows IH]; [reflexivity |].
  cbn [List.filter]. destruct (Storage.equal (Js.lookup column r) id) eqn:E;
    cbn [negb]; [exact IH |].
  cbn [List.filter]. rewrite E. exact IH.
Qed.

Lemma truthy_not_null v : Js.truthy v = true -> Js.isNullOrUndefined v = false.
Proof. destruct v; simpl; congruence. Qed.

(** One turn of the loop over the changed many-relation properties. *)
Lemma updateManyRelation_turn fuel id changes updatedEntity p w1 saved w2 :
  Js.isNullOrUndefined id = false ->
  updateManyRelation (createEntity fuel) id changes updatedEntity p w1
  = (Ok saved, w2) ->
  exists target targetAccessor items relatedEntities,
    targetSingularCode p = Some target
    /\ accessors w1 !! target = Some targetAccessor
    /\ Js.getProp changes (code p) = VArr items
    /\ saved = Js.assign (code p) (VArr relatedEntities) updatedEntity
    /\ let selfColumn := Js.keyOf (selfIdColumnName p) in
       let fetched := logged (CGetDataAccessor (Some target)) w1 in
       (Js.hasText (linkTableName p) = true ->
        let cleared :=
          withLinks (linkTableOf p)
            (List.filter (fun r => negb (pointsAt selfColumn id r))
               (Storage.linksOf w1 (linkTableOf p)))
            (logged (CQuery (clearLinks id p)) fetched) in
        List.filter (pointsAt selfColumn id) (Storage.linksOf cleared (linkTableOf p))
        = []
        /\ SavedAll (createEntity fuel) id p targetAccessor cleared items
             relatedEntities w2
        /\ exists inserted,
            Storage.linksOf w2 (linkTableOf p)
            = Storage.linksOf cleared (linkTableOf p) ++ inserted)
       /\
       (Js.hasText (linkTableName p) = false ->
        SavedAll (createEntity fuel) id p targetAccessor fetched items
          relatedEntities w2
        /\ grows w1 w2
        /\ ((forall x owned,
                In x items ->
                isReference x = false ->
                writeProp x selfColumn id = Ok owned ->
                keeps (keptPointing selfColumn id)
                  (createEntity fuel targetAccessor owned)) ->
            keptPointing selfColumn id w1 w2)).
Proof.
  intros Hid E. unfold updateManyRelation in E.
  apply bind_inv in E as (targetAccessor & fetched & Efetch & E).
  apply getDataAccessor_served in Efetch as (target & Htarget & Hserved & ->).
  destruct (Js.getProp changes (code p)) as [| | | | | items |] eqn:Hitems;
    try discriminate E.
  apply bind_inv in E as (deleted & cleared & Eclear & E).
  apply bind_inv in E as (relatedEntities & w2' & Esaved & E).
  injection E as <- <-.
  exists target, targetAccessor, items, relatedEntities.
  repeat (split; [assumption || reflexivity |]).
  intros selfColumn fetched. split; intros Hlink; rewrite Hlink in Eclear.
  - rewrite query_outcome in Eclear by reflexivity. injection Eclear as _ <-.
    intros cleared.
    assert (Ecleared :
              updateRelatedAll (createEntity fuel) id p targetAccessor items cleared
              = (Ok relatedEntities, w2')) by exact Esaved.
    split; [| split].
    + unfold cleared. rewrite linksOf_withLinks. apply cleared_of_owner.
    + apply updateRelatedAll_saved. exact Ecleared.
    + pose proof (updateRelatedAll_grows fuel id p targetAccessor items cleared) as G.
      rewrite Ecleared in G.
      destruct G as [_ G]. exact (G (linkTableOf p)).
  - injection Eclear as _ <-.
    assert (Efetched :
              updateRelatedAll (createEntity fuel) id p targetAccessor items fetched
              = (Ok relatedEntities, w2')) by exact Esaved.
    clear Esaved. rename Efetched into Esaved.
    split; [| split].
    + apply updateRelatedAll_saved. exact Esaved.
    + apply (grows_trans _ fetched); [apply grows_logged |].
      pose proof (updateRelatedAll_grows fuel id p targetAccessor items fetched) as G.
      rewrite Esaved in G. exact G.
    + intros Hcreate.
      apply (keptPointing_trans _ _ _ fetched);
        [apply keptPointing_same_rows; reflexivity |].
      pose proof (updateRelatedAll_keptPointing (createEntity fuel) id p
                    targetAccessor items Hlink Hid Hcreate fetched) as G.
      rewrite Esaved in G. exact G.
Qed.

(** C4.  Let [updateEntityById] succeed.  When the diff is not empty it
    has run the loop over the changed many-relation properties, one turn
    each in the order of the diff, after the lookup and the update of the
    row, neither of which touches a link table; the event it then emits
    changes no row and no link row.  Every turn that succeeds found the
    accessor of the target and an array of elements, set the relation key
    to the related entities, and saved the elements as follows.

    - Link table: the delete of all link rows whose self-id column equals
      the owner id is sent first; in the world it leaves no link row of the
      owner is in the table.  From that world on the elements are saved one
      by one as the specification of create says, each with its insert, and
      the table ends as the one the delete left followed by the rows
      inserted.
    - Foreign key: nothing is sent before the elements are saved one by
      one as the specification of create says.  No collection loses a row
      and no link table loses a row.  Every row that pointed at the owner
      still does, provided the create of each embedded new element, which
      may cascade, leaves such rows pointing.
    - Either way, and whether or not the turn succeeds, the loop over the
      elements starts in the world just described, the one the delete left
      or the one right after the accessor was fetched; and one element is
      saved by the update exactly as the create saves it for an owner of
      the same id: same outcome, same world. *)
Theorem update_many_relation_clears_links_only
  fuel dataAccessor id entityToSave plugin w result w' :
  updateEntityById fuel dataAccessor id entityToSave plugin w = (Ok result, w') ->
  exists before,
    fst (findById dataAccessor id false w) = Ok before
    /\ let changes := getEntityPartChanges before entityToSave in
       let turn := updateManyRelation (createEntity fuel) id changes in
       (Js.truthy changes = true ->
        exists updatedEntity w0 saved wN,
          linkTables w0 = linkTables w
          /\ foldM turn updatedEntity
               (manyRelationProperties (DataAccessor.getModel dataAccessor) changes) w0
             = (Ok saved, wN)
          /\ result = VObj saved
          /\ tables w' = tables wN /\ linkTables w' = linkTables wN
          /\ journal w' = journal wN)
       /\
       (forall updatedEntity p w1 saved w2,
           turn updatedEntity p w1 = (Ok saved, w2) ->
           exists target targetAccessor items relatedEntities,
             targetSingularCode p = Some target
             /\ accessors w1 !! target = Some targetAccessor
             /\ Js.getProp changes (code p) = VArr items
             /\ saved = Js.assign (code p) (VArr relatedEntities) updatedEntity
             /\ let selfColumn := Js.keyOf (selfIdColumnName p) in
                let fetched := logged (CGetDataAccessor (Some target)) w1 in
                (Js.hasText (linkTableName p) = true ->
                 let cleared :=
                   withLinks (linkTableOf p)
                     (List.filter (fun r => negb (pointsAt selfColumn id r))
                        (Storage.linksOf w1 (linkTableOf p)))
                     (logged (CQuery (clearLinks id p)) fetched) in
                 List.filter (pointsAt selfColumn id)
                   (Storage.linksOf cleared (linkTableOf p))
                 = []
                 /\ SavedAll (createEntity fuel) id p targetAccessor cleared items
                      relatedEntities w2
                 /\ exists inserted,
                     Storage.linksOf w2 (linkTableOf p)
                     = Storage.linksOf cleared (linkTableOf p) ++ inserted)
                /\
                (Js.hasText (linkTableName p) = false ->
                 SavedAll (createEntity fuel) id p targetAccessor fetched items
                   relatedEntities w2
                 /\ grows w1 w2
                 /\ ((forall x owned,
                         In x items ->
                         isReference x = false ->
                         writeProp x selfColumn id = Ok owned ->
                         keeps (keptPointing selfColumn id)
                           (createEntity fuel targetAccessor owned)) ->
                     keptPointing selfColumn id w1 w2)))
       /\
       (forall updatedEntity p w1 target targetAccessor items,
           targetSingularCode p = Some target ->
           accessors w1 !! target = Some targetAccessor ->
           Js.getProp changes (code p) = VArr items ->
           let selfColumn := Js.keyOf (selfIdColumnName p) in
           let fetched := logged (CGetDataAccessor (Some target)) w1 in
           let cleared :=
             withLinks (linkTableOf p)
               (List.filter (fun r => negb (pointsAt selfColumn id r))
                  (Storage.linksOf w1 (linkTableOf p)))
               (logged (CQuery (clearLinks id p)) fetched) in
           turn updatedEntity p w1
           = bind (updateRelatedAll (createEntity fuel) id p targetAccessor items)
               (fun relatedEntities =>
                  ret (Js.assign (code p) (VArr relatedEntities) updatedEntity))
               (if Js.hasText (linkTableName p) then cleared else fetched))
       /\
       (forall p targetAccessor newEntity element,
           Js.getProp newEntity "id" = id ->
           createRelated (createEntity fuel) newEntity p targetAccessor element
           = updateRelated (createEntity fuel) id p targetAccessor element).
Proof.
  intros E. unfold updateEntityById in E.
  destruct (Js.truthy id) eqn:Hid; cbn [negb] in E; [| discriminate E].
  apply bind_inv in E as (before & wl & Eload & E).
  exists before. split; [rewrite Eload; reflexivity |].
  intros changes turn. split; [| split; [| split]].
  - intros Hchanges.
    destruct (Js.truthy before); cbn [negb] in E; [| discriminate E].
    fold changes in E. rewrite Hchanges in E. cbn [negb] in E.
    apply bind_inv in E as (updatedRow & w0 & Erow & E).
    apply bind_inv in E as (saved & wN & Eloop & E).
    apply bind_inv in E as ([] & we & Eevent & E).
    injection E as <- <-.
    eexists _, w0, saved, wN.
    split; [| split; [exact Eloop | split; [reflexivity |]]].
    + assert (Hl : linkTables wl = linkTables w).
      { rewrite findById_unfold in Eload. injection Eload as _ <-. reflexivity. }
      rewrite <- Hl.
      destruct (fold_left _ _ _) as [| kv row] in Erow.
      * injection Erow as _ <-. reflexivity.
      * apply (f_equal snd) in Erow. rewrite updateById_world in Erow.
        cbn [snd] in Erow. subst w0. reflexivity.
    + unfold Server.emitEvent in Eevent. injection Eevent as <-.
      repeat split.
  - intros updatedEntity p w1 saved w2 Eturn.
    apply (updateManyRelation_turn fuel id changes updatedEntity p w1 saved w2);
      [apply truthy_not_null, Hid | exact Eturn].
  - intros updatedEntity p w1 target targetAccessor items Htarget Hserved Hitems
      selfColumn fetched cleared.
    unfold turn, updateManyRelation. rewrite Htarget, Hitems.
    erewrite bind_ok by (apply getDataAccessor_found; exact Hserved).
    fold fetched.
    destruct (Js.hasText (linkTableName p)).
    + unfold bind at 1. rewrite query_outcome by reflexivity. reflexivity.
    + reflexivity.
  - intros p targetAccessor newEntity element <-. reflexivity.
Qed.

End UpdateManySaved.

(** * The sample application, run *)

#[local] Existing Instance Blog.helpers.

Lemma rewriter_output_is_relation_free_witness :
  forallb relationFree
    [Logical and_ [Leaf "author_id" in_ (VArr [VNum 5]); Leaf "title" eq (VStr "t")]]
  = true
  /\ ReplacedAll Blog.byAnn
       [Logical and_ [Leaf "author_id" in_ (VArr [VNum 5]);
                      Leaf "title" eq (VStr "t")]].
Proof.
  eapply (rewriter_output_is_relation_free Blog.post Blog.byAnn Blog.sample).
  vm_compute. reflexivity.
Defined.

Lemma id_filter_on_one_relation_skips_subquery_witness :
  replaceFiltersWithFiltersOperator Blog.post
    [Existence notExists "author" [Leaf "id" in_ (VArr [VNum 5; VNum 6])]]
    Blog.sample
  = (Ok [Leaf "author_id" notIn (VArr [VNum 5; VNum 6])], Blog.sample).
Proof.
  apply (id_filter_on_one_relation_skips_subquery
           Blog.post notExists "author" Blog.author in_
           (VArr [VNum 5; VNum 6]) Blog.sample);
    [reflexivity | reflexivity | reflexivity | right; reflexivity].
Defined.

Lemma id_shortcut_agrees_with_subquery_witness :
  exists optimized general w',
    replaceFiltersWithFiltersOperator Blog.post
      [Existence exists_ "author" [Leaf "id" eq (VNum 5)]] Blog.sample
    = (Ok [optimized], Blog.sample)
    /\ replaceBySubquery Blog.author exists_ [Leaf "id" eq (VNum 5)] Blog.sample
       = (Ok general, w')
    /\ fst (DataAccessor.find Blog.post (plainFind [optimized] []) Blog.sample)
       = fst (DataAccessor.find Blog.post (plainFind [general] []) w').
Proof.
  apply (id_shortcut_agrees_with_subquery_when_references_resolve
           Blog.post "author" Blog.author "user" Blog.user (VNum 5) Blog.sample);
    try reflexivity.
  intros r _ _. exists Blog.ann. split; [left; reflexivity | reflexivity].
Defined.

(** C2, as stated, fails where a reference dangles: the post's author id is
    7 and no user has that id.  The rewriter's leaf selects the post; the
    subquery finds no user, and its [in] over no id selects nothing. *)
Lemma id_shortcut_differs_on_dangling_reference :
  replaceFiltersWithFiltersOperator Blog.post
    [Existence exists_ "author" [Leaf "id" eq (VNum 7)]] Blog.dangling
  = (Ok [Leaf "author_id" eq (VNum 7)], Blog.dangling)
  /\ fst (replaceBySubquery Blog.author exists_ [Leaf "id" eq (VNum 7)] Blog.dangling)
     = Ok (Leaf "author_id" in_ (VArr []))
  /\ fst (DataAccessor.find Blog.post
            (plainFind [Leaf "author_id" eq (VNum 7)] []) Blog.dangling)
     = Ok [[("id", VNum 1); ("author_id", VNum 7)]]
  /\ fst (DataAccessor.find Blog.post
            (plainFind [Leaf "author_id" in_ (VArr [])] [])
            (snd (replaceBySubquery Blog.author exists_ [Leaf "id" eq (VNum 7)]
                    Blog.dangling)))
     = Ok []
  /\ fst (DataAccessor.find Blog.post
            (plainFind [Leaf "author_id" eq (VNum 7)] []) Blog.dangling)
     <> fst (DataAccessor.find Blog.post
               (plainFind [Leaf "author_id" in_ (VArr [])] [])
               (snd (replaceBySubquery Blog.author exists_ [Leaf "id" eq (VNum 7)]
                       Blog.dangling))).
Proof.
  repeat split; try (vm_compute; reflexivity).
  vm_compute. discriminate.
Qed.

Lemma update_without_changes_writes_nothing_witness :
  let w1 := logged (CFind "post" (byId (VNum 1))) Blog.sample in
  updateEntityById 3 Blog.post (VNum 1) (VObj [("title", VStr "t")]) None Blog.sample
  = (Ok (VObj Blog.firstPost), w1)
  /\ tables w1 = tables Blog.sample
  /\ linkTables w1 = linkTables Blog.sample
  /\ events w1 = events Blog.sample
  /\ journal w1 = journal Blog.sample ++ [CFind "post" (byId (VNum 1))].
Proof.
  apply (update_without_changes_writes_nothing
           3 Blog.post (VNum 1) (VObj [("title", VStr "t")]) None
           (VObj Blog.firstPost) Blog.sample);
    vm_compute; reflexivity.
Defined.

Lemma deleteById_absent_and_present_witness :
  (EntityManager.deleteById Blog.post (VNum 9) None Blog.sample
   = (Ok tt, logged (CFind "post" (byId (VNum 9))) Blog.sample)
   /\ tables (logged (CFind "post" (byId (VNum 9))) Blog.sample) = tables Blog.sample
   /\ events (logged (CFind "post" (byId (VNum 9))) Blog.sample) = events Blog.sample
   /\ List.filter isWrite (journal (logged (CFind "post" (byId (VNum 9))) Blog.sample))
      = List.filter isWrite (journal Blog.sample))
  /\
  (exists w',
      EntityManager.deleteById Blog.post (VNum 1) None Blog.sample = (Ok tt, w')
      /\ Storage.rowsOf w' "post"
         = List.filter (fun r => negb (Storage.hasId (VNum 1) r))
             (Storage.rowsOf Blog.sample "post")
      /\ events w'
         = events Blog.sample ++ [EntityDelete "blog" "post" (VObj Blog.firstPost) None]
      /\ journal w'
         = journal Blog.sample ++ [CFind "post" (byId (VNum 1));
                                   CDeleteById "post" (VNum 1)]).
Proof.
  split.
  - apply (proj1 (deleteById_absent_and_present Blog.post (VNum 9) None Blog.sample)).
    vm_compute. reflexivity.
  - apply (proj2 (deleteById_absent_and_present Blog.post (VNum 1) None Blog.sample)
             Blog.firstPost [] (VObj Blog.firstPost) []);
      vm_compute; reflexivity.
Defined.

Lemma addRelations_twice_one_row_witness :
  let element := VObj [("id", VNum 3)] in
  let matches := Storage.pairIs "post_id" "tag_id" (VNum 1) (VNum 3) in
  let count := fun w => length (List.filter matches (Storage.linksOf w Blog.postTags)) in
  (exists w1 w2,
      EntityManager.addRelations Blog.post (VNum 1) "tags" [element] None Blog.sample
      = (Ok tt, w1)
      /\ EntityManager.addRelations Blog.post (VNum 1) "tags" [element] None w1
         = (Ok tt, w2)
      /\ linkTables w2 = linkTables w1
      /\ count w1 = 1%nat /\ count w2 = 1%nat)
  /\ (exists w',
        EntityManager.removeRelations Blog.post (VNum 1) "tags" [element] None
          Blog.sample
        = (Ok tt, w')
        /\ forall t, Storage.linksOf w' t = Storage.linksOf Blog.sample t).
Proof.
  destruct (addRelations_twice_one_row_removeRelations_absent_noop
              Blog.post (VNum 1) "tags" Blog.tags (VObj [("id", VNum 3)]) (VNum 3)
              None (VObj Blog.firstPost) Blog.sample
              (logged (CFind "post" (byId (VNum 1))) Blog.sample))
    as [(w1 & w2 & Hfirst & Hsecond & Hsame & Hone & Htwo & _) Hremove];
    try (vm_compute; reflexivity).
  - vm_compute. discriminate.
  - cbv zeta. split.
    + exists w1, w2. repeat split; assumption.
    + apply Hremove. reflexivity.
Defined.

Lemma expansion_skips_unregistered_link_target_only_witness :
  findEntities Press.article (Press.asking ["reviewers"]) Press.world
  = (Ok [VObj Press.lead], logged (CFind "article" (plainFind [] [])) Press.world)
  /\ (exists afterwards,
         journal (snd (findEntities Press.article
                         (Press.asking ["reviewers"; "drafts"]) Press.world))
         = [CFind "article" (plainFind [] []);
            CGetDataAccessor (Some "draft");
            CFind "draft" (plainFind [Leaf "post_id" in_ (VArr [VNum 1])] [])]
           ++ afterwards)
  /\ findEntities Press.article (Press.asking ["reviewers"; "drafts"]) Press.unserved
     = (Err (EDataModelNotFound (Some "draft")),
        logged (CGetDataAccessor (Some "draft"))
          (logged (CFind "article" (plainFind [] [])) Press.unserved)).
Proof.
  assert (Hskipped :
            forall w,
              registry w = [Press.article] ->
              Forall (fun p => Js.hasText (linkTableName p) = true /\ unregistered w p)
                [Blog.reviewers]).
  { intros w Hreg. constructor; [| constructor].
    split; [reflexivity |]. unfold unregistered, Server.getModel.
    rewrite Hreg. reflexivity. }
  assert (Hselected :
            forall w,
              foldM (selectProperty Press.article) ([], [])
                (selected (Press.asking ["reviewers"; "drafts"])) w
              = (Ok ([], [Blog.reviewers; Blog.drafts]), w))
    by reflexivity.
  assert (Hreviewers :
            forall w,
              foldM (selectProperty Press.article) ([], [])
                (selected (Press.asking ["reviewers"])) w
              = (Ok ([], [Blog.reviewers]), w))
    by reflexivity.
  assert (Hrewritten :
            forall codes w,
              replaceFiltersWithFiltersOperator Press.article
                (filters (Press.asking codes)) w
              = (Ok [], w))
    by reflexivity.
  assert (Hfound :
            forall w,
              Storage.rowsOf w "article" = [Press.lead] ->
              Storage.select (plainFind [] [])
                (Storage.rowsOf w (DataAccessor.collection Press.article))
              = [Press.lead]).
  { intros w Hrows. unfold DataAccessor.collection. cbn [singularCode Press.article].
    rewrite Hrows. reflexivity. }
  assert (Hserved : Storage.rowsOf Press.world "article" = [Press.lead])
    by (vm_compute; reflexivity).
  assert (Hunserved : Storage.rowsOf Press.unserved "article" = [Press.lead])
    by (vm_compute; reflexivity).
  split; [| split].
  - rewrite (proj1 (expansion_skips_unregistered_link_target_only
                      Press.article (Press.asking ["reviewers"]) [] [Blog.reviewers] []
                      Press.world Press.world Press.lead [] [Blog.reviewers]
                      (Hreviewers Press.world) (Hrewritten _ Press.world)
                      (Hfound Press.world Hserved)
                      (Hskipped Press.world eq_refl))
               eq_refl).
    reflexivity.
  - destruct (proj2 (expansion_skips_unregistered_link_target_only
                       Press.article (Press.asking ["reviewers"; "drafts"]) []
                       [Blog.reviewers; Blog.drafts] []
                       Press.world Press.world Press.lead [] [Blog.reviewers]
                       (Hselected Press.world) (Hrewritten _ Press.world)
                       (Hfound Press.world Hserved)
                       (Hskipped Press.world eq_refl))
                    Blog.drafts [] eq_refl eq_refl eq_refl)
      as (calls & Hjournal & _ & Hfetch).
    destruct (Hfetch "draft" Press.draft eq_refl eq_refl) as (afterwards & ->).
    exists afterwards. exact Hjournal.
  - destruct (proj2 (expansion_skips_unregistered_link_target_only
                       Press.article (Press.asking ["reviewers"; "drafts"]) []
                       [Blog.reviewers; Blog.drafts] []
                       Press.unserved Press.unserved Press.lead [] [Blog.reviewers]
                       (Hselected Press.unserved) (Hrewritten _ Press.unserved)
                       (Hfound Press.unserved Hunserved)
                       (Hskipped Press.unserved eq_refl))
                    Blog.drafts [] eq_refl eq_refl eq_refl)
      as (calls & _ & Hfails & _).
    apply Hfails. intros target E. injection E as <-. reflexivity.
Defined.

Lemma update_many_relation_clears_links_only_witness :
  let entityToSave :=
    VObj [("tags", VArr [VObj [("label", VStr "y")]; VNum 3]);
          ("comments", VArr [VObj [("body", VStr "new")]; VNum 21])] in
  let turn := updateManyRelation (createEntity 3) (VNum 1) entityToSave in
  exists result w',
    updateEntityById 3 Blog.post (VNum 1) entityToSave None Blog.discussed
    = (Ok result, w')
    /\ (exists updatedEntity w0 saved wN,
           foldM turn updatedEntity [Blog.tags; Blog.comments] w0 = (Ok saved, wN)
           /\ result = VObj saved
           /\ tables w' = tables wN /\ linkTables w' = linkTables wN)
    /\ (exists saved w2 relatedEntities,
           turn [] Blog.tags Blog.discussed = (Ok saved, w2)
           /\ SavedAll (createEntity 3) (VNum 1) Blog.tags Blog.tag
                (withLinks Blog.postTags []
                   (logged (CQuery (clearLinks (VNum 1) Blog.tags))
                      (logged (CGetDataAccessor (Some "tag")) Blog.discussed)))
                [VObj [("label", VStr "y")]; VNum 3] relatedEntities w2)
    /\ (exists saved w2,
           turn [] Blog.comments Blog.discussed = (Ok saved, w2)
           /\ grows Blog.discussed w2
           /\ keptPointing "post_id" (VNum 1) Blog.discussed w2).
Proof.
  cbv zeta.
  set (entityToSave :=
         VObj [("tags", VArr [VObj [("label", VStr "y")]; VNum 3]);
               ("comments", VArr [VObj [("body", VStr "new")]; VNum 21])]).
  destruct (updateEntityById 3 Blog.post (VNum 1) entityToSave None Blog.discussed)
    as [[result | e] w'] eqn:Hrun; [| vm_compute in Hrun; discriminate Hrun].
  destruct (update_many_relation_clears_links_only
              3 Blog.post (VNum 1) entityToSave None Blog.discussed result w' Hrun)
    as (before & Hbefore & Hloop & Hturn & _).
  vm_compute in Hbefore. injection Hbefore as <-.
  exists result, w'. split; [reflexivity |]. split; [| split].
  - destruct (Hloop eq_refl)
      as (updatedEntity & w0 & saved & wN & _ & Eloop & -> & Ht & Hl & _).
    exists updatedEntity, w0, saved, wN. repeat split; assumption.
  - destruct (updateManyRelation (createEntity 3) (VNum 1) entityToSave []
                Blog.tags Blog.discussed)
      as [[saved | e] w2] eqn:Eturn; [| vm_compute in Eturn; discriminate Eturn].
    destruct (Hturn [] Blog.tags Blog.discussed saved w2 Eturn)
      as (target & targetAccessor & items & relatedEntities
          & Htarget & Hserved & Hitems & _ & Hlinked & _).
    injection Htarget as <-.
    vm_compute in Hserved. injection Hserved as <-.
    vm_compute in Hitems. injection Hitems as <-.
    destruct (Hlinked eq_refl) as (_ & Hsaved & _).
    exists saved, w2, relatedEntities. split; [reflexivity | exact Hsaved].
  - destruct (updateManyRelation (createEntity 3) (VNum 1) entityToSave []
                Blog.comments Blog.discussed)
      as [[saved | e] w2] eqn:Eturn; [| vm_compute in Eturn; discriminate Eturn].
    destruct (Hturn [] Blog.comments Blog.discussed saved w2 Eturn)
      as (target & targetAccessor & items & relatedEntities
          & Htarget & Hserved & Hitems & _ & _ & Howned).
    injection Htarget as <-.
    vm_compute in Hserved. injection Hserved as <-.
    vm_compute in Hitems. injection Hitems as <-.
    destruct (Howned eq_refl) as (_ & Hgrows & Hkept).
    exists saved, w2. split; [reflexivity | split; [exact Hgrows |]].
    apply Hkept. intros x owned [<- | [<- | []]] Hembedded Eowned.
    + injection Eowned as <-.
      apply createEntity_flat_keptPointing. reflexivity.
    + discriminate Hembedded.
Defined.

(** C4, on the sample outline.  Saving the children of the root as one new
    section that takes the leaf as its child succeeds; the leaf, whose
    [parent_id] pointed at the root, then points at the section. *)
Lemma update_repoints_a_row_named_by_a_nested_relation :
  let section := VObj [("name", VStr "section"); ("children", VArr [VNum 2])] in
  let run :=
    updateEntityById 3 Outline.node (VNum 1) (VObj [("children", VArr [section])])
      None Outline.world in
  (exists result, fst run = Ok result)
  /\ Js.hasText (linkTableName Outline.children) = false
  /\ map (Js.lookup "parent_id") (Storage.rowsOf Outline.world "node")
     = [VUndefined; VNum 1]
  /\ map (Js.lookup "parent_id") (Storage.rowsOf (snd run) "node")
     = [VUndefined; VNum 10; VNum 1]
  /\ ~ keptPointing "parent_id" (VNum 1) Outline.world (snd run).
Proof.
  cbv zeta. split; [eexists; vm_compute; reflexivity |].
  split; [reflexivity |]. split; [reflexivity |]. split; [vm_compute; reflexivity |].
  intros Hkept. destruct (Hkept "node") as (kept & added & Erows & Hpointing).
  vm_compute in Erows.
  change (Storage.rowsOf Outline.world "node") with [Outline.root; Outline.leaf]
    in Hpointing.
  inversion Hpointing as [| r1 k1 rest1 krest1 _ Hrest E1 E2]; subst.
  inversion Hrest as [| r2 k2 rest2 krest2 Hleaf Hnil E3 E4]; subst.
  inversion Hnil; subst.
  cbn [app] in Erows. injection Erows as _ <- _.
  specialize (Hleaf eq_refl). vm_compute in Hleaf. discriminate Hleaf.
Qed.

(** C3, on the sample application.  Updating the post with an embedded
    author that has no id returns, creates no user, and writes the undefined
    id of the embedded object into the post's [author_id] column; creating a
    post with the same embedded author creates the user and uses its new
    id. *)
Lemma update_writes_undefined_for_embedded_one_relation :
  let embedded := VObj [("name", VStr "bob")] in
  let updated :=
    updateEntityById 3 Blog.post (VNum 1) (VObj [("author", embedded)]) None
      Blog.sample in
  let created :=
    createEntity 3 Blog.post (VObj [("title", VStr "u"); ("author", embedded)])
      Blog.sample in
  fst updated
  = Ok (VObj [("id", VNum 1); ("title", VStr "t"); ("author_id", VUndefined)])
  /\ Storage.rowsOf (snd updated) "user" = [Blog.ann]
  /\ journal (snd updated)
     = [CFind "post" (byId (VNum 1));
        CUpdateById "post" (VNum 1) [("author_id", VUndefined)]]
  /\ fst created
     = Ok (VObj [("title", VStr "u"); ("author_id", VNum 10); ("id", VNum 11)])
  /\ Storage.rowsOf (snd created) "user"
     = [Blog.ann; [("name", VStr "bob"); ("id", VNum 10)]].
Proof. vm_compute. repeat split; reflexivity. Qed.

(** Whatever the embedded object of a changed one-relation holds, the update
    resolves it without any effect: the column gets the object's [id]
    property, which is a falsy value when the object has no id. *)
Lemma updateOneRelation_embedded `{Externals} changes row p fieldValue :
  Js.getProp changes (code p) = fieldValue ->
  Js.isObject fieldValue = true ->
  Js.lookup (Js.keyOf (targetIdColumnName p)) (updateOneRelation changes row p)
  = Js.getProp fieldValue "id".
Proof.
  intros <- Hobject. unfold updateOneRelation. rewrite Hobject.
  apply lookup_assign_same.
Qed.

(** A create that cascades into three collections and one link table emits
    the single event of the post. *)
Example cascading_create_emits_one_event :
  let entity :=
    VObj [("title", VStr "u");
          ("author", VObj [("name", VStr "bob")]);
          ("comments", VArr [VObj [("body", VStr "hi")]]);
          ("tags", VArr [VObj [("label", VStr "y")]; VNum 3])] in
  let run := EntityManager.createEntity 3 Blog.post entity None Blog.sample in
  map (fun c => match c with CCreate collection _ => collection | _ => "" end)
      (List.filter isWrite (journal (snd run)))
  = ["user"; "post"; "comment"; "tag"; ""; ""]
  /\ exists after, events (snd run) = [EntityCreate "blog" "post" after None].
Proof. vm_compute. split; [reflexivity | eexists; reflexivity]. Qed.

(** On the sample application: saving the comments of the post as [[21]]
    links comment 21 and leaves comment 20, which is not in the new list,
    pointing at the post; saving its tags as [[]] removes its link row. *)
Example update_replaces_links_and_keeps_foreign_keys :
  let recommented :=
    updateEntityById 3 Blog.post (VNum 1) (VObj [("comments", VArr [VNum 21])])
      None Blog.discussed in
  let untagged :=
    updateEntityById 3 Blog.post (VNum 1) (VObj [("tags", VArr [])])
      None Blog.discussed in
  map (Js.lookup "post_id") (Storage.rowsOf (snd recommented) "comment")
  = [VNum 1; VNum 1]
  /\ Storage.linksOf (snd recommented) Blog.postTags
     = Storage.linksOf Blog.discussed Blog.postTags
  /\ Storage.linksOf (snd untagged) Blog.postTags = [].
Proof. vm_compute. repeat split; reflexivity. Qed.

(** Creating a post with two new tags yields two tags with new ids and two
    link rows; creating a post with one new comment creates the post, then
    the comment with its [post_id] set to the new post id. *)
Example cascading_create_links_and_parents :
  let tagged :=
    createEntity 3 Blog.post
      (VObj [("title", VStr "u");
             ("tags", VArr [VObj [("label", VStr "y")]; VObj [("label", VStr "z")]])])
      Blog.sample in
  let commented :=
    createEntity 3 Blog.post
      (VObj [("title", VStr "u"); ("comments", VArr [VObj [("body", VStr "hi")]])])
      Blog.sample in
  fst tagged
  = Ok (VObj [("title", VStr "u"); ("id", VNum 10);
              ("tags", VArr [VObj [("label", VStr "y"); ("id", VNum 11)];
                             VObj [("label", VStr "z"); ("id", VNum 12)]])])
  /\ Storage.linksOf (snd tagged) Blog.postTags
     = [[("post_id", VNum 10); ("tag_id", VNum 11)];
        [("post_id", VNum 10); ("tag_id", VNum 12)]]
  /\ fst commented
     = Ok (VObj [("title", VStr "u"); ("id", VNum 10);
                 ("comments",
                  VArr [VObj [("body", VStr "hi"); ("post_id", VNum 10);
                              ("id", VNum 11)]])])
  /\ Storage.rowsOf (snd commented) "comment"
     = [[("body", VStr "hi"); ("post_id", VNum 10); ("id", VNum 11)]].
Proof. vm_compute. repeat split; reflexivity. Qed.

(** ** The further properties, run *)

Lemma expansion_sets_only_the_relation_key_witness :
  exists expanded w',
    expandRelation Blog.post [VNum 1] [Blog.firstPost] Blog.comments Blog.discussed
    = (Ok expanded, w')
    /\ Forall2 (agreeExcept "comments") [Blog.firstPost] expanded
    /\ map (Js.lookup "comments") expanded = [VArr [VObj Blog.commentA]].
Proof.
  destruct (expandRelation Blog.post [VNum 1] [Blog.firstPost] Blog.comments
              Blog.discussed) as [[expanded | e] w'] eqn:Hrun.
  - exists expanded, w'. split; [reflexivity | split].
    + exact (expansion_sets_only_the_relation_key
               Blog.post [VNum 1] [Blog.firstPost] Blog.comments Blog.discussed
               expanded w' Hrun).
    + vm_compute in Hrun. injection Hrun as <- _. reflexivity.
  - vm_compute in Hrun. discriminate Hrun.
Defined.

Lemma rewriter_output_is_a_fixed_point_witness :
  let rewritten :=
    [Logical and_ [Leaf "author_id" in_ (VArr [VNum 5]); Leaf "title" eq (VStr "t")]] in
  replaceFiltersWithFiltersOperator Blog.user rewritten Blog.dangling
  = (Ok rewritten, Blog.dangling).
Proof.
  eapply (rewriter_output_is_a_fixed_point Blog.post Blog.byAnn Blog.sample).
  vm_compute. reflexivity.
Defined.

Lemma rewriter_rejects_invalid_existence_witness :
  let ann := [Leaf "name" eq (VStr "ann")] in
  replaceFiltersWithFiltersOperator Blog.post [Existence exists_ "nope" ann] Blog.sample
  = (Err (EFilterPropertyNotFound "nope" "blog" "post"), Blog.sample)
  /\ replaceFiltersWithFiltersOperator Blog.post [Existence exists_ "title" ann]
       Blog.sample
     = (Err (EExistenceOnNonRelation "title"), Blog.sample)
  /\ replaceFiltersWithFiltersOperator Blog.post [Existence exists_ "author" []]
       Blog.sample
     = (Err EFiltersRequired, Blog.sample)
  /\ replaceFiltersWithFiltersOperator Site.shelf [Existence exists_ "orphans" ann]
       Blog.sample
     = (Err (ESelfIdColumnNotConfigured "orphans"), Blog.sample)
  /\ replaceFiltersWithFiltersOperator Site.shelf [Existence exists_ "labels" ann]
       Blog.sample
     = (Err (ETargetIdColumnNotConfigured "labels"), Blog.sample).
Proof.
  cbv zeta. split; [| split; [| split; [| split]]].
  - apply (proj1 (rewriter_rejects_invalid_existence_before_any_call
                    Blog.post exists_ "nope" _ [] Blog.sample)).
    reflexivity.
  - apply (proj1 (proj2 (rewriter_rejects_invalid_existence_before_any_call
                           Blog.post exists_ "title" _ [] Blog.sample)
                    (Blog.scalar "title") eq_refl)).
    reflexivity.
  - apply (proj1 (proj2 (proj2 (rewriter_rejects_invalid_existence_before_any_call
                                  Blog.post exists_ "author" [] [] Blog.sample)
                           Blog.author eq_refl)));
      reflexivity.
  - apply (proj1 (proj2 (proj2 (proj2
             (rewriter_rejects_invalid_existence_before_any_call
                Site.shelf exists_ "orphans" _ [] Blog.sample)
             Site.orphans eq_refl))));
      try reflexivity. discriminate.
  - apply (proj2 (proj2 (proj2 (proj2
             (rewriter_rejects_invalid_existence_before_any_call
                Site.shelf exists_ "labels" _ [] Blog.sample)
             Site.labels eq_refl))));
      try reflexivity. discriminate.
Defined.

Lemma one_relation_filter_selects_rows_by_their_target_witness :
  exists f w',
    replaceFiltersWithFiltersOperator Blog.post
      [Existence exists_ "author" [Leaf "name" eq (VStr "ann")]] Blog.sample
    = (Ok [f], w')
    /\ Storage.holds Blog.firstPost f = true
    /\ Storage.holds [("id", VNum 2); ("author_id", VNum 6)] f <> true.
Proof.
  destruct (one_relation_filter_selects_rows_by_their_target
              Blog.post exists_ "author" [Leaf "name" eq (VStr "ann")]
              Blog.author "user" Blog.user Blog.sample)
    as (f & w' & Hrun & Hselects); try reflexivity; [discriminate |].
  exists f, w'. split; [exact Hrun | split].
  - apply Hselects. exists Blog.ann. repeat split. left. reflexivity.
  - intros Hheld. apply Hselects in Hheld as (t & [<- | []] & _ & E).
    discriminate E.
Defined.

Lemma many_relation_by_foreign_key_filter_selects_owners_witness :
  let attached := [Leaf "body" eq (VStr "first")] in
  fst (replaceFiltersWithFiltersOperator Blog.post
         [Existence exists_ "comments" attached] Blog.discussed)
  = Ok [Leaf "id" in_ (VArr [VNum 1])]
  /\ Storage.holds Blog.firstPost (Leaf "id" in_ (VArr [VNum 1])) = true
  /\ fst (replaceFiltersWithFiltersOperator Blog.post
            [Existence notExists "comments" attached] Blog.discussed)
     = Ok [Leaf "id" notIn (VArr [VNum 1])]
  /\ Storage.holds Blog.firstPost (Leaf "id" notIn (VArr [VNum 1])) <> true.
Proof.
  cbv zeta.
  destruct (many_relation_by_foreign_key_filter_selects_owners (H := Blog.helpers)
              Blog.post exists_ "comments" [Leaf "body" eq (VStr "first")]
              Blog.comments "comment" Blog.comment Blog.discussed
              eq_refl eq_refl eq_refl ltac:(discriminate) eq_refl eq_refl eq_refl
              eq_refl)
    as (Hrun & _ & Hselects).
  destruct (many_relation_by_foreign_key_filter_selects_owners (H := Blog.helpers)
              Blog.post notExists "comments" [Leaf "body" eq (VStr "first")]
              Blog.comments "comment" Blog.comment Blog.discussed
              eq_refl eq_refl eq_refl ltac:(discriminate) eq_refl eq_refl eq_refl
              eq_refl)
    as (Hrun' & _ & Hrejects).
  split; [exact Hrun | split; [| split; [exact Hrun' |]]].
  - apply (Hselects ltac:(discriminate) Blog.firstPost).
    exists Blog.commentA. repeat split. left. reflexivity.
  - intros Hheld.
    assert (Hattached :
              forall t,
                In t (Storage.rowsOf Blog.discussed (DataAccessor.collection Blog.comment)) ->
                forallb (Storage.holds t) [Leaf "body" eq (VStr "first")] = true ->
                Js.isNullOrUndefined (Js.lookup "post_id" t) = false).
    { intros t [<- | [<- | []]] Hbody; [reflexivity | discriminate Hbody]. }
    apply (Hrejects (fun _ => Hattached) Blog.firstPost) in Hheld as [_ Hnone].
    apply Hnone. exists Blog.commentA. repeat split. left. reflexivity.
Defined.

Lemma many_relation_by_link_table_filter_selects_owners_witness :
  exists f w',
    replaceFiltersWithFiltersOperator Blog.post
      [Existence notExists "tags" [Leaf "label" eq (VStr "y")]] Blog.discussed
    = (Ok [f], w')
    /\ Storage.holds Blog.firstPost f = true.
Proof.
  destruct (many_relation_by_link_table_filter_selects_owners
              Blog.post notExists "tags" [Leaf "label" eq (VStr "y")]
              Blog.tags "tag" Blog.tag Blog.discussed)
    as (f & w' & Hrun & Hselects); try reflexivity; [discriminate |].
  exists f, w'. split; [exact Hrun |].
  apply Hselects. split; [reflexivity |].
  intros (link & t & _ & [<- | []] & Hlabel & _). discriminate Hlabel.
Defined.

Lemma findEntities_rejects_unknown_property_witness :
  let options :=
    {| filters := []; orderBy := None; pagination := None;
       selected := ["title"; "nope"]; keepNonPropertyFields := false |} in
  exists e,
    findEntities Blog.post options Blog.sample = (Err e, Blog.sample)
    /\ selectionError Blog.post ["title"; "nope"] e.
Proof.
  apply (findEntities_rejects_unknown_property_before_any_call
           Blog.post
           {| filters := []; orderBy := None; pagination := None;
              selected := ["title"; "nope"]; keepNonPropertyFields := false |}
           "nope" Blog.sample).
  - right. left. reflexivity.
  - reflexivity.
Defined.

Lemma updateEntityById_rejects_falsy_id_and_unknown_entity_witness :
  updateEntityById 3 Blog.post (VNum 0) (VObj [("title", VStr "u")]) None Blog.sample
  = (Err EIdRequired, Blog.sample)
  /\ updateEntityById 3 Blog.post (VNum 9) (VObj [("title", VStr "u")]) None
       Blog.sample
     = (Err (EEntityNotFound "blog" "post" (VNum 9)),
        logged (CFind "post" (byId (VNum 9))) Blog.sample).
Proof.
  split.
  - apply (proj1 (updateEntityById_rejects_falsy_id_and_unknown_entity
                    3 Blog.post (VNum 0) _ None Blog.sample)).
    reflexivity.
  - apply (proj2 (updateEntityById_rejects_falsy_id_and_unknown_entity
                    3 Blog.post (VNum 9) _ None Blog.sample));
      vm_compute; reflexivity.
Defined.

Lemma relations_kept_in_a_foreign_key_are_not_edited_witness :
  let looked := logged (CFind "post" (byId (VNum 1))) Blog.discussed in
  EntityManager.addRelations Blog.post (VNum 1) "comments" [VObj [("id", VNum 21)]]
    None Blog.discussed
  = (Ok tt,
     withEvent
       (EntityAddRelations "blog" "post" (VObj Blog.firstPost) "comments"
          [VObj [("id", VNum 21)]] None) looked)
  /\ Storage.rowsOf looked "comment" = [Blog.commentA; Blog.commentB].
Proof.
  destruct (relations_kept_in_a_foreign_key_are_not_edited
              Blog.post (VNum 1) "comments" Blog.comments [VObj [("id", VNum 21)]]
              None (VObj Blog.firstPost) Blog.discussed
              (logged (CFind "post" (byId (VNum 1))) Blog.discussed))
    as (Hadd & _); try (vm_compute; reflexivity).
  split; [exact Hadd | vm_compute; reflexivity].
Defined.

Lemma relations_reject_unknown_owner_and_unfit_property_witness :
  EntityManager.addRelations Blog.post (VNum 9) "tags" [] None Blog.sample
  = (Err (EEntityNotFound "blog" "post" (VNum 9)),
     logged (CFind "post" (byId (VNum 9))) Blog.sample)
  /\ EntityManager.removeRelations Blog.post (VNum 1) "nope" [] None Blog.sample
     = (Err (EPropertyNotFound "nope" "blog" "post"),
        logged (CFind "post" (byId (VNum 1))) Blog.sample)
  /\ EntityManager.addRelations Blog.post (VNum 1) "author" [] None Blog.sample
     = (Err (EOnlyManyRelation "addRelations"),
        logged (CFind "post" (byId (VNum 1))) Blog.sample).
Proof.
  assert (Hload :
            findById Blog.post (VNum 1) false Blog.sample
            = (Ok (VObj Blog.firstPost),
               logged (CFind "post" (byId (VNum 1))) Blog.sample))
    by (vm_compute; reflexivity).
  split; [| split].
  - apply (proj1 (relations_reject_unknown_owner_and_unfit_property
                    Blog.post (VNum 9) "tags" [] None Blog.sample)).
    vm_compute. reflexivity.
  - apply (proj1 (proj2 (relations_reject_unknown_owner_and_unfit_property
                           Blog.post (VNum 1) "nope" [] None Blog.sample)
                    (VObj Blog.firstPost) Hload eq_refl)).
    reflexivity.
  - apply (proj2 (proj2 (relations_reject_unknown_owner_and_unfit_property
                           Blog.post (VNum 1) "author" [] None Blog.sample)
                    (VObj Blog.firstPost) Hload eq_refl)
             Blog.author);
      reflexivity.
Defined.

Lemma removeRelations_undoes_addRelations_witness :
  exists w1 w2,
    EntityManager.addRelations Blog.post (VNum 1) "tags" [VObj [("id", VNum 3)]]
      None Blog.sample
    = (Ok tt, w1)
    /\ EntityManager.removeRelations Blog.post (VNum 1) "tags"
         [VObj [("id", VNum 3)]] None w1
       = (Ok tt, w2)
    /\ Storage.linksOf w1 Blog.postTags = [[("post_id", VNum 1); ("tag_id", VNum 3)]]
    /\ Storage.linksOf w2 Blog.postTags = Storage.linksOf Blog.sample Blog.postTags.
Proof.
  destruct (removeRelations_undoes_addRelations
              Blog.post (VNum 1) "tags" Blog.tags (VObj [("id", VNum 3)]) (VNum 3)
              None (VObj Blog.firstPost) Blog.sample
              (logged (CFind "post" (byId (VNum 1))) Blog.sample))
    as (w1 & w2 & Hadd & Hremove & _ & _ & Hback & _);
    try (vm_compute; reflexivity).
  - vm_compute. discriminate.
  - exists w1, w2. split; [exact Hadd | split; [exact Hremove | split]].
    + apply (f_equal snd) in Hadd. cbn [snd] in Hadd. subst w1.
      vm_compute. reflexivity.
    + apply Hback. reflexivity.
Defined.

Lemma createEntity_stores_the_owner_before_rejecting_a_non_array_witness :
  exists stored w',
    EntityManager.createEntity 2 Blog.post
      (VObj [("title", VStr "x"); ("comments", VNum 5)]) None Blog.sample
    = (Err (ENotAnArray "comments"), w')
    /\ Storage.rowsOf w' "post" = Storage.rowsOf Blog.sample "post" ++ [stored]
    /\ events w' = events Blog.sample.
Proof.
  apply (createEntity_stores_the_owner_before_rejecting_a_non_array
           1 Blog.post (VObj [("title", VStr "x"); ("comments", VNum 5)])
           Blog.comments [] "comment" Blog.comment None Blog.sample);
    try reflexivity.
  intros row. exists row. reflexivity.
Defined.

Lemma deleteById_again_does_nothing_witness :
  let w1 := snd (EntityManager.deleteById Blog.post (VNum 1) None Blog.sample) in
  Storage.rowsOf w1 "post" = []
  /\ EntityManager.deleteById Blog.post (VNum 1) None w1
     = (Ok tt, logged (CFind "post" (byId (VNum 1))) w1).
Proof.
  split; [vm_compute; reflexivity |].
  apply (deleteById_again_does_nothing Blog.post (VNum 1) None None Blog.sample).
  vm_compute. reflexivity.
Defined.


Lemma createSession_answers_by_the_account_alone_witness :
  fst (CreateSession.handler Site.sign Site.setCookie (VNum 0) "sid"
         (Site.signIn "alice" "secret") Site.world)
  = Ok (Http.Done
          {| Http.input := [("account", VStr "alice"); ("password", VStr "secret")];
             Http.output := VObj [("token", VStr "jwt:7")];
             Http.status := VUndefined;
             Http.cookies :=
               [{| Http.name := "sid"; Http.value := "jwt:7"; Http.path := "/" |}] |})
  /\ fst (CreateSession.handler Site.sign Site.setCookie (VNum 0) "sid"
            (Site.signIn "bob" "secret") Site.world)
     = Ok (Http.Thrown "Wrong account or password.").
Proof.
  split.
  - rewrite (proj1 (createSession_answers_by_the_account_alone
                      Site.sign Site.setCookie (VNum 0) "sid"
                      (Site.signIn "alice" "secret")
                      Site.account Site.world eq_refl)).
    vm_compute. reflexivity.
  - rewrite (proj1 (createSession_answers_by_the_account_alone
                      Site.sign Site.setCookie (VNum 0) "sid"
                      (Site.signIn "bob" "secret")
                      Site.account Site.world eq_refl)).
    vm_compute. reflexivity.
Defined.


Lemma buildRoutes_hands_restful_routes_to_the_router_witness :
  let signIn := Site.signInRoute in
  buildRoutes Routing.Router Routing.upperCase [] (Some "/api/")
    [Routing.page; signIn]
  = buildRoutes Routing.Router Routing.upperCase [] (Some "/api") [signIn]
  /\ buildRoutes Routing.Router Routing.upperCase [] (Some "/api") [signIn]
     = Registered Routing.Router
         [(Route.method signIn, "/api" +:+ Route.endpoint signIn, signIn)]
  /\ buildRoutes Routing.Router Routing.lowerCase [] (Some "/api")
       [Routing.page; signIn; signIn]
     = NotAFunction Routing.Router (Route.method signIn).
Proof.
  cbv zeta.
  pose proof (buildRoutes_hands_restful_routes_to_the_router
                Routing.Router Routing.upperCase [] (Some "/api/") "/api"
                [Routing.page; Site.signInRoute]) as (Hrestful & _ & _ & Hslash & _).
  pose proof (buildRoutes_hands_restful_routes_to_the_router
                Routing.Router Routing.upperCase [] (Some "/api") "/api"
                [Site.signInRoute]) as (_ & _ & Haccepted & _ & _).
  pose proof (buildRoutes_hands_restful_routes_to_the_router
                Routing.Router Routing.lowerCase [] (Some "/api") "/api"
                [Routing.page; Site.signInRoute; Site.signInRoute])
    as (_ & Hstops & _ & _ & _).
  split; [| split].
  - cbv zeta in Hrestful, Hslash. rewrite Hrestful.
    rewrite (Hslash eq_refl) at 1. reflexivity.
  - cbv zeta in Haccepted. rewrite (Haccepted Routing.record); [reflexivity |].
    intros routeConfig [<- | []] _. eexists. split; reflexivity.
  - cbv zeta in Hstops.
    rewrite (Hstops [Routing.page] Site.signInRoute [Site.signInRoute]
               eq_refl eq_refl eq_refl).
    reflexivity.
Defined.

Lemma data_manager_routes_call_upper_case_router_functions_witness :
  buildRoutes Routing.Router Routing.lowerCase [] (Some "/api/")
    (DataManager.configureRoutes [Blog.post; Blog.tag])
  = NotAFunction Routing.Router "POST"
  /\ exists router,
      buildRoutes Routing.Router Routing.upperCase [] (Some "/api/")
        (DataManager.configureRoutes [Blog.post; Blog.tag])
      = Registered Routing.Router router
      /\ length router = 18%nat
      /\ map (fun added => (fst (fst added), snd (fst added))) (firstn 2 router)
         = [("POST", "/api/blog/posts/operations/create_batch");
            ("POST", "/api/blog/posts/operations/find")].
Proof.
  split.
  - apply (proj1 (data_manager_routes_call_upper_case_router_functions
                    Routing.Router Routing.lowerCase [] (Some "/api/")
                    [Blog.post; Blog.tag]) eq_refl Blog.post [Blog.tag] eq_refl).
  - eexists. split; [| split].
    + apply (proj2 (data_manager_routes_call_upper_case_router_functions
                      Routing.Router Routing.upperCase [] (Some "/api/")
                      [Blog.post; Blog.tag]) Routing.record).
      intros method [<- | [<- | [<- | [<- | []]]]]; eexists; split; reflexivity.
    + vm_compute. reflexivity.
    + vm_compute. reflexivity.
Defined.
